(** * ClientManager: document classification and plan comparison

    A shallow embedding of the two server-side pipelines of
    [server/routes.ts]:

    - the document pipeline: [extractTextFromDocument],
      [parsePlanDocumentText] and the batch upload handler
      ([POST /api/ocr/batch-upload]);
    - the plan comparison handler ([POST /api/clients/:id/compare]).

    Modelling conventions.

    - JavaScript strings are Rocq strings.  [toUpperCase], [toLowerCase]
      and the white-space class are the ASCII ones, so the development is
      exact for ASCII text (what the English OCR model and the catalogue
      carry).
    - JavaScript numbers are exact rationals ([Q]); [parseFloat] returns
      [NaN], an infinity or a rational.  Match scores are ratios of small
      integers, plan scores are integers.
    - [null]/[undefined] fields are [option]s.
    - Database and file-system effects are explicit state passing over a
      small [World] record. *)

From Stdlib Require Import String Ascii List ZArith QArith Qround Qabs Lia Lqa Bool.
From Stdlib Require Import Permutation Sorted.
Import ListNotations.
Local Open Scope string_scope.

(** ** JavaScript primitives *)

Module JS.

Definition code (c : ascii) : N := N_of_ascii c.

Definition inRange (lo hi : N) (c : ascii) : bool :=
  (lo <=? code c)%N && (code c <=? hi)%N.

Definition isDigit (c : ascii) : bool := inRange 48 57 c.
Definition isLower (c : ascii) : bool := inRange 97 122 c.
Definition isUpper (c : ascii) : bool := inRange 65 90 c.

(** The members of the regular-expression class [\s] below U+0100. *)
Definition isSpace (c : ascii) : bool :=
  inRange 9 13 c || (code c =? 32)%N || (code c =? 160)%N.

Definition upperChar (c : ascii) : ascii :=
  if isLower c then ascii_of_N (code c - 32) else c.

Definition lowerChar (c : ascii) : ascii :=
  if isUpper c then ascii_of_N (code c + 32) else c.

Fixpoint mapString (f : ascii -> ascii) (s : string) : string :=
  match s with
  | EmptyString => EmptyString
  | String c s' => String (f c) (mapString f s')
  end.

Definition toUpperCase : string -> string := mapString upperChar.
Definition toLowerCase : string -> string := mapString lowerChar.

(** [s.includes(pat)] *)
Fixpoint includes (s pat : string) : bool :=
  String.prefix pat s ||
  match s with
  | EmptyString => false
  | String _ s' => includes s' pat
  end.

Fixpoint trimStart (s : string) : string :=
  match s with
  | String c s' => if isSpace c then trimStart s' else s
  | EmptyString => EmptyString
  end.

Fixpoint allSpace (s : string) : bool :=
  match s with
  | EmptyString => true
  | String c s' => isSpace c && allSpace s'
  end.

Fixpoint trimEnd (s : string) : string :=
  match s with
  | EmptyString => EmptyString
  | String c s' => if allSpace s then EmptyString else String c (trimEnd s')
  end.

Definition trim (s : string) : string := trimEnd (trimStart s).

(** [s.split(/\s+/)]: the pieces between maximal runs of white space,
    empty leading and trailing pieces included. *)
Fixpoint splitWs (s : string) (cur : string) (inRun : bool) : list string :=
  match s with
  | EmptyString => [cur]
  | String c s' =>
      if isSpace c
      then if inRun then splitWs s' cur true
           else cur :: splitWs s' EmptyString true
      else splitWs s' (cur ++ String c EmptyString) false
  end.

Definition split_ws (s : string) : list string := splitWs s EmptyString false.

(** [Math.round]: the nearest integer, halves towards plus infinity. *)
Definition round (x : Q) : Z := Qfloor (x + (1 # 2)).

Definition Qlt_bool (x y : Q) : bool := negb (Qle_bool y x).

Definition Qmax (x y : Q) : Q := if Qle_bool x y then y else x.

(** A JavaScript number as [parseFloat] can return it. *)
Inductive num : Type :=
| NaN
| Inf (negative : bool)
| Fin (q : Q).

Definition digitVal (c : ascii) : option Z :=
  if isDigit c then Some (Z.of_N (code c) - 48)%Z else None.

Fixpoint readDigits (s : string) (acc : Z) (cnt : nat) : Z * nat * string :=
  match s with
  | String c s' =>
      match digitVal c with
      | Some d => readDigits s' (10 * acc + d)%Z (S cnt)
      | None => (acc, cnt, s)
      end
  | EmptyString => (acc, cnt, s)
  end.

Definition pow10 (e : Z) : Q := Qpower (10 # 1) e.

(** The optional [ExponentPart]: [e] or [E], an optional sign, at least
    one digit.  Anything else leaves the exponent at 0. *)
Definition readExponent (s : string) : Z :=
  match s with
  | String c s' =>
      if (code c =? 101)%N || (code c =? 69)%N then
        let '(neg, s'') :=
          match s' with
          | String d r =>
              if (code d =? 45)%N then (true, r)
              else if (code d =? 43)%N then (false, r)
              else (false, s')
          | EmptyString => (false, s')
          end in
        let '(v, n, _) := readDigits s'' 0%Z 0%nat in
        match n with
        | O => 0%Z
        | S _ => if neg then (- v)%Z else v
        end
      else 0%Z
  | EmptyString => 0%Z
  end.

(** The magnitude of a [StrUnsignedDecimalLiteral] prefix. *)
Definition readUnsigned (s : string) : num :=
  if String.prefix "Infinity" s then Inf false
  else
    let '(ip, ni, r1) := readDigits s 0%Z 0%nat in
    let '(fp, nf, r2) :=
      match r1 with
      | String c r =>
          if (code c =? 46)%N then readDigits r 0%Z 0%nat
          else (0%Z, 0%nat, r1)
      | EmptyString => (0%Z, 0%nat, r1)
      end in
    match (ni + nf)%nat with
    | O => NaN
    | S _ =>
        Fin ((inject_Z ip + inject_Z fp * pow10 (- Z.of_nat nf))
             * pow10 (readExponent r2))
    end.

Definition negate (x : num) : num :=
  match x with
  | NaN => NaN
  | Inf b => Inf (negb b)
  | Fin q => Fin (- q)
  end.

(** [parseFloat(s)] *)
Definition parseFloat (s : string) : num :=
  match trimStart s with
  | String c r =>
      if (code c =? 45)%N then negate (readUnsigned r)
      else if (code c =? 43)%N then readUnsigned r
      else readUnsigned (String c r)
  | EmptyString => NaN
  end.

(** [x - y] *)
Definition sub (x y : num) : num :=
  match x, y with
  | NaN, _ | _, NaN => NaN
  | Fin a, Fin b => Fin (a - b)
  | Inf a, Inf b => if Bool.eqb a b then NaN else Inf a
  | Inf a, Fin _ => Inf a
  | Fin _, Inf b => Inf (negb b)
  end.

(** [x < y]; every comparison with [NaN] is false. *)
Definition lt (x y : num) : bool :=
  match x, y with
  | NaN, _ | _, NaN => false
  | Fin a, Fin b => Qlt_bool a b
  | Inf a, Inf b => a && negb b
  | Inf a, Fin _ => a
  | Fin _, Inf b => negb b
  end.

Definition gt (x y : num) : bool := lt y x.

(** [Math.abs] *)
Definition abs (x : num) : num :=
  match x with
  | NaN => NaN
  | Inf _ => Inf false
  | Fin q => Fin (Qabs q)
  end.

Definition ofZ (z : Z) : num := Fin (inject_Z z).

(** [x || d] on a nullable string: [null] and the empty string are falsy. *)
Definition orDefault (x : option string) (d : string) : string :=
  match x with
  | Some EmptyString | None => d
  | Some s => s
  end.

(** Truthiness of a nullable string. *)
Definition truthy (x : option string) : bool :=
  match x with
  | Some EmptyString | None => false
  | Some _ => true
  end.

End JS.

(** ** The catalogue ([shared/schema.ts]) *)

Module Carrier.
Record t : Type := { id : Z; name : string }.
End Carrier.

Module Plan.
(** The columns of [plans] that the two pipelines read.  Numeric columns
    reach the server as nullable decimal strings; the two SNP flags are
    nullable booleans, [null] being falsy. *)
Record t : Type := {
  id : Z;
  carrierId : Z;
  name : string;
  stateCode : option string;
  monthlyPremium : option string;
  maxOutOfPocket : option string;
  primaryCareCopay : option string;
  specialistCopay : option string;
  isCSnp : bool;
  isDSnp : bool;
  counties : option (list string)
}.
End Plan.

Module Client.
Record t : Type := {
  id : Z;
  state : option string;
  county : option string;
  currentPlanId : option Z;
  usesMulticare : bool
}.
End Client.

(** ** Stable sorting, as [Array.prototype.sort] with the comparator
    [(a, b) => b.score - a.score] *)

Section Sort.
Context {A : Type} (score : A -> Q).

Fixpoint insertDesc (x : A) (l : list A) : list A :=
  match l with
  | [] => [x]
  | y :: l' =>
      if JS.Qlt_bool (score x) (score y) then y :: insertDesc x l'
      else x :: l
  end.

Definition sortDesc (l : list A) : list A := fold_right insertDesc [] l.
End Sort.

(** ** [parsePlanDocumentText] *)

Record CarrierMatch : Type := { cm_name : string; cm_score : Q }.
Record PlanMatch : Type := { pm_name : string; pm_carrier : string; pm_score : Q }.

Definition docTypePatterns : list (string * list string) :=
  [ ("SOB", ["SUMMARY OF BENEFITS"; "SUMMARY OF BENEFIT"; "SOB"]);
    ("EOC", ["EVIDENCE OF COVERAGE"; "EOC"]);
    ("ANOC", ["ANNUAL NOTICE OF CHANGE"; "ANNUAL NOTICE OF CHANGES"; "ANOC"]);
    ("PROVIDER_LIST", ["PROVIDER DIRECTORY"; "PROVIDER LIST"; "PROVIDER NETWORK"]);
    ("DRUG_FORMULARY",
      ["DRUG FORMULARY"; "FORMULARY"; "PRESCRIPTION DRUG LIST"; "COVERED DRUGS"]) ].

(** The two nested loops over [Object.entries(docTypePatterns)]: the first
    type, in declaration order, one of whose keywords occurs in the text;
    the empty string when there is none. *)
Fixpoint detectDocumentType (upperText : string)
    (patterns : list (string * list string)) : string :=
  match patterns with
  | [] => ""
  | (type, keywords) :: rest =>
      if existsb (JS.includes upperText) keywords then type
      else detectDocumentType upperText rest
  end.

(** [/[HS]\d{4}-\d{3}/] anchored at the head of [s]: the nine characters
    matched, if any. *)
Definition isHS (c : ascii) : bool :=
  (JS.code c =? 72)%N || (JS.code c =? 83)%N.

Definition isHyphen (c : ascii) : bool := (JS.code c =? 45)%N.

Definition planIdAt (s : string) : option string :=
  match s with
  | String a (String d1 (String d2 (String d3 (String d4
      (String h (String e1 (String e2 (String e3 _)))))))) =>
      if isHS a && JS.isDigit d1 && JS.isDigit d2 && JS.isDigit d3
         && JS.isDigit d4 && isHyphen h && JS.isDigit e1 && JS.isDigit e2
         && JS.isDigit e3
      then Some (String a (String d1 (String d2 (String d3 (String d4
             (String h (String e1 (String e2 (String e3 EmptyString)))))))))
      else None
  | _ => None
  end.

(** [text.match(/[HS]\d{4}-\d{3}/g) || []]: the matches from left to
    right, the search resuming after the end of each match.  [skip] counts
    the characters of the last match that are still to be passed over. *)
Fixpoint matchPlanIds (s : string) (skip : nat) : list string :=
  match s with
  | EmptyString => []
  | String _ s' =>
      match skip with
      | S k => matchPlanIds s' k
      | O =>
          match planIdAt s with
          | Some tok => tok :: matchPlanIds s' 8
          | None => matchPlanIds s' 0
          end
      end
  end.

Definition foundPlanIdsOf (text : string) : list string := matchPlanIds text 0.

Definition Q100 : Q := 100 # 1.

(** The word-overlap score shared by the carrier and the plan loop:
    [name.split(/\s+/).filter(w => w.length > 2)], the number of those
    words occurring in the text, over their number, times [factor]; 0 when
    there is no such word. *)
Definition significantWords (upperName : string) : list string :=
  filter (fun w => (2 <? String.length w)%nat) (JS.split_ws upperName).

Definition wordOverlap (upperText upperName : string) (factor : Q) : Q :=
  let words := significantWords upperName in
  let matchedWords := List.length (filter (JS.includes upperText) words) in
  if (0 <? List.length words)%nat
  then (inject_Z (Z.of_nat matchedWords) / inject_Z (Z.of_nat (List.length words)))
       * factor
  else 0.

Definition carrierScore (upperText : string) (carrier : Carrier.t) : Q :=
  let carrierName := JS.toUpperCase (Carrier.name carrier) in
  if JS.includes upperText carrierName then Q100
  else wordOverlap upperText carrierName Q100.

Record CarrierLoop : Type := {
  bestCarrierMatch : option Carrier.t;
  bestCarrierScore : Q;
  carrierMatches : list CarrierMatch
}.

Definition carrierStep (upperText : string) (st : CarrierLoop)
    (carrier : Carrier.t) : CarrierLoop :=
  let score := carrierScore upperText carrier in
  let matches := (carrierMatches st
                  ++ [{| cm_name := Carrier.name carrier; cm_score := score |}])%list in
  if JS.Qlt_bool (bestCarrierScore st) score then
    {| bestCarrierMatch :=
         if Qle_bool (50 # 1) score then Some carrier else bestCarrierMatch st;
       bestCarrierScore := score;
       carrierMatches := matches |}
  else
    {| bestCarrierMatch := bestCarrierMatch st;
       bestCarrierScore := bestCarrierScore st;
       carrierMatches := matches |}.

Definition carrierLoop (upperText : string) (carriers : list Carrier.t)
    : CarrierLoop :=
  fold_left (carrierStep upperText) carriers
    {| bestCarrierMatch := None; bestCarrierScore := 0; carrierMatches := [] |}.

(** The score of one plan: plan-ID hit, then verbatim name, then word
    overlap, each later test guarded by [score === 0]. *)
Definition planScore (upperText : string) (foundPlanIds : list string)
    (plan : Plan.t) : Q :=
  let planName := JS.toUpperCase (Plan.name plan) in
  let score : Q := if existsb (JS.includes planName) foundPlanIds then Q100 else 0 in
  let score : Q :=
    if Qeq_bool score 0 && JS.includes upperText planName then 90 # 1 else score in
  let score : Q :=
    if Qeq_bool score 0 then wordOverlap upperText planName (80 # 1) else score in
  score.

Record PlanLoop : Type := {
  bestPlanMatch : option Plan.t;
  bestPlanScore : Q;
  planMatches : list PlanMatch
}.

(** [carriers.find(c => c.id === plan.carrierId)?.name || "Unknown"] *)
Definition carrierNameOf (carriers : list Carrier.t) (plan : Plan.t) : string :=
  JS.orDefault
    (option_map Carrier.name
       (find (fun c => (Carrier.id c =? Plan.carrierId plan)%Z) carriers))
    "Unknown".

(** [bestCarrierMatch && plan.carrierId === bestCarrierMatch.id] *)
Definition ofCarrier (best : option Carrier.t) (plan : Plan.t) : bool :=
  match best with
  | Some c => (Plan.carrierId plan =? Carrier.id c)%Z
  | None => false
  end.

Definition isSome {A : Type} (x : option A) : bool :=
  match x with Some _ => true | None => false end.

Definition planStep (upperText : string) (foundPlanIds : list string)
    (carriers : list Carrier.t) (best : option Carrier.t)
    (st : PlanLoop) (plan : Plan.t) : PlanLoop :=
  let score := planScore upperText foundPlanIds plan in
  let matches := (planMatches st
                  ++ [{| pm_name := Plan.name plan;
                         pm_carrier := carrierNameOf carriers plan;
                         pm_score := score |}])%list in
  if JS.Qlt_bool (bestPlanScore st) score
     || (Qeq_bool score (bestPlanScore st) && ofCarrier best plan)
  then
    {| bestPlanMatch :=
         if Qle_bool (40 # 1) score then
           if negb (isSome best) || ofCarrier best plan then Some plan
           else if negb (isSome (bestPlanMatch st)) then Some plan
           else bestPlanMatch st
         else bestPlanMatch st;
       bestPlanScore := score;
       planMatches := matches |}
  else
    {| bestPlanMatch := bestPlanMatch st;
       bestPlanScore := bestPlanScore st;
       planMatches := matches |}.

Definition planLoop (upperText : string) (foundPlanIds : list string)
    (carriers : list Carrier.t) (best : option Carrier.t)
    (plans : list Plan.t) : PlanLoop :=
  fold_left (planStep upperText foundPlanIds carriers best) plans
    {| bestPlanMatch := None; bestPlanScore := 0; planMatches := [] |}.

(** The confidence before rounding. *)
Definition rawConfidence (bestCarrier : option Carrier.t) (bestCarrierScore : Q)
    (bestPlan : option Plan.t) (bestPlanScore : Q) : Q :=
  match bestCarrier, bestPlan with
  | Some c, Some p =>
      if (Plan.carrierId p =? Carrier.id c)%Z
      then (bestCarrierScore + bestPlanScore) / (2 # 1)
      else ((bestCarrierScore + bestPlanScore) / (2 # 1)) * (7 # 10)
  | None, None => 0
  | _, _ => JS.Qmax bestCarrierScore bestPlanScore * (6 # 10)
  end.

(** The object returned by [parsePlanDocumentText].  [extractedBenefits]
    records the argument handed to [extractPlanBenefits] when the benefit
    parser is run (for SOB documents), [None] standing for the empty
    object. *)
Module Extracted.
Record t : Type := {
  carrier : option Carrier.t;
  plan : option Plan.t;
  documentType : string;
  confidence : Z;
  carrierMatches : list CarrierMatch;
  planMatches : list PlanMatch;
  extractedBenefits : option string;
  detectedPlanIds : list string
}.
End Extracted.

Definition parsePlanDocumentText (text : string) (carriers : list Carrier.t)
    (plans : list Plan.t) : Extracted.t :=
  let upperText := JS.toUpperCase text in
  let documentType := detectDocumentType upperText docTypePatterns in
  let foundPlanIds := foundPlanIdsOf text in
  let cl := carrierLoop upperText carriers in
  let pl := planLoop upperText foundPlanIds carriers (bestCarrierMatch cl) plans in
  {| Extracted.carrier := bestCarrierMatch cl;
     Extracted.plan := bestPlanMatch pl;
     Extracted.documentType := JS.orDefault (Some documentType) "UNKNOWN";
     Extracted.confidence :=
       JS.round (rawConfidence (bestCarrierMatch cl) (bestCarrierScore cl)
                   (bestPlanMatch pl) (bestPlanScore pl));
     Extracted.carrierMatches := sortDesc cm_score (carrierMatches cl);
     Extracted.planMatches := sortDesc pm_score (planMatches pl);
     Extracted.extractedBenefits :=
       if String.eqb documentType "SOB" then Some text else None;
     Extracted.detectedPlanIds := foundPlanIds |}.

(** ** [extractTextFromDocument] *)

(** What a callee can throw: an [Error] with its message, or another value. *)
Inductive Thrown : Type :=
| ErrorWith (message : string)
| NotAnError.

Inductive Outcome (A : Type) : Type :=
| Returns (a : A)
| Throws (e : Thrown).
Arguments Returns {A} a.
Arguments Throws {A} e.

(** An uploaded file ([Express.Multer.File]) together with what the two
    extraction back ends answer for its content: [pdfText] is the outcome
    of reading the file and of [parser.getText()], down to [result.text];
    [ocrText] is the outcome of [Tesseract.recognize].  The multer storage
    keeps the extension of the original name in [path]. *)
Module Upload.
Record t : Type := {
  originalname : string;
  mimetype : string;
  size : Z;
  extname : string;
  pdfText : Outcome (option string);
  ocrText : Outcome string
}.
End Upload.

Definition scannedPdfMessage : string :=
  "This appears to be a scanned PDF. Please convert the document to JPG or PNG format and re-upload for OCR processing.".

Definition pdfFailureMessage : string :=
  "Failed to extract text from PDF. For scanned documents, please convert to JPG or PNG format.".

(** The [try] block of the PDF branch. *)
Definition pdfTry (file : Upload.t) : Outcome string :=
  match Upload.pdfText file with
  | Throws e => Throws e
  | Returns text =>
      let extractedText := JS.orDefault text "" in
      if (String.length (JS.trim extractedText) <? 50)%nat
      then Throws (ErrorWith scannedPdfMessage)
      else Returns extractedText
  end.

(** The [catch] block: the scanned-PDF error is re-thrown, anything else is
    replaced by the generic failure.  The [finally] block only releases the
    parser. *)
Definition pdfCatch (r : Outcome string) : Outcome string :=
  match r with
  | Returns text => Returns text
  | Throws (ErrorWith message) =>
      if JS.includes message "scanned PDF" then Throws (ErrorWith message)
      else Throws (ErrorWith pdfFailureMessage)
  | Throws NotAnError => Throws (ErrorWith pdfFailureMessage)
  end.

Definition extractTextFromDocument (file : Upload.t) : Outcome string :=
  let ext := JS.toLowerCase (Upload.extname file) in
  if String.eqb ext ".pdf" then pdfCatch (pdfTry file)
  else Upload.ocrText file.

(** ** The batch upload handler *)

(** The name under which an accepted file is copied to
    [uploaded_documents/]: [safeDocType_planId_timestamp.ext]. *)
Record StoredName : Type := {
  safeDocType : string;
  forPlan : Z;
  timestamp : Z;
  fileExtension : string
}.

Module PlanDocument.
Record t : Type := {
  id : Z;
  planId : Z;
  documentType : string;
  fileName : string;
  filePath : StoredName;
  fileSize : Z
}.
End PlanDocument.

(** The [plan_documents] table with its identity counter, and the content
    of the documents directory. *)
Record World : Type := {
  planDocuments : list PlanDocument.t;
  nextDocumentId : Z;
  uploaded_documents : list StoredName
}.

Record Suggestions : Type := {
  possibleCarriers : list CarrierMatch;
  possiblePlans : list PlanMatch
}.

(** One entry of [results]. *)
Inductive BatchResult : Type :=
| Failed (fileName error : string)
| NeedsReview (fileName error extractedText : string)
    (suggestions : Suggestions) (extractedBenefits : option string)
| Assigned (fileName carrier plan : string) (planId : Z)
    (documentType : string) (documentId confidence : Z)
    (extractedBenefits : option string).

Definition success (r : BatchResult) : bool :=
  match r with
  | Assigned _ _ _ _ _ _ _ _ => true
  | _ => false
  end.

(** [documentType.replace(/[^a-zA-Z0-9]/g, '_')] *)
Definition sanitize (s : string) : string :=
  JS.mapString
    (fun c => if JS.isLower c || JS.isUpper c || JS.isDigit c then c else "_"%char)
    s.

(** The four-way test in front of the save:
    [!carrier || !plan || plan.carrierId !== carrier.id || confidence < 40]. *)
Definition rejected (extracted : Extracted.t) : bool :=
  match Extracted.carrier extracted, Extracted.plan extracted with
  | Some c, Some p =>
      negb (Plan.carrierId p =? Carrier.id c)%Z
      || (Extracted.confidence extracted <? 40)%Z
  | _, _ => true
  end.

Definition rejectionMessage (extracted : Extracted.t) : string :=
  match Extracted.carrier extracted, Extracted.plan extracted with
  | Some c, Some p =>
      if negb (Plan.carrierId p =? Carrier.id c)%Z
      then "Carrier and plan mismatch - cannot auto-assign"
      else if (Extracted.confidence extracted <? 40)%Z
      then "Low confidence match - manual review required"
      else "Could not identify carrier or plan"
  | _, _ =>
      if (Extracted.confidence extracted <? 40)%Z
      then "Low confidence match - manual review required"
      else "Could not identify carrier or plan"
  end.

(** [storage.createPlanDocument]: an insert returning the new row. *)
Definition createPlanDocument (w : World) (planId : Z) (documentType fileName : string)
    (filePath : StoredName) (fileSize : Z) : PlanDocument.t * World :=
  let doc := {| PlanDocument.id := nextDocumentId w;
                PlanDocument.planId := planId;
                PlanDocument.documentType := documentType;
                PlanDocument.fileName := fileName;
                PlanDocument.filePath := filePath;
                PlanDocument.fileSize := fileSize |} in
  (doc, {| planDocuments := (planDocuments w ++ [doc])%list;
           nextDocumentId := (nextDocumentId w + 1)%Z;
           uploaded_documents := uploaded_documents w |}).

(** [fs.copyFileSync(file.path, newPath)] *)
Definition copyFile (w : World) (newFileName : StoredName) : World :=
  {| planDocuments := planDocuments w;
     nextDocumentId := nextDocumentId w;
     uploaded_documents := (uploaded_documents w ++ [newFileName])%list |}.

(** The body of the loop over the uploaded files; [now] is [Date.now()]. *)
Definition processFile (carriers : list Carrier.t) (plans : list Plan.t)
    (w : World) (file : Upload.t) (now : Z) : BatchResult * World :=
  match extractTextFromDocument file with
  | Throws (ErrorWith message) => (Failed (Upload.originalname file) message, w)
  | Throws NotAnError =>
      (Failed (Upload.originalname file) "Failed to extract text from document", w)
  | Returns text =>
      if (String.length (JS.trim text) =? 0)%nat
      then (Failed (Upload.originalname file) "No text found in document", w)
      else
        let extracted := parsePlanDocumentText text carriers plans in
        match Extracted.carrier extracted, Extracted.plan extracted with
        | Some c, Some p =>
            if rejected extracted then
              (NeedsReview (Upload.originalname file) (rejectionMessage extracted)
                 (String.substring 0 500 text)
                 {| possibleCarriers := firstn 3 (Extracted.carrierMatches extracted);
                    possiblePlans := firstn 3 (Extracted.planMatches extracted) |}
                 (Extracted.extractedBenefits extracted), w)
            else
              let newFileName :=
                {| safeDocType := sanitize (Extracted.documentType extracted);
                   forPlan := Plan.id p;
                   timestamp := now;
                   fileExtension := Upload.extname file |} in
              let w1 := copyFile w newFileName in
              let '(planDocument, w2) :=
                createPlanDocument w1 (Plan.id p) (Extracted.documentType extracted)
                  (Upload.originalname file) newFileName (Upload.size file) in
              (Assigned (Upload.originalname file) (Carrier.name c) (Plan.name p)
                 (Plan.id p) (Extracted.documentType extracted)
                 (PlanDocument.id planDocument) (Extracted.confidence extracted)
                 (Extracted.extractedBenefits extracted), w2)
        | _, _ =>
            (NeedsReview (Upload.originalname file) (rejectionMessage extracted)
               (String.substring 0 500 text)
               {| possibleCarriers := firstn 3 (Extracted.carrierMatches extracted);
                  possiblePlans := firstn 3 (Extracted.planMatches extracted) |}
               (Extracted.extractedBenefits extracted), w)
        end
  end.





(** ** The comparison handler *)

(** The justification pushed by a scoring rule; the amounts are the
    numbers that the source formats into the sentence. *)
Inductive Reason : Type :=
| SavesOnPremium (premiumSavings : JS.num)
| HigherPremium (increase : JS.num)
| LowerMoop (moopSavings : JS.num)
| LowerPrimaryCareCopay
| LowerSpecialistCopay
| CSnpPlan
| DSnpPlan.

Module Scored.
Record t : Type := { plan : Plan.t; score : Z; reasons : list Reason }.
End Scored.

Definition Tally : Type := (Z * list Reason)%type.

Definition bump (t : Tally) (points : Z) (r : Reason) : Tally :=
  ((fst t + points)%Z, (snd t ++ [r])%list).

Definition premiumRule (currentPlan plan : Plan.t) (t : Tally) : Tally :=
  let currentPremium := JS.parseFloat (JS.orDefault (Plan.monthlyPremium currentPlan) "0") in
  let planPremium := JS.parseFloat (JS.orDefault (Plan.monthlyPremium plan) "0") in
  let premiumSavings := JS.sub currentPremium planPremium in
  if JS.gt premiumSavings (JS.ofZ 50) then bump t 40 (SavesOnPremium premiumSavings)
  else if JS.gt premiumSavings (JS.ofZ 20) then bump t 25 (SavesOnPremium premiumSavings)
  else if JS.gt premiumSavings (JS.ofZ 0) then bump t 10 (SavesOnPremium premiumSavings)
  else if JS.lt premiumSavings (JS.ofZ (-20))
       then bump t (-20) (HigherPremium (JS.abs premiumSavings))
  else t.

Definition moopRule (currentPlan plan : Plan.t) (t : Tally) : Tally :=
  let currentMoop := JS.parseFloat (JS.orDefault (Plan.maxOutOfPocket currentPlan) "999999") in
  let planMoop := JS.parseFloat (JS.orDefault (Plan.maxOutOfPocket plan) "999999") in
  if JS.lt planMoop currentMoop
  then bump t 30 (LowerMoop (JS.sub currentMoop planMoop))
  else t.

Definition pcpRule (currentPlan plan : Plan.t) (t : Tally) : Tally :=
  let currentPcpCopay := JS.parseFloat (JS.orDefault (Plan.primaryCareCopay currentPlan) "0") in
  let planPcpCopay := JS.parseFloat (JS.orDefault (Plan.primaryCareCopay plan) "0") in
  if JS.lt planPcpCopay currentPcpCopay then bump t 10 LowerPrimaryCareCopay else t.

Definition specialistRule (currentPlan plan : Plan.t) (t : Tally) : Tally :=
  let currentSpecCopay := JS.parseFloat (JS.orDefault (Plan.specialistCopay currentPlan) "0") in
  let planSpecCopay := JS.parseFloat (JS.orDefault (Plan.specialistCopay plan) "0") in
  if JS.lt planSpecCopay currentSpecCopay then bump t 10 LowerSpecialistCopay else t.

Definition snpRule (plan : Plan.t) (t : Tally) : Tally :=
  if Plan.isCSnp plan || Plan.isDSnp plan
  then bump t 15 (if Plan.isCSnp plan then CSnpPlan else DSnpPlan)
  else t.

(** The callback of [availablePlans.map]: the rules fire in source order
    on a score that starts at 100.  The [usesMulticare] block of the source
    changes neither score nor reasons. *)
Definition scorePlan (currentPlan plan : Plan.t) : Scored.t :=
  let t : Tally := (100%Z, []) in
  let t := premiumRule currentPlan plan t in
  let t := moopRule currentPlan plan t in
  let t := pcpRule currentPlan plan t in
  let t := specialistRule currentPlan plan t in
  let t := snpRule plan t in
  {| Scored.plan := plan; Scored.score := fst t; Scored.reasons := snd t |}.

(** [a === b] on nullable strings. *)
Definition sameString (a b : option string) : bool :=
  match a, b with
  | Some x, Some y => String.eqb x y
  | None, None => true
  | _, _ => false
  end.

(** [plan.counties && plan.counties.includes(county)] *)
Definition listsCounty (plan : Plan.t) (county : string) : bool :=
  match Plan.counties plan with
  | Some cs => existsb (String.eqb county) cs
  | None => false
  end.

Definition availablePlans (clientState : option string) (county : string)
    (currentPlan : Plan.t) (allPlans : list Plan.t) : list Plan.t :=
  filter (fun plan =>
            sameString (Plan.stateCode plan) clientState
            && listsCounty plan county
            && negb (Plan.id plan =? Plan.id currentPlan)%Z)
         allPlans.

Definition scoreOf (s : Scored.t) : Q := inject_Z (Scored.score s).

Definition rankPlans (currentPlan : Plan.t) (available : list Plan.t)
    : list Scored.t :=
  sortDesc scoreOf (map (scorePlan currentPlan) available).

Definition top3Of (currentPlan : Plan.t) (available : list Plan.t)
    : list Scored.t :=
  firstn 3 (rankPlans currentPlan available).

(** [storage.getPlan(id)] over the rows that [storage.getAllPlans()] returns. *)
Definition getPlan (allPlans : list Plan.t) (id : Z) : option Plan.t :=
  find (fun p => (Plan.id p =? id)%Z) allPlans.

Inductive CompareResponse : Type :=
| CompareError (status : Z) (error : string)
| Comparison (currentPlan : Plan.t) (recommendedPlans : list Scored.t)
    (totalPlansConsidered : nat).

(** The handler from the point where the client row has been read. *)
Definition compare (client : Client.t) (allPlans : list Plan.t) : CompareResponse :=
  if negb (JS.truthy (Client.county client))
  then CompareError 400 "Client must have county specified"
  else
    match Client.currentPlanId client with
    | None => CompareError 400 "Client must have current plan specified"
    | Some planId =>
        if (planId =? 0)%Z
        then CompareError 400 "Client must have current plan specified"
        else
          match getPlan allPlans planId with
          | None => CompareError 404 "Current plan not found"
          | Some currentPlan =>
              let available :=
                availablePlans (Client.state client)
                  (JS.orDefault (Client.county client) "") currentPlan allPlans in
              Comparison currentPlan (top3Of currentPlan available)
                (List.length available)
          end
    end.

(** The recommendation filter of [storage.getRecommendedPlans] compares
    counties after [toLowerCase().trim()] on both sides. *)
Definition sameCountyLoose (c county : string) : bool :=
  String.eqb (JS.trim (JS.toLowerCase c)) (JS.trim (JS.toLowerCase county)).

(** ** Vocabulary of the statements *)

(** [tok] is a whole plan-ID token: the pattern matches it entirely. *)
Definition isPlanIdToken (tok : string) : Prop := planIdAt tok = Some tok.

(** The first [k] characters of [s] are neither [H] nor [S]. *)
Fixpoint noHS (k : nat) (s : string) : bool :=
  match k, s with
  | S k', String c s' => negb (isHS c) && noHS k' s'
  | _, _ => true
  end.

(** A list ranked by decreasing score. *)
Definition descending {A : Type} (score : A -> Q) : list A -> Prop :=
  StronglySorted (fun a b => score b <= score a).

(** The entry pushed on [carrierMatches], resp. [planMatches], for one
    catalogue row. *)
Definition carrierEntry (upperText : string) (c : Carrier.t) : CarrierMatch :=
  {| cm_name := Carrier.name c; cm_score := carrierScore upperText c |}.

Definition planEntry (upperText : string) (foundPlanIds : list string)
    (carriers : list Carrier.t) (p : Plan.t) : PlanMatch :=
  {| pm_name := Plan.name p;
     pm_carrier := carrierNameOf carriers p;
     pm_score := planScore upperText foundPlanIds p |}.

Definition inUnit100 (x : Q) : Prop := 0 <= x /\ x <= Q100.

(** The acceptance condition of the batch handler, positively: carrier and
    plan both matched, the plan is the carrier's, the rounded confidence is
    at least 40. *)
Definition acceptable (e : Extracted.t) : Prop :=
  exists c p,
    Extracted.carrier e = Some c /\ Extracted.plan e = Some p
    /\ Plan.carrierId p = Carrier.id c
    /\ (40 <= Extracted.confidence e)%Z.


(** No keyword of any document type occurs in the upper-cased text. *)
Definition noKeyword (text : string) : Prop :=
  existsb (fun entry => existsb (JS.includes (JS.toUpperCase text)) (snd entry))
    docTypePatterns = false.


(** A numeric field that is [null] or empty. *)
Definition missing (x : option string) : Prop := JS.truthy x = false.

Definition withPremium (x : option string) (p : Plan.t) : Plan.t :=
  {| Plan.id := Plan.id p; Plan.carrierId := Plan.carrierId p;
     Plan.name := Plan.name p; Plan.stateCode := Plan.stateCode p;
     Plan.monthlyPremium := x; Plan.maxOutOfPocket := Plan.maxOutOfPocket p;
     Plan.primaryCareCopay := Plan.primaryCareCopay p;
     Plan.specialistCopay := Plan.specialistCopay p;
     Plan.isCSnp := Plan.isCSnp p; Plan.isDSnp := Plan.isDSnp p;
     Plan.counties := Plan.counties p |}.

Definition withMoop (x : option string) (p : Plan.t) : Plan.t :=
  {| Plan.id := Plan.id p; Plan.carrierId := Plan.carrierId p;
     Plan.name := Plan.name p; Plan.stateCode := Plan.stateCode p;
     Plan.monthlyPremium := Plan.monthlyPremium p; Plan.maxOutOfPocket := x;
     Plan.primaryCareCopay := Plan.primaryCareCopay p;
     Plan.specialistCopay := Plan.specialistCopay p;
     Plan.isCSnp := Plan.isCSnp p; Plan.isDSnp := Plan.isDSnp p;
     Plan.counties := Plan.counties p |}.

Definition withPrimaryCareCopay (x : option string) (p : Plan.t) : Plan.t :=
  {| Plan.id := Plan.id p; Plan.carrierId := Plan.carrierId p;
     Plan.name := Plan.name p; Plan.stateCode := Plan.stateCode p;
     Plan.monthlyPremium := Plan.monthlyPremium p;
     Plan.maxOutOfPocket := Plan.maxOutOfPocket p;
     Plan.primaryCareCopay := x;
     Plan.specialistCopay := Plan.specialistCopay p;
     Plan.isCSnp := Plan.isCSnp p; Plan.isDSnp := Plan.isDSnp p;
     Plan.counties := Plan.counties p |}.

Definition withSpecialistCopay (x : option string) (p : Plan.t) : Plan.t :=
  {| Plan.id := Plan.id p; Plan.carrierId := Plan.carrierId p;
     Plan.name := Plan.name p; Plan.stateCode := Plan.stateCode p;
     Plan.monthlyPremium := Plan.monthlyPremium p;
     Plan.maxOutOfPocket := Plan.maxOutOfPocket p;
     Plan.primaryCareCopay := Plan.primaryCareCopay p;
     Plan.specialistCopay := x;
     Plan.isCSnp := Plan.isCSnp p; Plan.isDSnp := Plan.isDSnp p;
     Plan.counties := Plan.counties p |}.

(** Score and reasons of a scored plan, without the plan itself. *)
Definition verdict (s : Scored.t) : Z * list Reason :=
  (Scored.score s, Scored.reasons s).

(** The entry returned for a result that is turned down. *)
Definition reviewEntry (file : Upload.t) (text : string)
    (carriers : list Carrier.t) (plans : list Plan.t) : BatchResult :=
  let e := parsePlanDocumentText text carriers plans in
  NeedsReview (Upload.originalname file) (rejectionMessage e)
    (String.substring 0 500 text)
    {| possibleCarriers :=
         firstn 3 (sortDesc cm_score
                     (map (carrierEntry (JS.toUpperCase text)) carriers));
       possiblePlans :=
         firstn 3 (sortDesc pm_score
                     (map (planEntry (JS.toUpperCase text) (foundPlanIdsOf text)
                             carriers) plans)) |}
    (Extracted.extractedBenefits e).

(** The record inserted for an accepted result. *)
Definition acceptedDocument (w : World) (file : Upload.t) (now : Z)
    (e : Extracted.t) (p : Plan.t) : PlanDocument.t :=
  {| PlanDocument.id := nextDocumentId w;
     PlanDocument.planId := Plan.id p;
     PlanDocument.documentType := Extracted.documentType e;
     PlanDocument.fileName := Upload.originalname file;
     PlanDocument.filePath :=
       {| safeDocType := sanitize (Extracted.documentType e);
          forPlan := Plan.id p; timestamp := now;
          fileExtension := Upload.extname file |};
     PlanDocument.fileSize := Upload.size file |}.

(** What a scoring rule adds to the score. *)
Definition points (rule : Tally -> Tally) : Z := fst (rule (0%Z, [])).

(** ** Sample data *)

Definition mkCarrier (i : Z) (n : string) : Carrier.t :=
  {| Carrier.id := i; Carrier.name := n |}.

Definition mkPlan (i c : Z) (n : string) (st : option string)
    (premium moop : option string) (cs : option (list string)) : Plan.t :=
  {| Plan.id := i; Plan.carrierId := c; Plan.name := n; Plan.stateCode := st;
     Plan.monthlyPremium := premium; Plan.maxOutOfPocket := moop;
     Plan.primaryCareCopay := None; Plan.specialistCopay := None;
     Plan.isCSnp := false; Plan.isDSnp := false; Plan.counties := cs |}.

Definition catalogPlan (i c : Z) (n : string) : Plan.t :=
  mkPlan i c n None None None None.

Definition mkUpload (n ext : string) (mime : string)
    (pdf : Outcome (option string)) (ocr : Outcome string) : Upload.t :=
  {| Upload.originalname := n; Upload.mimetype := mime; Upload.size := 2048;
     Upload.extname := ext; Upload.pdfText := pdf; Upload.ocrText := ocr |}.

Definition emptyWorld : World :=
  {| planDocuments := []; nextDocumentId := 1; uploaded_documents := [] |}.

Definition aetna : Carrier.t := mkCarrier 1 "Aetna".
Definition humana : Carrier.t := mkCarrier 2 "Humana Inc".

(** A hand-book page that names the carrier and the plan but carries no
    document-type keyword. *)
Definition handbookText : string := "Aetna Gold Plan member handbook".
Definition handbook : Upload.t :=
  mkUpload "handbook.png" ".png" "image/png" (Throws NotAnError)
    (Returns handbookText).
Definition goldPlan : Plan.t := catalogPlan 10 1 "Gold Plan".

Definition flyerText : string := "AETNA GOLD PLAN H5216-321".
Definition advantageGold : Plan.t := catalogPlan 11 2 "Advantage Gold H5216-321".


Definition sampleCurrent : Plan.t :=
  mkPlan 1 1 "Current" (Some "WA") (Some "120") (Some "6000") (Some ["King"]).
Definition sampleA : Plan.t :=
  mkPlan 2 1 "A" (Some "WA") (Some "60") (Some "5000") (Some ["King"]).
Definition sampleB : Plan.t :=
  mkPlan 3 1 "B" (Some "WA") (Some "135") (Some "7000") (Some ["King"]).
Definition sampleClient : Client.t :=
  {| Client.id := 7; Client.state := Some "WA"; Client.county := Some "King";
     Client.currentPlanId := Some 1%Z; Client.usesMulticare := false |}.

Definition noMoopOnRecord : Plan.t :=
  mkPlan 1 1 "Current" (Some "WA") (Some "120") None (Some ["King"]).
Definition sentinelMoop : Plan.t :=
  mkPlan 2 1 "Catastrophic" (Some "WA") (Some "120") (Some "999999.00")
    (Some ["King"]).

(** The plan loop on the flyer after its first iteration, over "Gold Plan". *)
Definition afterGoldPlan : PlanLoop :=
  planStep (JS.toUpperCase flyerText) (foundPlanIdsOf flyerText)
    [aetna; humana] (Some aetna)
    {| bestPlanMatch := None; bestPlanScore := 0; planMatches := [] |}
    goldPlan.

(** A scanned PDF: its text layer is a page number. *)
Definition scannedPdf : Upload.t :=
  mkUpload "scan.pdf" ".PDF" "application/pdf" (Returns (Some "  Page 1  "))
    (Returns "").

(** A page on which nothing of the catalogue is found. *)
Definition strayText : string := "Dear member, welcome.".


(** * Vocabulary of the further properties *)

(** What the carrier loop knows after the carriers [seen]. *)
Definition carrierInv (upperText : string) (seen : list Carrier.t)
    (st : CarrierLoop) : Prop :=
  (forall c, In c seen -> carrierScore upperText c <= bestCarrierScore st)
  /\ (bestCarrierMatch st = None -> bestCarrierScore st < 50 # 1)
  /\ (forall c, bestCarrierMatch st = Some c ->
        In c seen /\ bestCarrierScore st = carrierScore upperText c
        /\ 50 # 1 <= carrierScore upperText c).

(** What the plan loop knows after the plans [seen]. *)
Definition planInv (upperText : string) (foundPlanIds : list string)
    (seen : list Plan.t) (st : PlanLoop) : Prop :=
  (forall p, In p seen -> planScore upperText foundPlanIds p <= bestPlanScore st)
  /\ (bestPlanMatch st = None -> bestPlanScore st < 40 # 1)
  /\ (forall p, bestPlanMatch st = Some p ->
        In p seen /\ 40 # 1 <= planScore upperText foundPlanIds p).


(** The candidates of a ranked list that have the score [v]. *)
Definition scoring {A : Type} (score : A -> Q) (v : Q) (l : list A) : list A :=
  filter (fun y => Qeq_bool (score y) v) l.


(** The number behind a nullable numeric column, with the default that the
    comparison gives it. *)
Definition numberOf (x : option string) (default : string) : JS.num :=
  JS.parseFloat (JS.orDefault x default).

(** [x <= y] on two finite numbers. *)
Definition finiteLe (x y : JS.num) : Prop :=
  match x, y with
  | JS.Fin a, JS.Fin b => a <= b
  | _, _ => False
  end.

(** * Further handlers *)

(** ** Documents of a plan ([server/storage.ts]) *)

Definition REQUIRED_DOCUMENT_TYPES : list string :=
  ["SOB"; "EOC"; "ANOC"; "PROVIDER_LIST"; "DRUG_FORMULARY"].

(** [storage.getDocumentsByPlan] and [storage.getPlanDocuments]: the rows
    of [plan_documents] with the given plan id. *)
Definition getDocumentsByPlan (w : World) (planId : Z) : list PlanDocument.t :=
  filter (fun doc => (PlanDocument.planId doc =? planId)%Z) (planDocuments w).

(** [storage.getMissingDocuments]: the required types that are not in the
    set of the types of the plan's documents. *)
Definition getMissingDocuments (w : World) (planId : Z) : list string :=
  let existingTypes :=
    map PlanDocument.documentType (getDocumentsByPlan w planId) in
  filter (fun type => negb (existsb (String.eqb type) existingTypes))
    REQUIRED_DOCUMENT_TYPES.

(** [storage.deletePlanDocument] *)
Definition deletePlanDocument (w : World) (id : Z) : World :=
  {| planDocuments :=
       filter (fun doc => negb (PlanDocument.id doc =? id)%Z) (planDocuments w);
     nextDocumentId := nextDocumentId w;
     uploaded_documents := uploaded_documents w |}.

Definition sameName (a b : StoredName) : bool :=
  String.eqb (safeDocType a) (safeDocType b)
  && (forPlan a =? forPlan b)%Z
  && (timestamp a =? timestamp b)%Z
  && String.eqb (fileExtension a) (fileExtension b).

(** [if (fs.existsSync(p)) fs.unlinkSync(p)] on a file of the documents
    directory. *)
Definition unlinkDocument (w : World) (name : StoredName) : World :=
  {| planDocuments := planDocuments w;
     nextDocumentId := nextDocumentId w;
     uploaded_documents :=
       filter (fun f => negb (sameName f name)) (uploaded_documents w) |}.

(** ** [POST /api/plans/:id/documents]: the manual upload of one document *)

(** [s.replace(/[^.a-zA-Z0-9]/g, '')] *)
Fixpoint keepSafe (s : string) : string :=
  match s with
  | EmptyString => EmptyString
  | String c s' =>
      if JS.isLower c || JS.isUpper c || JS.isDigit c || (JS.code c =? 46)%N
      then String c (keepSafe s')
      else keepSafe s'
  end.

Inductive UploadResponse : Type :=
| UploadRefused (status : Z) (error : string)
| Created (document : PlanDocument.t).

(** The handler, from the point where the plan id of the route has been
    parsed and a file has been received.  [documentType] is the field of
    the request body.  The row refers to its plan by a foreign key, so the
    insert raises when [allPlans] holds no plan of that id; the handler
    then removes the copied file and answers 500.  The stored [filePath] is
    the file's name behind the prefix [/api/documents/]; it is kept here by
    that name. *)
Definition uploadPlanDocument (allPlans : list Plan.t) (w : World)
    (planId : Z) (documentType : option string) (file : Upload.t) (now : Z)
    : UploadResponse * World :=
  match documentType with
  | None =>
      (UploadRefused 400
         "Invalid document type. Must be one of: SOB, EOC, ANOC, PROVIDER_LIST, DRUG_FORMULARY",
       w)
  | Some type =>
      if negb (JS.truthy documentType)
         || negb (existsb (String.eqb type) REQUIRED_DOCUMENT_TYPES)
      then
        (UploadRefused 400
           "Invalid document type. Must be one of: SOB, EOC, ANOC, PROVIDER_LIST, DRUG_FORMULARY",
         w)
      else
        let safeFileName :=
          {| safeDocType := type; forPlan := planId; timestamp := now;
             fileExtension := keepSafe (Upload.extname file) |} in
        let w1 := copyFile w safeFileName in
        match getPlan allPlans planId with
        | None =>
            (UploadRefused 500 "Failed to upload document",
             unlinkDocument w1 safeFileName)
        | Some _ =>
            let '(document, w2) :=
              createPlanDocument w1 planId type (Upload.originalname file)
                safeFileName (Upload.size file) in
            (Created document, w2)
        end
  end.

(** ** [DELETE /api/documents/:id] *)

(** The handler looks the document up among the documents of plan 0, removes
    its file when it finds it there, and deletes the row in any case. *)
Definition deleteDocument (w : World) (id : Z) : World :=
  let docs := getDocumentsByPlan w 0 in
  let w1 :=
    match find (fun d => (PlanDocument.id d =? id)%Z) docs with
    | Some doc => unlinkDocument w (PlanDocument.filePath doc)
    | None => w
    end in
  deletePlanDocument w1 id.

(** ** [GET /api/clients/:id/readiness] *)

(** A client as [storage.getClient] returns it, with the drug names of its
    medications and the names of its doctors. *)
Module ClientFile.
Record t : Type := {
  client : Client.t;
  medications : list string;
  doctors : list string
}.
End ClientFile.

Definition missingCounty : string :=
  "County - Required to find available plans".
Definition missingCurrentPlan : string :=
  "Current Plan - Required to show what they have now".
Definition warnNoSob : string :=
  "Current plan is missing SOB document - comparison will have limited details".
Definition warnNoMedications : string :=
  "No medications listed - drug coverage comparison won't be available".
Definition warnNoDoctors : string :=
  "No doctors listed - provider network comparison won't be available".

Module Readiness.
Record t : Type := {
  ready : bool;
  missing : list string;
  warnings : list string;
  hasCounty : bool;
  hasCurrentPlan : bool;
  medicationCount : nat;
  doctorCount : nat
}.
End Readiness.

(** [!!client.currentPlanId] *)
Definition truthyId (x : option Z) : bool :=
  match x with
  | Some id => negb (id =? 0)%Z
  | None => false
  end.

(** The handler from the point where the client has been read. *)
Definition readiness (allPlans : list Plan.t) (w : World) (file : ClientFile.t)
    : Readiness.t :=
  let client := ClientFile.client file in
  let missing1 :=
    if negb (JS.truthy (Client.county client)) then [missingCounty] else [] in
  let '(missing2, warnings1) :=
    match Client.currentPlanId client with
    | Some planId =>
        if (planId =? 0)%Z then ([missingCurrentPlan], [])
        else
          match getPlan allPlans planId with
          | Some currentPlan =>
              let documents := getDocumentsByPlan w (Plan.id currentPlan) in
              let hasSob :=
                existsb (fun doc => String.eqb (PlanDocument.documentType doc) "SOB")
                  documents in
              ([], if negb hasSob then [warnNoSob] else [])
          | None => ([], [])
          end
    | None => ([missingCurrentPlan], [])
    end in
  let warnings2 :=
    if (List.length (ClientFile.medications file) =? 0)%nat
    then [warnNoMedications] else [] in
  let warnings3 :=
    if (List.length (ClientFile.doctors file) =? 0)%nat
    then [warnNoDoctors] else [] in
  let missing := (missing1 ++ missing2)%list in
  {| Readiness.ready := (List.length missing =? 0)%nat;
     Readiness.missing := missing;
     Readiness.warnings := (warnings1 ++ warnings2 ++ warnings3)%list;
     Readiness.hasCounty := JS.truthy (Client.county client);
     Readiness.hasCurrentPlan := truthyId (Client.currentPlanId client);
     Readiness.medicationCount := List.length (ClientFile.medications file);
     Readiness.doctorCount := List.length (ClientFile.doctors file) |}.

(** ** [storage.getRecommendedPlans] *)

(** A row of [plans] with the further columns that the recommendation
    reads. *)
Module PlanRow.
Record t : Type := {
  plan : Plan.t;
  planYear : Z;
  annualDeductible : option string;
  prescriptionDeductible : option string
}.
End PlanRow.

(** [a === b] on nullable ids. *)
Definition sameId (a b : option Z) : bool :=
  match a, b with
  | Some x, Some y => (x =? y)%Z
  | None, None => true
  | _, _ => false
  end.

(** The callback of [candidatePlans.filter]: not the current carrier's, and
    in the client's county when both sides name counties. *)
Definition passesRules (client : Client.t) (currentCarrierId : option Z)
    (row : PlanRow.t) : bool :=
  if truthyId currentCarrierId
     && sameId (Some (Plan.carrierId (PlanRow.plan row))) currentCarrierId
  then false
  else
    match Client.county client, Plan.counties (PlanRow.plan row) with
    | Some county, Some (c :: cs) =>
        if JS.truthy (Some county)
        then existsb (fun x => sameCountyLoose x county) (c :: cs)
        else true
    | _, _ => true
    end.

(** [client.usesMulticare && carrier?.name.toLowerCase().includes('humana')] *)
Definition skippedForMulticare (client : Client.t) (carriers : list Carrier.t)
    (row : PlanRow.t) : bool :=
  Client.usesMulticare client
  && match find (fun c => (Carrier.id c =? Plan.carrierId (PlanRow.plan row))%Z)
             carriers with
     | Some carrier => JS.includes (JS.toLowerCase (Carrier.name carrier)) "humana"
     | None => false
     end.

(** Ten points for each of five benefit columns that is filled in. *)
Definition completeness (row : PlanRow.t) : Z :=
  let p := PlanRow.plan row in
  let score := 0%Z in
  let score := if JS.truthy (Plan.monthlyPremium p) then (score + 10)%Z else score in
  let score := if JS.truthy (PlanRow.annualDeductible row) then (score + 10)%Z else score in
  let score := if JS.truthy (Plan.specialistCopay p) then (score + 10)%Z else score in
  let score := if JS.truthy (Plan.primaryCareCopay p) then (score + 10)%Z else score in
  let score := if JS.truthy (PlanRow.prescriptionDeductible row) then (score + 10)%Z else score in
  score.

(** The candidates before ranking.  [rows] is the [plans] table; the query
    selects the rows of the client's state by decreasing plan year, rows of
    one year staying in table order. *)
Definition recommendationCandidates (client : Client.t) (currentCarrierId : option Z)
    (carriers : list Carrier.t) (rows : list PlanRow.t) : list PlanRow.t :=
  let candidatePlans :=
    sortDesc (fun r => inject_Z (PlanRow.planYear r))
      (filter (fun r => sameString (Plan.stateCode (PlanRow.plan r))
                          (Client.state client)) rows) in
  let candidatePlans := filter (passesRules client currentCarrierId) candidatePlans in
  filter (fun r => negb (skippedForMulticare client carriers r)) candidatePlans.

(** The method from the point where the client row has been read;
    [currentCarrierId] is the client's column of that name. *)
Definition getRecommendedPlans (client : Client.t) (currentCarrierId : option Z)
    (carriers : list Carrier.t) (rows : list PlanRow.t) : list PlanRow.t :=
  if negb (JS.truthy (Client.state client)) then []
  else
    let scoredPlans :=
      map (fun r => (r, completeness r))
        (recommendationCandidates client currentCarrierId carriers rows) in
    map fst (firstn 3 (sortDesc (fun sp => inject_Z (snd sp)) scoredPlans)).

(** ** [storage.getClientCompletionStatus] *)

(** The columns of a client that the completion status reads, beside the
    medications and doctors. *)
Module Intake.
Record t : Type := {
  file : ClientFile.t;
  fullName : string;
  birthdate : string;
  phoneNumber : string;
  medicareNumber : string;
  planId : option Z
}.
End Intake.

Module Completion.
Record t : Type := {
  personalInfo : bool;
  medications : bool;
  doctors : bool;
  plans : bool;
  completionPercentage : Z
}.
End Completion.

Definition nonEmpty (s : string) : bool := JS.truthy (Some s).

Definition getClientCompletionStatus (client : Intake.t) : Completion.t :=
  let personalInfo :=
    nonEmpty (Intake.fullName client) && nonEmpty (Intake.birthdate client)
    && nonEmpty (Intake.phoneNumber client)
    && nonEmpty (Intake.medicareNumber client) in
  let hasMedications :=
    (0 <? List.length (ClientFile.medications (Intake.file client)))%nat in
  let hasDoctors :=
    (0 <? List.length (ClientFile.doctors (Intake.file client)))%nat in
  let hasPlans :=
    truthyId (Client.currentPlanId (ClientFile.client (Intake.file client)))
    || truthyId (Intake.planId client) in
  let categories := [personalInfo; hasMedications; hasDoctors; hasPlans] in
  let completedCount := List.length (filter (fun b : bool => b) categories) in
  {| Completion.personalInfo := personalInfo;
     Completion.medications := hasMedications;
     Completion.doctors := hasDoctors;
     Completion.plans := hasPlans;
     Completion.completionPercentage :=
       JS.round ((inject_Z (Z.of_nat completedCount)
                  / inject_Z (Z.of_nat (List.length categories))) * (100 # 1)) |}.

(** ** [POST /api/clients/import-csv] *)

(** [s.split(sep)] for a one-character separator. *)
Fixpoint splitOn (sep : ascii) (s cur : string) : list string :=
  match s with
  | EmptyString => [cur]
  | String c s' =>
      if Ascii.eqb c sep then cur :: splitOn sep s' EmptyString
      else splitOn sep s' (cur ++ String c EmptyString)
  end.

Definition split (sep : ascii) (s : string) : list string :=
  splitOn sep s EmptyString.

Definition newline : ascii := ascii_of_N 10.
Definition comma : ascii := ","%char.

(** The object [row]: the header cells with the cell of the same index in
    the line, or the empty string when the line is shorter or the cell
    empty.  A header that occurs twice keeps its last cell. *)
Fixpoint buildRow (headers values : list string) : list (string * string) :=
  match headers with
  | [] => []
  | header :: hs =>
      (header, match values with v :: _ => v | [] => "" end)
      :: buildRow hs (match values with _ :: vs => vs | [] => [] end)
  end.

Fixpoint field (row : list (string * string)) (key : string) : option string :=
  match row with
  | [] => None
  | (k, v) :: rest =>
      match field rest key with
      | Some v' => Some v'
      | None => if String.eqb k key then Some v else None
      end
  end.

(** [row[k1] || row[k2] || ... || ''] *)
Fixpoint firstOf (row : list (string * string)) (keys : list string) : string :=
  match keys with
  | [] => ""
  | k :: ks =>
      if JS.truthy (field row k) then JS.orDefault (field row k) ""
      else firstOf row ks
  end.

(** [row[k] || null] *)
Definition orNull (row : list (string * string)) (key : string) : option string :=
  if JS.truthy (field row key) then field row key else None.

(** [row[k] === 'true' || row[k] === '1' || false] *)
Definition flag (row : list (string * string)) (key : string) : bool :=
  sameString (field row key) (Some "true") || sameString (field row key) (Some "1").

Module ClientData.
Record t : Type := {
  fullName : string;
  birthdate : string;
  phoneNumber : string;
  medicareNumber : string;
  socialSecurityNumber : string;
  address : string;
  city : string;
  state : string;
  zipCode : string;
  county : option string;
  goals : option string;
  spokeWithThisAep : bool;
  continueWithCurrentPlan : bool
}.
End ClientData.

Definition clientDataOf (row : list (string * string)) : ClientData.t :=
  {| ClientData.fullName := firstOf row ["full_name"; "name"; "fullname"];
     ClientData.birthdate := firstOf row ["birthdate"; "dob"; "date_of_birth"];
     ClientData.phoneNumber := firstOf row ["phone_number"; "phone"; "phonenumber"];
     ClientData.medicareNumber :=
       firstOf row ["medicare_number"; "medicare"; "medicarenumber"];
     ClientData.socialSecurityNumber :=
       firstOf row ["social_security_number"; "ssn"; "socialsecuritynumber"];
     ClientData.address := firstOf row ["address"];
     ClientData.city := firstOf row ["city"];
     ClientData.state := firstOf row ["state"];
     ClientData.zipCode := firstOf row ["zip_code"; "zip"; "zipcode"];
     ClientData.county := orNull row "county";
     ClientData.goals := orNull row "goals";
     ClientData.spokeWithThisAep := flag row "spoke_with_this_aep";
     ClientData.continueWithCurrentPlan := flag row "continue_with_current_plan" |}.

(** The five fields tested before the insert. *)
Definition hasRequired (d : ClientData.t) : bool :=
  nonEmpty (ClientData.fullName d) && nonEmpty (ClientData.birthdate d)
  && nonEmpty (ClientData.phoneNumber d) && nonEmpty (ClientData.medicareNumber d)
  && nonEmpty (ClientData.socialSecurityNumber d).

Definition missingRequiredMessage : string :=
  "Missing required fields (name, birthdate, phone, medicare number, or SSN)".

(** The [patients] table as far as the import goes: the rows inserted, with
    their ids, and the identity counter. *)
Record ClientTable : Type := {
  clientRows : list (Z * ClientData.t);
  nextClientId : Z
}.

Inductive ImportEntry : Type :=
| ImportedRow (row : nat) (clientId : Z) (name : string)
| ErrorRow (row : nat) (data : list (string * string)) (error : string).

Definition isImported (e : ImportEntry) : bool :=
  match e with ImportedRow _ _ _ => true | ErrorRow _ _ _ => false end.

Definition rowOf (e : ImportEntry) : nat :=
  match e with ImportedRow r _ _ => r | ErrorRow r _ _ => r end.

(** One data line.  [rejects] stands for the database: it tells for each
    record whether the insert raises, and with what. *)
Definition importLine (rejects : ClientData.t -> option Thrown)
    (headers : list string) (t : ClientTable) (i : nat) (line : string)
    : ImportEntry * ClientTable :=
  let values := map JS.trim (split comma line) in
  let row := buildRow headers values in
  let clientData := clientDataOf row in
  if negb (hasRequired clientData)
  then (ErrorRow (i + 1) row missingRequiredMessage, t)
  else
    match rejects clientData with
    | Some (ErrorWith message) => (ErrorRow (i + 1) row message, t)
    | Some NotAnError => (ErrorRow (i + 1) row "Unknown error", t)
    | None =>
        (ImportedRow (i + 1) (nextClientId t) (ClientData.fullName clientData),
         {| clientRows := (clientRows t ++ [(nextClientId t, clientData)])%list;
            nextClientId := (nextClientId t + 1)%Z |})
    end.

(** The loop over the data lines, [i] being the index of the first one. *)
Fixpoint importLines (rejects : ClientData.t -> option Thrown)
    (headers : list string) (t : ClientTable) (i : nat) (lines : list string)
    : list ImportEntry * ClientTable :=
  match lines with
  | [] => ([], t)
  | line :: rest =>
      let '(e, t1) := importLine rejects headers t i line in
      let '(es, t2) := importLines rejects headers t1 (S i) rest in
      (e :: es, t2)
  end.

Inductive ImportResponse : Type :=
| ImportRefused (status : Z) (error : string)
| ImportReport (imported errors : nat) (importedRows errorRows : list ImportEntry).

(** The handler from the point where the file has been read. *)
Definition importCsv (rejects : ClientData.t -> option Thrown)
    (t : ClientTable) (fileContent : string) : ImportResponse * ClientTable :=
  let lines :=
    filter (fun line => negb (String.length (JS.trim line) =? 0)%nat)
      (split newline fileContent) in
  match lines with
  | header :: ((_ :: _) as dataLines) =>
      let headers :=
        map (fun h => JS.toLowerCase (JS.trim h)) (split comma header) in
      let '(entries, t') := importLines rejects headers t 1 dataLines in
      let imported := filter isImported entries in
      let errors := filter (fun e => negb (isImported e)) entries in
      (ImportReport (List.length imported) (List.length errors) imported errors,
       t')
  | _ => (ImportRefused 400 "CSV file is empty or invalid", t)
  end.

(** ** [PATCH /api/plans/:id/apply-benefits] *)

(** The six fields of [extractedBenefits] that the handler reads, as the
    strings that the benefit parser produces; [None] is an absent field. *)
Module Benefits.
Record t : Type := {
  monthlyPremium : option string;
  annualDeductible : option string;
  maxOutOfPocket : option string;
  primaryCareCopay : option string;
  specialistCopay : option string;
  prescriptionDeductible : option string
}.
End Benefits.






(** ** The two rewritings of [parseOCRText] *)

Fixpoint allDigits (s : string) : bool :=
  match s with
  | EmptyString => true
  | String c s' => JS.isDigit c && allDigits s'
  end.

(** [/(\d{3})(\d{2})(\d{4})/] anchored at the head of [s]: the three groups
    and what follows the match. *)
Definition ssnAt (s : string) : option (string * string * string * string) :=
  match s with
  | String a1 (String a2 (String a3 (String b1 (String b2
      (String c1 (String c2 (String c3 (String c4 rest)))))))) =>
      if JS.isDigit a1 && JS.isDigit a2 && JS.isDigit a3 && JS.isDigit b1
         && JS.isDigit b2 && JS.isDigit c1 && JS.isDigit c2 && JS.isDigit c3
         && JS.isDigit c4
      then Some (String a1 (String a2 (String a3 "")),
                 String b1 (String b2 ""),
                 String c1 (String c2 (String c3 (String c4 ""))), rest)
      else None
  | _ => None
  end.

(** [s.replace(/(\d{3})(\d{2})(\d{4})/, '$1-$2-$3')]: the leftmost run of
    nine digits is rewritten, once. *)
Fixpoint formatSsn (s : string) : string :=
  match ssnAt s with
  | Some (a, b, c, rest) => a ++ "-" ++ b ++ "-" ++ c ++ rest
  | None =>
      match s with
      | EmptyString => EmptyString
      | String ch s' => String ch (formatSsn s')
      end
  end.

(** [s.replace(/\D/g, '')] *)
Fixpoint digitsOf (s : string) : string :=
  match s with
  | EmptyString => EmptyString
  | String c s' => if JS.isDigit c then String c (digitsOf s') else digitsOf s'
  end.

(** [/(\d{3})(\d{3})(\d{4})/] anchored at the head of [s]. *)
Definition phoneAt (s : string) : option (string * string * string * string) :=
  match s with
  | String a1 (String a2 (String a3 (String b1 (String b2 (String b3
      (String c1 (String c2 (String c3 (String c4 rest))))))))) =>
      if JS.isDigit a1 && JS.isDigit a2 && JS.isDigit a3 && JS.isDigit b1
         && JS.isDigit b2 && JS.isDigit b3 && JS.isDigit c1 && JS.isDigit c2
         && JS.isDigit c3 && JS.isDigit c4
      then Some (String a1 (String a2 (String a3 "")),
                 String b1 (String b2 (String b3 "")),
                 String c1 (String c2 (String c3 (String c4 ""))), rest)
      else None
  | _ => None
  end.

Fixpoint groupPhone (s : string) : string :=
  match phoneAt s with
  | Some (a, b, c, rest) => "(" ++ a ++ ") " ++ b ++ "-" ++ c ++ rest
  | None =>
      match s with
      | EmptyString => EmptyString
      | String ch s' => String ch (groupPhone s')
      end
  end.

(** [s.replace(/\D/g, '').replace(/(\d{3})(\d{3})(\d{4})/, '($1) $2-$3')] *)
Definition formatPhone (s : string) : string := groupPhone (digitsOf s).

(** An optional character of a capture: nothing, or one character of a
    given class. *)
Definition optionalChar (allowed : ascii -> bool) (s : string) : Prop :=
  s = "" \/ exists c, s = String c "" /\ allowed c = true.

Definition isOpenParen (c : ascii) : bool := (JS.code c =? 40)%N.
Definition isCloseParen (c : ascii) : bool := (JS.code c =? 41)%N.

(** The class [[\s.-]]. *)
Definition isPhoneSeparator (c : ascii) : bool :=
  JS.isSpace c || (JS.code c =? 46)%N || (JS.code c =? 45)%N.

Definition digitGroup (n : nat) (s : string) : Prop :=
  String.length s = n /\ allDigits s = true.




(** [data[field] = match[1].trim()] followed by the rewriting of the field. *)
Definition ssnField (capture : string) : string := formatSsn (JS.trim capture).

Definition phoneField (capture : string) : string := formatPhone (JS.trim capture).

(** ** Sample data of the further properties *)

Definition sampleFile : ClientFile.t :=
  {| ClientFile.client := sampleClient; ClientFile.medications := [];
     ClientFile.doctors := [] |}.

(** A summary of benefits of the gold plan, and a client who is in it. *)
Definition sobText : string := "Aetna Gold Plan Summary of Benefits 2025".
Definition sobUpload : Upload.t :=
  mkUpload "sob.png" ".png" "image/png" (Throws NotAnError) (Returns sobText).
Definition goldClient : Client.t :=
  {| Client.id := 8; Client.state := Some "WA"; Client.county := Some "King";
     Client.currentPlanId := Some 10%Z; Client.usesMulticare := true |}.
Definition goldFile : ClientFile.t :=
  {| ClientFile.client := goldClient; ClientFile.medications := ["Metformin"];
     ClientFile.doctors := [] |}.

(** The world after the hand-book has been filed under the gold plan. *)
Definition handbookFiled : World :=
  snd (processFile [aetna] [goldPlan] emptyWorld handbook 1700000000000).

(** Three rows of [plans]: one of the client's carrier, one of Humana and
    one of a third carrier. *)
Definition mkRow (p : Plan.t) (deductible : option string) : PlanRow.t :=
  {| PlanRow.plan := p; PlanRow.planYear := 2025;
     PlanRow.annualDeductible := deductible;
     PlanRow.prescriptionDeductible := None |}.
Definition regence : Carrier.t := mkCarrier 3 "Regence".
Definition aetnaRow : PlanRow.t := mkRow sampleA (Some "250").
Definition humanaRow : PlanRow.t :=
  mkRow (mkPlan 5 2 "Humana Value" (Some "WA") (Some "0") None (Some ["King"]))
    (Some "0").
Definition regenceRow : PlanRow.t :=
  mkRow (mkPlan 6 3 "Regence Classic" (Some "WA") (Some "45") None
           (Some [" KING "; "Pierce"])) None.

(** * Properties *)

(** ** Strings *)

Section StringFacts.

Lemma append_empty_r (s : string) : s ++ "" = s.
Proof. induction s as [|c s IH]; simpl; [reflexivity | now rewrite IH]. Qed.

Lemma append_assoc (a b c : string) : (a ++ b) ++ c = a ++ (b ++ c).
Proof. induction a as [|x a IH]; simpl; [reflexivity | now rewrite IH]. Qed.

Lemma length_append (a b : string) :
  String.length (a ++ b) = (String.length a + String.length b)%nat.
Proof. induction a as [|x a IH]; simpl; [reflexivity | now rewrite IH]. Qed.

Lemma prefix_append (p s : string) : String.prefix p (p ++ s) = true.
Proof.
  induction p as [|c p IH]; simpl.
  - now destruct s.
  - destruct (ascii_dec c c) as [_|n]; [exact IH | now elim n].
Qed.

Lemma prefix_split (p s : string) :
  String.prefix p s = true -> exists r, s = p ++ r.
Proof.
  revert s; induction p as [|c p IH]; intros s H.
  - now exists s.
  - destruct s as [|d s]; simpl in H; [discriminate|].
    destruct (ascii_dec c d) as [->|_]; [|discriminate].
    destruct (IH _ H) as [r ->]. now exists r.
Qed.

Lemma includes_unfold (s pat : string) :
  JS.includes s pat =
  String.prefix pat s ||
  match s with
  | EmptyString => false
  | String _ s' => JS.includes s' pat
  end.
Proof. now destruct s. Qed.

Lemma includes_intro (pre pat post : string) :
  JS.includes (pre ++ pat ++ post) pat = true.
Proof.
  induction pre as [|c pre IH].
  - simpl. rewrite includes_unfold, prefix_append. reflexivity.
  - simpl. rewrite IH. apply orb_true_r.
Qed.

Lemma includes_elim (s pat : string) :
  JS.includes s pat = true -> exists pre post, s = pre ++ pat ++ post.
Proof.
  induction s as [|c s IH]; rewrite includes_unfold; intros H;
    apply orb_true_iff in H as [H|H]; try discriminate.
  - destruct (prefix_split _ _ H) as [r ->]. now exists "", r.
  - destruct (prefix_split _ _ H) as [r ->]. now exists "", r.
  - destruct (IH H) as (pre & post & ->). now exists (String c pre), post.
Qed.

Lemma mapString_append (f : ascii -> ascii) (a b : string) :
  JS.mapString f (a ++ b) = JS.mapString f a ++ JS.mapString f b.
Proof. induction a as [|x a IH]; simpl; [reflexivity | now rewrite IH]. Qed.

Lemma length_trimStart (s : string) :
  (String.length (JS.trimStart s) <= String.length s)%nat.
Proof.
  induction s as [|c s IH]; simpl; [lia|].
  destruct (JS.isSpace c); simpl; lia.
Qed.

Lemma length_trimEnd (s : string) :
  (String.length (JS.trimEnd s) <= String.length s)%nat.
Proof.
  induction s as [|c s IH]; [simpl; lia|].
  cbn [JS.trimEnd]. destruct (JS.allSpace (String c s)); simpl; lia.
Qed.

Lemma length_trim (s : string) :
  (String.length (JS.trim s) <= String.length s)%nat.
Proof.
  unfold JS.trim.
  pose proof (length_trimEnd (JS.trimStart s)).
  pose proof (length_trimStart s). lia.
Qed.

End StringFacts.

(** ** Plan-ID tokens *)

Section PlanIds.

Lemma digit_notHS (c : ascii) : JS.isDigit c = true -> isHS c = false.
Proof.
  unfold JS.isDigit, JS.inRange, isHS. intros H.
  apply andb_true_iff in H as [_ H]. apply N.leb_le in H.
  apply orb_false_iff; split; apply N.eqb_neq; lia.
Qed.

Lemma hyphen_notHS (c : ascii) : isHyphen c = true -> isHS c = false.
Proof.
  unfold isHyphen, isHS. intros H. apply N.eqb_eq in H.
  apply orb_false_iff; split; apply N.eqb_neq; lia.
Qed.

Lemma digit_upper (c : ascii) : JS.isDigit c = true -> JS.upperChar c = c.
Proof.
  unfold JS.isDigit, JS.upperChar, JS.isLower, JS.inRange. intros H.
  apply andb_true_iff in H as [_ H]. apply N.leb_le in H.
  replace (97 <=? JS.code c)%N with false; [reflexivity|].
  symmetry. apply N.leb_gt. lia.
Qed.

Lemma hyphen_upper (c : ascii) : isHyphen c = true -> JS.upperChar c = c.
Proof.
  unfold isHyphen, JS.upperChar, JS.isLower, JS.inRange. intros H.
  apply N.eqb_eq in H. rewrite H. reflexivity.
Qed.

Lemma HS_upper (c : ascii) : isHS c = true -> JS.upperChar c = c.
Proof.
  unfold isHS, JS.upperChar, JS.isLower, JS.inRange. intros H.
  apply orb_true_iff in H as [H|H]; apply N.eqb_eq in H; rewrite H; reflexivity.
Qed.

(** What a successful anchored match says about the string. *)
Lemma planIdAt_inv (s tok : string) :
  planIdAt s = Some tok ->
  exists a d1 d2 d3 d4 h e1 e2 e3 r,
    s = String a (String d1 (String d2 (String d3 (String d4
          (String h (String e1 (String e2 (String e3 r))))))))
    /\ tok = String a (String d1 (String d2 (String d3 (String d4
               (String h (String e1 (String e2 (String e3 ""))))))))
    /\ isHS a = true
    /\ (JS.isDigit d1 = true /\ JS.isDigit d2 = true
        /\ JS.isDigit d3 = true /\ JS.isDigit d4 = true)
    /\ isHyphen h = true
    /\ (JS.isDigit e1 = true /\ JS.isDigit e2 = true /\ JS.isDigit e3 = true).
Proof.
  intros H.
  do 9 (destruct s as [|? s]; [discriminate H|]).
  cbn [planIdAt] in H.
  match type of H with (if ?c then _ else _) = _ => destruct c eqn:C end;
    [|discriminate].
  injection H as <-.
  repeat (apply andb_true_iff in C as [C ?]).
  repeat eexists; eauto.
Qed.

Lemma planIdAt_append (tok post : string) :
  isPlanIdToken tok -> planIdAt (tok ++ post) = Some tok.
Proof.
  intros H. pose proof H as H'.
  apply planIdAt_inv in H'
    as (a & d1 & d2 & d3 & d4 & h & e1 & e2 & e3 & r & E & Et & _).
  rewrite E in Et. injection Et as ->.
  rewrite E in H |- *. cbn [append]. exact H.
Qed.

Lemma planIdAt_skip (c : ascii) (s tok : string) :
  planIdAt (String c s) = Some tok -> noHS 8 s = true.
Proof.
  intros H.
  apply planIdAt_inv in H
    as (a & d1 & d2 & d3 & d4 & h & e1 & e2 & e3 & r & E & _ & _
        & (D1 & D2 & D3 & D4) & Hh & (E1 & E2 & E3)).
  injection E as _ ->. cbn [noHS].
  rewrite (digit_notHS _ D1), (digit_notHS _ D2), (digit_notHS _ D3),
    (digit_notHS _ D4), (hyphen_notHS _ Hh), (digit_notHS _ E1),
    (digit_notHS _ E2), (digit_notHS _ E3).
  reflexivity.
Qed.

Lemma token_head (tok : string) :
  isPlanIdToken tok -> exists a r, tok = String a r /\ isHS a = true.
Proof.
  intros H.
  apply planIdAt_inv in H
    as (a & d1 & d2 & d3 & d4 & h & e1 & e2 & e3 & r & E & _ & Ha & _).
  eauto.
Qed.

(** Upper-casing leaves a token as it is. *)
Lemma token_upper (tok : string) :
  isPlanIdToken tok -> JS.toUpperCase tok = tok.
Proof.
  intros H.
  apply planIdAt_inv in H
    as (a & d1 & d2 & d3 & d4 & h & e1 & e2 & e3 & r & _ & -> & Ha
        & (D1 & D2 & D3 & D4) & Hh & (E1 & E2 & E3)).
  unfold JS.toUpperCase. cbn [JS.mapString].
  rewrite (HS_upper _ Ha), (digit_upper _ D1), (digit_upper _ D2),
    (digit_upper _ D3), (digit_upper _ D4), (hyphen_upper _ Hh),
    (digit_upper _ E1), (digit_upper _ E2), (digit_upper _ E3).
  reflexivity.
Qed.

(** The global match misses no occurrence: two occurrences cannot
    overlap, since a token starts with a letter and goes on with digits
    and a hyphen. *)
Lemma matchPlanIds_complete (tok post pre : string) (k : nat) :
  isPlanIdToken tok ->
  noHS k (pre ++ tok ++ post) = true ->
  In tok (matchPlanIds (pre ++ tok ++ post) k).
Proof.
  intros Htok. revert k.
  induction pre as [|c pre IH]; intros k Hk.
  - cbn [append] in *.
    destruct (token_head _ Htok) as (a & r & E & Ha).
    pose proof (planIdAt_append tok post Htok) as Hat.
    rewrite E in Hk, Hat |- *. cbn [append] in *.
    destruct k as [|k].
    + cbn [matchPlanIds]. rewrite Hat. rewrite <- E. now left.
    + cbn [noHS] in Hk. rewrite Ha in Hk. discriminate.
  - cbn [append] in *. destruct k as [|k]; cbn [matchPlanIds].
    + destruct (planIdAt (String c (pre ++ tok ++ post))) as [t|] eqn:Hat.
      * right. apply IH. eapply planIdAt_skip; eassumption.
      * apply IH. reflexivity.
    + apply IH. cbn [noHS] in Hk. apply andb_true_iff in Hk as [_ Hk].
      exact Hk.
Qed.

Lemma foundPlanIds_complete (text tok : string) :
  isPlanIdToken tok ->
  JS.includes text tok = true ->
  In tok (foundPlanIdsOf text).
Proof.
  intros Htok H. apply includes_elim in H as (pre & post & ->).
  apply matchPlanIds_complete; [assumption | reflexivity].
Qed.

(** Every match returned is a token occurring in the text scanned. *)
Lemma matchPlanIds_sound (s : string) (k : nat) (tok : string) :
  In tok (matchPlanIds s k) ->
  isPlanIdToken tok /\ JS.includes s tok = true.
Proof.
  revert k. induction s as [|c s IH]; intros k H; [now cbn in H|].
  assert (Hs : forall k', In tok (matchPlanIds s k') ->
               isPlanIdToken tok /\ JS.includes (String c s) tok = true).
  { intros k' H'. destruct (IH _ H') as [T I]. split; [exact T|].
    rewrite includes_unfold, I. apply orb_true_r. }
  destruct k as [|k]; cbn [matchPlanIds] in H; [|eauto].
  destruct (planIdAt (String c s)) as [t|] eqn:Hat; [|eauto].
  destruct H as [<-|H]; [|eauto].
  pose proof Hat as Hinv.
  apply planIdAt_inv in Hinv
    as (a & d1 & d2 & d3 & d4 & h & e1 & e2 & e3 & r & E & Et & Ha & Hd & Hh & He).
  assert (Es : String c s = t ++ r) by (rewrite E, Et; reflexivity).
  split.
  - unfold isPlanIdToken. rewrite Es in Hat. rewrite Et in Hat |- *.
    cbn [append] in Hat. cbn [planIdAt] in Hat |- *. exact Hat.
  - rewrite Es. apply (includes_intro "" t r).
Qed.

End PlanIds.

(** ** Sorting *)

Section SortFacts.
Context {A : Type} (score : A -> Q).

Lemma insertDesc_perm (x : A) (l : list A) :
  Permutation (insertDesc score x l) (x :: l).
Proof.
  induction l as [|y l IH]; cbn [insertDesc]; [reflexivity|].
  destruct (JS.Qlt_bool (score x) (score y)); [|reflexivity].
  rewrite IH. apply perm_swap.
Qed.

Lemma sortDesc_perm (l : list A) : Permutation (sortDesc score l) l.
Proof.
  induction l as [|x l IH]; cbn [sortDesc fold_right]; [reflexivity|].
  fold (sortDesc score l). rewrite insertDesc_perm. now constructor.
Qed.

Lemma sortDesc_In (x : A) (l : list A) : In x (sortDesc score l) <-> In x l.
Proof.
  split; apply Permutation_in;
    [apply sortDesc_perm | symmetry; apply sortDesc_perm].
Qed.

Lemma Qlt_bool_true (x y : Q) : JS.Qlt_bool x y = true -> x < y.
Proof.
  unfold JS.Qlt_bool. intros H. apply negb_true_iff in H.
  apply Qnot_le_lt. intros L. apply Qle_bool_iff in L. congruence.
Qed.

Lemma Qlt_bool_false (x y : Q) : JS.Qlt_bool x y = false -> y <= x.
Proof.
  unfold JS.Qlt_bool. intros H. apply negb_false_iff in H.
  now apply Qle_bool_iff.
Qed.

Lemma insertDesc_sorted (x : A) (l : list A) :
  descending score l -> descending score (insertDesc score x l).
Proof.
  unfold descending.
  induction 1 as [|y l Hl IH Hy]; cbn [insertDesc].
  - repeat constructor.
  - destruct (JS.Qlt_bool (score x) (score y)) eqn:C.
    + constructor; [exact IH|].
      apply Qlt_bool_true in C.
      eapply Permutation_Forall; [symmetry; apply insertDesc_perm|].
      constructor; [now apply Qlt_le_weak | exact Hy].
    + apply Qlt_bool_false in C.
      constructor; [now constructor|].
      constructor; [exact C|].
      eapply Forall_impl; [|exact Hy]. cbn. intros a Ha.
      eapply Qle_trans; eassumption.
Qed.

Lemma sortDesc_sorted (l : list A) : descending score (sortDesc score l).
Proof.
  induction l as [|x l IH]; cbn [sortDesc fold_right].
  - constructor.
  - apply insertDesc_sorted. exact IH.
Qed.

(** Ties keep their order: a list that is already ranked is left as it is. *)
Lemma sortDesc_ranked (l : list A) : descending score l -> sortDesc score l = l.
Proof.
unfold descending.
induction 1 as [|x l Hl IH Hx]; cbn [sortDesc fold_right]; [reflexivity|].
fold (sortDesc score l). rewrite IH.
destruct l as [|y l']; [reflexivity|]. cbn [insertDesc].
inversion Hx as [|? ? Hy _]; subst.
unfold JS.Qlt_bool. apply Qle_bool_iff in Hy. rewrite Hy. reflexivity.
Qed.

End SortFacts.

Lemma firstn_In {A : Type} (n : nat) (l : list A) (x : A) :
  In x (firstn n l) -> In x l.
Proof.
  revert l; induction n as [|n IH]; intros [|y l] H; cbn in *; try tauto.
  destruct H as [->|H]; [now left | right; auto].
Qed.

(** ** The two matching loops *)

Section Loops.
Variables (upperText : string) (foundPlanIds : list string)
          (carriers : list Carrier.t) (best : option Carrier.t).

Lemma carrierStep_matches (st : CarrierLoop) (c : Carrier.t) :
  carrierMatches (carrierStep upperText st c)
  = (carrierMatches st ++ [carrierEntry upperText c])%list.
Proof.
  unfold carrierStep.
  destruct (JS.Qlt_bool (bestCarrierScore st) (carrierScore upperText c));
    reflexivity.
Qed.

Lemma carrierFold_matches (cs : list Carrier.t) (st : CarrierLoop) :
  carrierMatches (fold_left (carrierStep upperText) cs st)
  = (carrierMatches st ++ map (carrierEntry upperText) cs)%list.
Proof.
  revert st; induction cs as [|c cs IH]; intros st; cbn [fold_left map].
  - now rewrite app_nil_r.
  - rewrite IH, carrierStep_matches, <- app_assoc. reflexivity.
Qed.

Lemma planStep_matches (st : PlanLoop) (p : Plan.t) :
  planMatches (planStep upperText foundPlanIds carriers best st p)
  = (planMatches st ++ [planEntry upperText foundPlanIds carriers p])%list.
Proof.
  unfold planStep.
  match goal with |- context [if ?c then _ else _] => destruct c end;
    reflexivity.
Qed.

Lemma planFold_matches (ps : list Plan.t) (st : PlanLoop) :
  planMatches (fold_left (planStep upperText foundPlanIds carriers best) ps st)
  = (planMatches st
     ++ map (planEntry upperText foundPlanIds carriers) ps)%list.
Proof.
  revert st; induction ps as [|p ps IH]; intros st; cbn [fold_left map].
  - now rewrite app_nil_r.
  - rewrite IH, planStep_matches, <- app_assoc. reflexivity.
Qed.

End Loops.

(** The candidate lists of the result are the per-entry scores, ranked. *)
Lemma result_carrierMatches (text : string) (carriers : list Carrier.t)
    (plans : list Plan.t) :
  Extracted.carrierMatches (parsePlanDocumentText text carriers plans)
  = sortDesc cm_score (map (carrierEntry (JS.toUpperCase text)) carriers).
Proof.
  unfold parsePlanDocumentText, carrierLoop. cbn [Extracted.carrierMatches].
  rewrite carrierFold_matches. reflexivity.
Qed.

Lemma result_planMatches (text : string) (carriers : list Carrier.t)
    (plans : list Plan.t) :
  Extracted.planMatches (parsePlanDocumentText text carriers plans)
  = sortDesc pm_score
      (map (planEntry (JS.toUpperCase text) (foundPlanIdsOf text) carriers) plans).
Proof.
  unfold parsePlanDocumentText, planLoop. cbn [Extracted.planMatches].
  rewrite planFold_matches. reflexivity.
Qed.

(** ** C7: the plan-ID short circuit *)

Lemma planScore_hit (upperText : string) (ids : list string) (p : Plan.t) :
  existsb (JS.includes (JS.toUpperCase (Plan.name p))) ids = true ->
  planScore upperText ids p = Q100.
Proof. unfold planScore. intros ->. reflexivity. Qed.

Lemma name_keeps_token (name tok : string) :
  isPlanIdToken tok ->
  JS.includes name tok = true ->
  JS.includes (JS.toUpperCase name) tok = true.
Proof.
  intros Htok H. apply includes_elim in H as (pre & post & ->).
  unfold JS.toUpperCase. rewrite !mapString_append.
  fold (JS.toUpperCase tok). rewrite (token_upper _ Htok).
  apply includes_intro.
Qed.

(** C7.  A plan-ID token (H or S, four digits, a hyphen, three digits) that
    occurs in the text and inside a plan's name gives that plan the match
    score 100, both as computed by the scoring function and as listed in
    the result's plan candidates; the verbatim and word-overlap tests are
    then skipped.  In particular any text around H5216-321 scores the plan
    named "Advantage Gold H5216-321" at exactly 100. *)
Theorem C7_plan_id_short_circuit :
  forall (text : string) (carriers : list Carrier.t) (plans : list Plan.t)
         (p : Plan.t) (tok : string),
    isPlanIdToken tok ->
    JS.includes text tok = true ->
    JS.includes (Plan.name p) tok = true ->
    planScore (JS.toUpperCase text) (foundPlanIdsOf text) p = Q100
    /\ (In p plans ->
        In {| pm_name := Plan.name p;
              pm_carrier := carrierNameOf carriers p;
              pm_score := Q100 |}
           (Extracted.planMatches (parsePlanDocumentText text carriers plans)))
    /\ (forall pre post q,
          Plan.name q = "Advantage Gold H5216-321" ->
          planScore (JS.toUpperCase (pre ++ "H5216-321" ++ post))
            (foundPlanIdsOf (pre ++ "H5216-321" ++ post)) q = Q100).
Proof.
  assert (Hgen : forall text p tok,
             isPlanIdToken tok ->
             JS.includes text tok = true ->
             JS.includes (Plan.name p) tok = true ->
             planScore (JS.toUpperCase text) (foundPlanIdsOf text) p = Q100).
  { intros text p tok Htok Htext Hname.
    apply planScore_hit. apply existsb_exists. exists tok. split.
    - now apply foundPlanIds_complete.
    - now apply name_keeps_token. }
  intros text carriers plans p tok Htok Htext Hname.
  pose proof (Hgen text p tok Htok Htext Hname) as Hp.
  split; [exact Hp|]. split.
  - intros Hin. rewrite result_planMatches. apply sortDesc_In.
    apply in_map_iff. exists p. split; [|exact Hin].
    unfold planEntry. rewrite Hp. reflexivity.
  - intros pre post q Hq. apply (Hgen _ q "H5216-321").
    + reflexivity.
    + apply includes_intro.
    + rewrite Hq. reflexivity.
Qed.

(** ** C9: the confidence bound *)

Section Bounds.

Lemma filter_length_le {A : Type} (f : A -> bool) (l : list A) :
  (List.length (filter f l) <= List.length l)%nat.
Proof.
  induction l as [|x l IH]; cbn; [lia|]. destruct (f x); cbn; lia.
Qed.

Lemma ratio_bounds (m n : nat) :
  (m <= n)%nat -> (0 < n)%nat ->
  0 <= inject_Z (Z.of_nat m) / inject_Z (Z.of_nat n)
  /\ inject_Z (Z.of_nat m) / inject_Z (Z.of_nat n) <= 1.
Proof.
  intros Hmn Hn.
  assert (Hpos : 0 < inject_Z (Z.of_nat n)).
  { replace 0 with (inject_Z 0) by reflexivity. rewrite <- Zlt_Qlt. lia. }
  split.
  - apply Qle_shift_div_l; [exact Hpos|]. rewrite Qmult_0_l.
    replace 0 with (inject_Z 0) by reflexivity. rewrite <- Zle_Qle. lia.
  - apply Qle_shift_div_r; [exact Hpos|]. rewrite Qmult_1_l.
    rewrite <- Zle_Qle. lia.
Qed.

Lemma wordOverlap_bounds (upperText upperName : string) (factor : Q) :
  0 <= factor ->
  0 <= wordOverlap upperText upperName factor
  /\ wordOverlap upperText upperName factor <= factor.
Proof.
  intros Hf. unfold wordOverlap.
  set (words := significantWords upperName).
  destruct (0 <? List.length words)%nat eqn:E.
  - apply Nat.ltb_lt in E.
    destruct (ratio_bounds
                (List.length (filter (JS.includes upperText) words))
                (List.length words) (filter_length_le _ _) E) as [L U].
    split.
    + apply Qmult_le_0_compat; assumption.
    + rewrite <- (Qmult_1_l factor) at 2.
      apply Qmult_le_compat_r; assumption.
  - split; [apply Qle_refl | exact Hf].
Qed.

Lemma carrierScore_bounds (upperText : string) (c : Carrier.t) :
  inUnit100 (carrierScore upperText c).
Proof.
  unfold carrierScore, inUnit100.
  destruct (JS.includes upperText (JS.toUpperCase (Carrier.name c))).
  - unfold Q100; split; lra.
  - apply wordOverlap_bounds. unfold Q100; lra.
Qed.

Lemma planScore_bounds (upperText : string) (ids : list string) (p : Plan.t) :
  inUnit100 (planScore upperText ids p).
Proof.
  unfold planScore, inUnit100.
  destruct (existsb _ ids); cbn [Qeq_bool andb].
  - change (Qeq_bool Q100 0) with false. cbn. unfold Q100; split; lra.
  - change (Qeq_bool 0 0) with true. cbn [andb].
    destruct (JS.includes upperText (JS.toUpperCase (Plan.name p))).
    + change (Qeq_bool (90 # 1) 0) with false. cbn. unfold Q100; split; lra.
    + change (Qeq_bool 0 0) with true. cbn.
      destruct (wordOverlap_bounds upperText (JS.toUpperCase (Plan.name p))
                  (80 # 1)) as [L U]; [lra|].
      unfold Q100; split; lra.
Qed.

Lemma carrierFold_bounds (upperText : string) (cs : list Carrier.t)
    (st : CarrierLoop) :
  inUnit100 (bestCarrierScore st) ->
  inUnit100 (bestCarrierScore (fold_left (carrierStep upperText) cs st)).
Proof.
  revert st; induction cs as [|c cs IH]; intros st H; cbn [fold_left];
    [exact H|].
  apply IH. unfold carrierStep.
  destruct (JS.Qlt_bool (bestCarrierScore st) (carrierScore upperText c));
    cbn [bestCarrierScore]; [apply carrierScore_bounds | exact H].
Qed.

Lemma planFold_bounds (upperText : string) (ids : list string)
    (carriers : list Carrier.t) (best : option Carrier.t)
    (ps : list Plan.t) (st : PlanLoop) :
  inUnit100 (bestPlanScore st) ->
  inUnit100 (bestPlanScore
               (fold_left (planStep upperText ids carriers best) ps st)).
Proof.
  revert st; induction ps as [|p ps IH]; intros st H; cbn [fold_left];
    [exact H|].
  apply IH. unfold planStep.
  match goal with |- context [if ?c then _ else _] => destruct c end;
    cbn [bestPlanScore]; [apply planScore_bounds | exact H].
Qed.

Lemma rawConfidence_bounds (c : option Carrier.t) (cs : Q)
    (p : option Plan.t) (ps : Q) :
  inUnit100 cs -> inUnit100 ps -> inUnit100 (rawConfidence c cs p ps).
Proof.
  unfold inUnit100, Q100, rawConfidence. intros [C0 C1] [P0 P1].
  assert (M : 0 <= JS.Qmax cs ps /\ JS.Qmax cs ps <= 100 # 1).
  { unfold JS.Qmax. destruct (Qle_bool cs ps); split; assumption. }
  destruct M as [M0 M1].
  destruct c as [c|], p as [p|];
    try destruct (Plan.carrierId p =? Carrier.id c)%Z;
    unfold Qdiv; change (/ (2 # 1)) with (1 # 2);
    split; lra.
Qed.

Lemma round_bounds (x : Q) :
  inUnit100 x -> (0 <= JS.round x <= 100)%Z.
Proof.
  unfold inUnit100, Q100, JS.round. intros [L U]. split.
  - change 0%Z with (Qfloor 0). apply Qfloor_resp_le. lra.
  - change 100%Z with (Qfloor (201 # 2)). apply Qfloor_resp_le. lra.
Qed.

End Bounds.

(** C9.  Whatever the text and the two catalogues are, the confidence of
    the result lies between 0 and 100, and it is 0 when neither a carrier
    nor a plan was accepted. *)
Theorem C9_confidence_bound :
  forall (text : string) (carriers : list Carrier.t) (plans : list Plan.t),
    (0 <= Extracted.confidence (parsePlanDocumentText text carriers plans) <= 100)%Z
    /\ (Extracted.carrier (parsePlanDocumentText text carriers plans) = None ->
        Extracted.plan (parsePlanDocumentText text carriers plans) = None ->
        Extracted.confidence (parsePlanDocumentText text carriers plans) = 0%Z).
Proof.
  intros text carriers plans.
  unfold parsePlanDocumentText.
  cbn [Extracted.confidence Extracted.carrier Extracted.plan].
  split.
  - apply round_bounds, rawConfidence_bounds.
    + apply carrierFold_bounds. cbn. unfold inUnit100, Q100. split; lra.
    + apply planFold_bounds. cbn. unfold inUnit100, Q100. split; lra.
  - intros -> ->. reflexivity.
Qed.

(** ** C6: scanned PDFs *)

Lemma scanned_rethrown :
  pdfCatch (Throws (ErrorWith scannedPdfMessage))
  = Throws (ErrorWith scannedPdfMessage).
Proof. vm_compute. reflexivity. Qed.

Lemma pdfTry_short (file : Upload.t) (text : option string) :
  Upload.pdfText file = Returns text ->
  (String.length (JS.orDefault text "") < 50)%nat ->
  pdfTry file = Throws (ErrorWith scannedPdfMessage).
Proof.
  intros Hpdf Hlen. unfold pdfTry. rewrite Hpdf.
  pose proof (length_trim (JS.orDefault text "")) as Htrim.
  replace (String.length (JS.trim (JS.orDefault text "")) <? 50)%nat with true;
    [reflexivity|].
  symmetry. apply Nat.ltb_lt. lia.
Qed.

(** C6.  For a PDF whose text layer, as extracted, has fewer than 50
    characters, [extractTextFromDocument] raises the scanned-PDF error,
    whose message asks for a JPG or PNG to be uploaded instead, and returns
    no text; in a batch the file is reported with that message and nothing
    is stored. *)
Theorem C6_scanned_pdf_raises :
  forall (file : Upload.t) (text : option string),
    JS.toLowerCase (Upload.extname file) = ".pdf" ->
    Upload.pdfText file = Returns text ->
    (String.length (JS.orDefault text "") < 50)%nat ->
    extractTextFromDocument file = Throws (ErrorWith scannedPdfMessage)
    /\ (forall t, extractTextFromDocument file <> Returns t)
    /\ JS.includes scannedPdfMessage "scanned PDF" = true
    /\ JS.includes scannedPdfMessage
         "convert the document to JPG or PNG format and re-upload" = true
    /\ (forall carriers plans w now,
          processFile carriers plans w file now
          = (Failed (Upload.originalname file) scannedPdfMessage, w)).
Proof.
  intros file text Hext Hpdf Hlen.
  assert (E : extractTextFromDocument file = Throws (ErrorWith scannedPdfMessage)).
  { unfold extractTextFromDocument. rewrite Hext. cbn [String.eqb].
    change (String.eqb ".pdf" ".pdf") with true. cbv iota.
    rewrite (pdfTry_short file text Hpdf Hlen). apply scanned_rethrown. }
  split; [exact E|]. split; [intros t; rewrite E; discriminate|].
  split; [vm_compute; reflexivity|]. split; [vm_compute; reflexivity|].
  intros carriers plans w now. unfold processFile. rewrite E. reflexivity.
Qed.

(** ** C1: the acceptance test of the batch handler *)

Lemma rejected_false_iff (e : Extracted.t) :
  rejected e = false <-> acceptable e.
Proof.
  unfold rejected, acceptable. split.
  - destruct (Extracted.carrier e) as [c|]; [|discriminate].
    destruct (Extracted.plan e) as [p|]; [|discriminate].
    intros H. apply orb_false_iff in H as [H1 H2].
    apply negb_false_iff, Z.eqb_eq in H1. apply Z.ltb_ge in H2.
    exists c, p. auto.
  - intros (c & p & -> & -> & Hid & Hconf).
    apply orb_false_iff. split.
    + apply negb_false_iff, Z.eqb_eq. exact Hid.
    + apply Z.ltb_ge. exact Hconf.
Qed.

Section Acceptance.
Variables (carriers : list Carrier.t) (plans : list Plan.t)
          (w : World) (file : Upload.t) (now : Z).

Lemma processFile_no_text :
  (forall text, extractTextFromDocument file = Returns text ->
                String.length (JS.trim text) = 0%nat) ->
  exists msg,
    processFile carriers plans w file now
    = (Failed (Upload.originalname file) msg, w).
Proof.
  intros H. unfold processFile.
  destruct (extractTextFromDocument file) as [text|[m|]]; eauto.
  rewrite (H text eq_refl). cbn. eauto.
Qed.

Lemma processFile_rejected (text : string) :
  extractTextFromDocument file = Returns text ->
  String.length (JS.trim text) <> 0%nat ->
  rejected (parsePlanDocumentText text carriers plans) = true ->
  processFile carriers plans w file now
  = (reviewEntry file text carriers plans, w).
Proof.
  intros Hx Hlen Hrej. unfold processFile, reviewEntry. rewrite Hx.
  apply Nat.eqb_neq in Hlen. rewrite Hlen.
  rewrite <- result_carrierMatches with (plans := plans).
  rewrite <- result_planMatches.
  destruct (Extracted.carrier _) as [c|] eqn:Ec; [|reflexivity].
  destruct (Extracted.plan _) as [p|] eqn:Ep; [|reflexivity].
  rewrite Hrej. reflexivity.
Qed.

Lemma processFile_accepted (text : string) (c : Carrier.t) (p : Plan.t) :
  extractTextFromDocument file = Returns text ->
  String.length (JS.trim text) <> 0%nat ->
  Extracted.carrier (parsePlanDocumentText text carriers plans) = Some c ->
  Extracted.plan (parsePlanDocumentText text carriers plans) = Some p ->
  rejected (parsePlanDocumentText text carriers plans) = false ->
  let e := parsePlanDocumentText text carriers plans in
  let doc := acceptedDocument w file now e p in
  processFile carriers plans w file now
  = (Assigned (Upload.originalname file) (Carrier.name c) (Plan.name p)
       (Plan.id p) (Extracted.documentType e) (PlanDocument.id doc)
       (Extracted.confidence e) (Extracted.extractedBenefits e),
     {| planDocuments := (planDocuments w ++ [doc])%list;
        nextDocumentId := (nextDocumentId w + 1)%Z;
        uploaded_documents :=
          (uploaded_documents w ++ [PlanDocument.filePath doc])%list |}).
Proof.
  intros Hx Hlen Hc Hp Hrej. cbv zeta. unfold processFile. rewrite Hx.
  apply Nat.eqb_neq in Hlen. rewrite Hlen. rewrite Hc, Hp, Hrej.
  reflexivity.
Qed.

Lemma processFile_cases :
  (success (fst (processFile carriers plans w file now)) = false
   /\ snd (processFile carriers plans w file now) = w)
  \/ (exists text c p,
        extractTextFromDocument file = Returns text
        /\ String.length (JS.trim text) <> 0%nat
        /\ Extracted.carrier (parsePlanDocumentText text carriers plans) = Some c
        /\ Extracted.plan (parsePlanDocumentText text carriers plans) = Some p
        /\ rejected (parsePlanDocumentText text carriers plans) = false).
Proof.
destruct (extractTextFromDocument file) as [text|e] eqn:Hx.
- destruct (Nat.eq_dec (String.length (JS.trim text)) 0) as [Hz|Hnz].
  + destruct processFile_no_text as [msg E].
    { intros t Ht. rewrite Hx in Ht. now injection Ht as <-. }
    left. rewrite E. split; reflexivity.
  + destruct (rejected (parsePlanDocumentText text carriers plans)) eqn:Hrej.
    * left. rewrite (processFile_rejected text Hx Hnz Hrej). split; reflexivity.
    * right. pose proof Hrej as Hacc.
      apply rejected_false_iff in Hacc as (c & p & Hc & Hp & _).
      exists text, c, p. auto.
- destruct processFile_no_text as [msg E].
  { intros t Ht. rewrite Hx in Ht. discriminate. }
  left. rewrite E. split; reflexivity.
Qed.

End Acceptance.



(** ** C3: documents of unknown type *)

Lemma detect_none (upperText : string) (patterns : list (string * list string)) :
  existsb (fun entry => existsb (JS.includes upperText) (snd entry)) patterns
  = false ->
  detectDocumentType upperText patterns = "".
Proof.
  induction patterns as [|[type keywords] rest IH]; cbn [existsb snd];
    intros H; cbn [detectDocumentType]; [reflexivity|].
  apply orb_false_iff in H as [H1 H2]. rewrite H1. now apply IH.
Qed.

Lemma documentType_unknown (text : string) (carriers : list Carrier.t)
    (plans : list Plan.t) :
  noKeyword text ->
  Extracted.documentType (parsePlanDocumentText text carriers plans) = "UNKNOWN".
Proof.
  intros H. unfold parsePlanDocumentText. cbn [Extracted.documentType].
  rewrite (detect_none _ _ H). reflexivity.
Qed.

(** C3, as stated, fails: the hand-book page is classified UNKNOWN, matches
    carrier and plan with confidence 95, and is stored as a plan document
    of type UNKNOWN. *)
Lemma C3_counterexample :
  Extracted.documentType (parsePlanDocumentText handbookText [aetna] [goldPlan])
  = "UNKNOWN"
  /\ Extracted.confidence (parsePlanDocumentText handbookText [aetna] [goldPlan])
     = 95%Z
  /\ processFile [aetna] [goldPlan] emptyWorld handbook 1700000000000
     = (Assigned "handbook.png" "Aetna" "Gold Plan" 10 "UNKNOWN" 1 95 None,
        {| planDocuments :=
             [ {| PlanDocument.id := 1; PlanDocument.planId := 10;
                  PlanDocument.documentType := "UNKNOWN";
                  PlanDocument.fileName := "handbook.png";
                  PlanDocument.filePath :=
                    {| safeDocType := "UNKNOWN"; forPlan := 10;
                       timestamp := 1700000000000; fileExtension := ".png" |};
                  PlanDocument.fileSize := 2048 |} ];
           nextDocumentId := 2;
           uploaded_documents :=
             [ {| safeDocType := "UNKNOWN"; forPlan := 10;
                  timestamp := 1700000000000; fileExtension := ".png" |} ] |}).
Proof. vm_compute. repeat split. Qed.

(** C3, amended.  A text without any document-type keyword is classified
    UNKNOWN.  The batch handler's test does not look at the document type:
    such a document is auto-assigned exactly when carrier and plan are
    matched, agree on the carrier and reach confidence 40, and its row is
    then stored with the type UNKNOWN; otherwise it is returned for
    review and nothing is stored. *)
Theorem C3_unknown_type_amended :
  forall (text : string) (carriers : list Carrier.t) (plans : list Plan.t)
         (w : World) (file : Upload.t) (now : Z),
    noKeyword text ->
    extractTextFromDocument file = Returns text ->
    String.length (JS.trim text) <> 0%nat ->
    Extracted.documentType (parsePlanDocumentText text carriers plans) = "UNKNOWN"
    /\ (acceptable (parsePlanDocumentText text carriers plans) ->
        success (fst (processFile carriers plans w file now)) = true
        /\ exists doc,
             planDocuments (snd (processFile carriers plans w file now))
             = (planDocuments w ++ [doc])%list
             /\ PlanDocument.documentType doc = "UNKNOWN")
    /\ (~ acceptable (parsePlanDocumentText text carriers plans) ->
        success (fst (processFile carriers plans w file now)) = false
        /\ snd (processFile carriers plans w file now) = w).
Proof.
  intros text carriers plans w file now Hno Hx Hnz.
  pose proof (documentType_unknown text carriers plans Hno) as Hty.
  split; [exact Hty|]. split.
  - intros Hacc. pose proof Hacc as (c & p & Hc & Hp & _).
    apply rejected_false_iff in Hacc.
    rewrite (processFile_accepted carriers plans w file now text c p
               Hx Hnz Hc Hp Hacc).
    cbn [fst snd success planDocuments]. split; [reflexivity|].
    eexists. split; [reflexivity|]. cbn [acceptedDocument PlanDocument.documentType].
    exact Hty.
  - intros Hna.
    assert (Hrej : rejected (parsePlanDocumentText text carriers plans) = true).
    { destruct (rejected _) eqn:E; [reflexivity|].
      apply rejected_false_iff in E. contradiction. }
    rewrite (processFile_rejected carriers plans w file now text Hx Hnz Hrej).
    split; reflexivity.
Qed.

(** ** C10: the confidence can come from a plan that is not returned *)

Lemma planStep_foreign_overwrites (upperText : string) (ids : list string)
    (carriers : list Carrier.t) (c : Carrier.t) (st : PlanLoop) (p q : Plan.t) :
  bestPlanMatch st = Some p ->
  Plan.carrierId q <> Carrier.id c ->
  bestPlanScore st < planScore upperText ids q ->
  bestPlanMatch (planStep upperText ids carriers (Some c) st q) = Some p
  /\ bestPlanScore (planStep upperText ids carriers (Some c) st q)
     = planScore upperText ids q.
Proof.
  intros Hp Hq Hlt. unfold planStep.
  assert (L : JS.Qlt_bool (bestPlanScore st) (planScore upperText ids q) = true).
  { unfold JS.Qlt_bool. apply negb_true_iff.
    destruct (Qle_bool _ _) eqn:E; [|reflexivity].
    apply Qle_bool_iff in E. exfalso. eapply Qlt_not_le; eassumption. }
  rewrite L. cbn [orb bestPlanMatch bestPlanScore]. split; [|reflexivity].
  unfold ofCarrier. apply Z.eqb_neq in Hq. rewrite Hq, Hp. cbn.
  destruct (Qle_bool (40 # 1) (planScore upperText ids q)); reflexivity.
Qed.

(** C10.  Inside the plan loop, once a plan of the matched carrier is
    selected, a plan of another carrier with a strictly higher score leaves
    the selection alone but replaces the best score; and there is an input
    on which the returned confidence is the average taken with that foreign
    score, not the one of the returned plan: carrier Aetna at 100, returned
    plan "Gold Plan" at 90, Humana's "Advantage Gold H5216-321" at 100,
    confidence 100 instead of 95. *)
Theorem C10_confidence_from_foreign_plan :
  (forall upperText ids carriers c st p q,
      bestPlanMatch st = Some p ->
      Plan.carrierId p = Carrier.id c ->
      Plan.carrierId q <> Carrier.id c ->
      bestPlanScore st < planScore upperText ids q ->
      bestPlanMatch (planStep upperText ids carriers (Some c) st q) = Some p
      /\ bestPlanScore (planStep upperText ids carriers (Some c) st q)
         = planScore upperText ids q)
  /\ (exists text carriers plans c p q,
        let r := parsePlanDocumentText text carriers plans in
        let upperText := JS.toUpperCase text in
        let ids := foundPlanIdsOf text in
        Extracted.carrier r = Some c /\ Extracted.plan r = Some p
        /\ In q plans /\ q <> p
        /\ Plan.carrierId p = Carrier.id c
        /\ Plan.carrierId q <> Carrier.id c
        /\ planScore upperText ids p < planScore upperText ids q
        /\ Extracted.confidence r
           = JS.round ((carrierScore upperText c + planScore upperText ids q)
                       / (2 # 1))
        /\ Extracted.confidence r
           <> JS.round ((carrierScore upperText c + planScore upperText ids p)
                        / (2 # 1))).
Proof.
  split.
  - intros upperText ids carriers c st p q Hp _ Hq Hlt.
    now apply planStep_foreign_overwrites.
  - exists flyerText, [aetna; humana], [goldPlan; advantageGold],
      aetna, goldPlan, advantageGold.
    cbv zeta.
    split; [vm_compute; reflexivity|].
    split; [vm_compute; reflexivity|].
    split; [right; now left|].
    split; [discriminate|].
    split; [reflexivity|].
    split; [vm_compute; discriminate|].
    split; [vm_compute; reflexivity|].
    split; [vm_compute; reflexivity|].
    vm_compute. discriminate.
Qed.

(** ** C2: the current plan is never recommended *)

Section Comparison.
Variables (clientState : option string) (county : string)
          (currentPlan : Plan.t) (allPlans : list Plan.t).

Lemma availablePlans_spec (p : Plan.t) :
  In p (availablePlans clientState county currentPlan allPlans)
  <-> In p allPlans
      /\ sameString (Plan.stateCode p) clientState = true
      /\ listsCounty p county = true
      /\ Plan.id p <> Plan.id currentPlan.
Proof.
  unfold availablePlans. rewrite filter_In, !andb_true_iff, negb_true_iff,
    Z.eqb_neq. tauto.
Qed.

Lemma rankPlans_In (available : list Plan.t) (s : Scored.t) :
  In s (rankPlans currentPlan available)
  <-> exists p, In p available /\ s = scorePlan currentPlan p.
Proof.
  unfold rankPlans. rewrite sortDesc_In, in_map_iff.
  split; intros (p & A & B); exists p; auto.
Qed.

Lemma top3_In (available : list Plan.t) (s : Scored.t) :
  In s (top3Of currentPlan available) ->
  In (Scored.plan s) available.
Proof.
  unfold top3Of. intros H. apply firstn_In in H.
  apply rankPlans_In in H as (p & Hp & ->). exact Hp.
Qed.

End Comparison.

Lemma getPlan_id (allPlans : list Plan.t) (id : Z) (p : Plan.t) :
  getPlan allPlans id = Some p -> In p allPlans /\ Plan.id p = id.
Proof.
  unfold getPlan. intros H. apply find_some in H as [Hin Hid].
  apply Z.eqb_eq in Hid. auto.
Qed.

(** What a successful comparison is made of. *)
Lemma compare_inv (client : Client.t) (allPlans : list Plan.t)
    (currentPlan : Plan.t) (recommended : list Scored.t) (n : nat) :
  compare client allPlans = Comparison currentPlan recommended n ->
  exists county,
    Client.county client = Some county
    /\ Client.currentPlanId client = Some (Plan.id currentPlan)
    /\ In currentPlan allPlans
    /\ recommended
       = top3Of currentPlan
           (availablePlans (Client.state client) county currentPlan allPlans).
Proof.
  unfold compare. intros H.
  destruct (Client.county client) as [county|] eqn:Ec; [|discriminate].
  destruct county as [|a county]; [discriminate|]. cbn in H.
  destruct (Client.currentPlanId client) as [planId|]; [|discriminate].
  destruct (planId =? 0)%Z; [discriminate|].
  destruct (getPlan allPlans planId) as [cur|] eqn:Eg; [|discriminate].
  injection H as -> <- _.
  apply getPlan_id in Eg as [Hin <-].
  exists (String a county). auto.
Qed.

(** C2.  Whenever the comparison handler answers with recommendations, the
    plan with the client's current plan id is neither among the scored
    candidates nor among the at most three recommended plans. *)
Theorem C2_self_exclusion :
  forall (client : Client.t) (allPlans : list Plan.t) (currentPlan : Plan.t)
         (recommended : list Scored.t) (n : nat),
    compare client allPlans = Comparison currentPlan recommended n ->
    (forall s,
        In s (rankPlans currentPlan
                (availablePlans (Client.state client)
                   (JS.orDefault (Client.county client) "") currentPlan allPlans)) ->
        Some (Plan.id (Scored.plan s)) <> Client.currentPlanId client)
    /\ (forall s,
          In s recommended ->
          Some (Plan.id (Scored.plan s)) <> Client.currentPlanId client)
    /\ (List.length recommended <= 3)%nat.
Proof.
  intros client allPlans currentPlan recommended n H.
  apply compare_inv in H as (county & Ec & Eid & _ & ->).
  rewrite Ec, Eid.
  assert (Ed : JS.orDefault (Some county) "" = county) by now destruct county.
  rewrite Ed. split; [|split].
  - intros s Hs. apply rankPlans_In in Hs as (p & Hp & ->).
    apply availablePlans_spec in Hp as (_ & _ & _ & Hne).
    cbn [scorePlan Scored.plan]. congruence.
  - intros s Hs. apply top3_In in Hs.
    apply availablePlans_spec in Hs as (_ & _ & _ & Hne). congruence.
  - unfold top3Of. rewrite length_firstn. lia.
Qed.

(** ** C4: the state and county filter *)





(** ** C5: the sample scenario *)

(** C5, as stated, fails on candidate B: a premium 15 above the current one
    is within the 20 that the penalty needs, so B keeps the base score. *)
Lemma C5_counterexample :
  Scored.score (scorePlan sampleCurrent sampleB) = 100%Z
  /\ Scored.score (scorePlan sampleCurrent sampleB) <> 80%Z
  /\ Scored.reasons (scorePlan sampleCurrent sampleB) = [].
Proof. vm_compute. repeat split. discriminate. Qed.

Lemma missing_cases (x : option string) :
  missing x -> x = None \/ x = Some "".
Proof.
  destruct x as [[|c r]|]; intros H; auto. discriminate H.
Qed.

(** C5, amended.  With the current plan at premium 120 and MOOP 6000 and
    no co-pays on record, candidate A (premium 60, MOOP 5000, no SNP) gets
    100 + 40 + 30 = 170 and candidate B (premium 135, MOOP 7000) keeps the
    base 100: its premium is 15 higher, which does not exceed 20, and its
    MOOP is not lower.  A is ranked above B in whatever order the catalogue
    lists them. *)
Theorem C5_sample_scenario_amended :
  forall (current a b : Plan.t),
    Plan.monthlyPremium current = Some "120" ->
    Plan.maxOutOfPocket current = Some "6000" ->
    Plan.monthlyPremium a = Some "60" ->
    Plan.maxOutOfPocket a = Some "5000" ->
    Plan.monthlyPremium b = Some "135" ->
    Plan.maxOutOfPocket b = Some "7000" ->
    missing (Plan.primaryCareCopay current) ->
    missing (Plan.specialistCopay current) ->
    missing (Plan.primaryCareCopay a) -> missing (Plan.specialistCopay a) ->
    missing (Plan.primaryCareCopay b) -> missing (Plan.specialistCopay b) ->
    Plan.isCSnp a = false -> Plan.isDSnp a = false ->
    Plan.isCSnp b = false -> Plan.isDSnp b = false ->
    Scored.score (scorePlan current a) = 170%Z
    /\ Scored.score (scorePlan current b) = 100%Z
    /\ rankPlans current [a; b] = [scorePlan current a; scorePlan current b]
    /\ rankPlans current [b; a] = [scorePlan current a; scorePlan current b].
Proof.
  intros [ci cc cn cst cp cm cpc csc ccs cds cco]
         [ai ac an ast ap am apc asc acs ads aco]
         [bi bc bn bst bp bm bpc bsc bcs bds bco].
  cbn [Plan.monthlyPremium Plan.maxOutOfPocket Plan.primaryCareCopay
       Plan.specialistCopay Plan.isCSnp Plan.isDSnp].
  intros -> -> -> -> -> -> Hc1 Hc2 Ha1 Ha2 Hb1 Hb2 -> -> -> ->.
  destruct (missing_cases _ Hc1) as [-> | ->],
           (missing_cases _ Hc2) as [-> | ->],
           (missing_cases _ Ha1) as [-> | ->],
           (missing_cases _ Ha2) as [-> | ->],
           (missing_cases _ Hb1) as [-> | ->],
           (missing_cases _ Hb2) as [-> | ->];
    vm_compute; repeat split.
Qed.

(** ** C8: missing numeric fields *)

Section MissingFields.

Lemma orDefault_missing (x : option string) (d : string) :
  missing x -> JS.orDefault x d = d.
Proof. destruct x as [[|c r]|]; intros H; try reflexivity. discriminate H. Qed.

Lemma orDefault_populated (s d : string) :
  s <> "" -> JS.orDefault (Some s) d = s.
Proof. destruct s; [now intros [] | reflexivity]. Qed.

Lemma bump_fst (t : Tally) (k : Z) (r : Reason) :
  fst (bump t k r) = (fst t + k)%Z.
Proof. reflexivity. Qed.

Ltac rule_cases :=
  repeat match goal with
         | |- context [if ?c then _ else _] => destruct c
         end;
  cbn [bump fst snd]; try lia.

Lemma premiumRule_fst (cur p : Plan.t) (t : Tally) :
  fst (premiumRule cur p t) = (fst t + points (premiumRule cur p))%Z.
Proof. unfold points, premiumRule. rule_cases. Qed.

Lemma moopRule_fst (cur p : Plan.t) (t : Tally) :
  fst (moopRule cur p t) = (fst t + points (moopRule cur p))%Z.
Proof. unfold points, moopRule. rule_cases. Qed.

Lemma pcpRule_fst (cur p : Plan.t) (t : Tally) :
  fst (pcpRule cur p t) = (fst t + points (pcpRule cur p))%Z.
Proof. unfold points, pcpRule. rule_cases. Qed.

Lemma specialistRule_fst (cur p : Plan.t) (t : Tally) :
  fst (specialistRule cur p t) = (fst t + points (specialistRule cur p))%Z.
Proof. unfold points, specialistRule. rule_cases. Qed.

Lemma snpRule_fst (p : Plan.t) (t : Tally) :
  fst (snpRule p t) = (fst t + points (snpRule p))%Z.
Proof. unfold points, snpRule. rule_cases. Qed.

Lemma scorePlan_score (cur p : Plan.t) :
  Scored.score (scorePlan cur p)
  = (100 + points (premiumRule cur p) + points (moopRule cur p)
     + points (pcpRule cur p) + points (specialistRule cur p)
     + points (snpRule p))%Z.
Proof.
  unfold scorePlan. cbn [Scored.score].
  rewrite snpRule_fst, specialistRule_fst, pcpRule_fst, moopRule_fst,
    premiumRule_fst.
  reflexivity.
Qed.

(** Reasons are only ever appended. *)
Lemma pcpRule_keeps (cur p : Plan.t) (t : Tally) (r : Reason) :
  In r (snd t) -> In r (snd (pcpRule cur p t)).
Proof.
  unfold pcpRule. intros H.
  rule_cases; try (apply in_or_app; now left); exact H.
Qed.

Lemma specialistRule_keeps (cur p : Plan.t) (t : Tally) (r : Reason) :
  In r (snd t) -> In r (snd (specialistRule cur p t)).
Proof.
  unfold specialistRule. intros H.
  rule_cases; try (apply in_or_app; now left); exact H.
Qed.

Lemma snpRule_keeps (p : Plan.t) (t : Tally) (r : Reason) :
  In r (snd t) -> In r (snd (snpRule p t)).
Proof.
  unfold snpRule. intros H.
  rule_cases; try (apply in_or_app; now left); exact H.
Qed.

Lemma moopRule_default (cur p : Plan.t) (q : Q) (t : Tally) :
  missing (Plan.maxOutOfPocket cur) ->
  JS.parseFloat (JS.orDefault (Plan.maxOutOfPocket p) "999999") = JS.Fin q ->
  moopRule cur p t
  = if JS.Qlt_bool q (999999 # 1)
    then bump t 30 (LowerMoop (JS.sub (JS.parseFloat "999999") (JS.Fin q)))
    else t.
Proof.
  intros Hc Hp. unfold moopRule.
  rewrite (orDefault_missing _ _ Hc), Hp. reflexivity.
Qed.

End MissingFields.

(** C8, as stated, fails: the current plan has no MOOP on record, the
    candidate has one, 999999.00, and earns no MOOP bonus. *)
Lemma C8_counterexample :
  Plan.maxOutOfPocket noMoopOnRecord = None
  /\ JS.truthy (Plan.maxOutOfPocket sentinelMoop) = true
  /\ moopRule noMoopOnRecord sentinelMoop (100%Z, []) = (100%Z, [])
  /\ Scored.score (scorePlan noMoopOnRecord sentinelMoop) = 100%Z
  /\ Scored.reasons (scorePlan noMoopOnRecord sentinelMoop) = [].
Proof. vm_compute. repeat split. Qed.

Ltac open_scorePlan :=
  unfold verdict, scorePlan, premiumRule, moopRule, pcpRule, specialistRule,
    snpRule;
  cbn [Scored.score Scored.reasons withPremium withMoop withPrimaryCareCopay
       withSpecialistCopay Plan.monthlyPremium Plan.maxOutOfPocket
       Plan.primaryCareCopay Plan.specialistCopay Plan.isCSnp Plan.isDSnp].

Ltac by_default H :=
  open_scorePlan; rewrite (orDefault_missing _ _ H); reflexivity.

(** C8, amended.  In the comparison a monthly premium, primary-care co-pay
    or specialist co-pay that is missing, on the current plan or on the
    candidate, counts as 0, and a missing max-out-of-pocket counts as the
    sentinel 999999.  Hence, when the current plan has no MOOP on record, a
    candidate whose populated MOOP is a number below 999999 earns the 30
    points and the lower-MOOP reason (and one at 999999 or above does
    not). *)
Theorem C8_missing_fields_amended :
  forall (current plan : Plan.t),
    JS.parseFloat "0" = JS.Fin 0
    /\ JS.parseFloat "999999" = JS.Fin (999999 # 1)
    /\ (missing (Plan.monthlyPremium current) ->
        verdict (scorePlan current plan)
        = verdict (scorePlan (withPremium (Some "0") current) plan))
    /\ (missing (Plan.monthlyPremium plan) ->
        verdict (scorePlan current plan)
        = verdict (scorePlan current (withPremium (Some "0") plan)))
    /\ (missing (Plan.primaryCareCopay current) ->
        verdict (scorePlan current plan)
        = verdict (scorePlan (withPrimaryCareCopay (Some "0") current) plan))
    /\ (missing (Plan.primaryCareCopay plan) ->
        verdict (scorePlan current plan)
        = verdict (scorePlan current (withPrimaryCareCopay (Some "0") plan)))
    /\ (missing (Plan.specialistCopay current) ->
        verdict (scorePlan current plan)
        = verdict (scorePlan (withSpecialistCopay (Some "0") current) plan))
    /\ (missing (Plan.specialistCopay plan) ->
        verdict (scorePlan current plan)
        = verdict (scorePlan current (withSpecialistCopay (Some "0") plan)))
    /\ (missing (Plan.maxOutOfPocket current) ->
        verdict (scorePlan current plan)
        = verdict (scorePlan (withMoop (Some "999999") current) plan))
    /\ (missing (Plan.maxOutOfPocket plan) ->
        verdict (scorePlan current plan)
        = verdict (scorePlan current (withMoop (Some "999999") plan)))
    /\ (forall (s : string) (q : Q),
          missing (Plan.maxOutOfPocket current) ->
          Plan.maxOutOfPocket plan = Some s -> s <> "" ->
          JS.parseFloat s = JS.Fin q ->
          (q < 999999 # 1 ->
           Scored.score (scorePlan current plan)
           = (Scored.score (scorePlan current (withMoop None plan)) + 30)%Z
           /\ In (LowerMoop (JS.sub (JS.parseFloat "999999") (JS.Fin q)))
                (Scored.reasons (scorePlan current plan)))
          /\ (999999 # 1 <= q ->
              verdict (scorePlan current plan)
              = verdict (scorePlan current (withMoop None plan)))).
Proof.
  intros current plan.
  split; [reflexivity|]. split; [reflexivity|].
  split; [intros H; by_default H|]. split; [intros H; by_default H|].
  split; [intros H; by_default H|]. split; [intros H; by_default H|].
  split; [intros H; by_default H|]. split; [intros H; by_default H|].
  split; [intros H; by_default H|]. split; [intros H; by_default H|].
  intros s q Hcur Hplan Hs Hq.
  assert (Hp : JS.parseFloat (JS.orDefault (Plan.maxOutOfPocket plan) "999999")
               = JS.Fin q).
  { rewrite Hplan, (orDefault_populated s _ Hs). exact Hq. }
  assert (Hnone : forall t, moopRule current (withMoop None plan) t = t).
  { intros t. unfold moopRule. cbn [withMoop Plan.maxOutOfPocket].
    rewrite (orDefault_missing _ _ Hcur). reflexivity. }
  split.
  - intros Hlt.
    assert (Hb : JS.Qlt_bool q (999999 # 1) = true).
    { unfold JS.Qlt_bool. apply negb_true_iff.
      destruct (Qle_bool _ _) eqn:E; [|reflexivity].
      apply Qle_bool_iff in E. exfalso. eapply Qlt_not_le; eassumption. }
    split.
    + assert (P30 : points (moopRule current plan) = 30%Z).
      { unfold points.
        rewrite (moopRule_default current plan q _ Hcur Hp), Hb. reflexivity. }
      assert (P0 : points (moopRule current (withMoop None plan)) = 0%Z).
      { unfold points. rewrite Hnone. reflexivity. }
      rewrite !scorePlan_score, P30, P0.
      change (points (premiumRule current (withMoop None plan)))
        with (points (premiumRule current plan)).
      change (points (pcpRule current (withMoop None plan)))
        with (points (pcpRule current plan)).
      change (points (specialistRule current (withMoop None plan)))
        with (points (specialistRule current plan)).
      change (points (snpRule (withMoop None plan)))
        with (points (snpRule plan)).
      lia.
    + unfold scorePlan. cbn [Scored.reasons].
      apply snpRule_keeps, specialistRule_keeps, pcpRule_keeps.
      rewrite (moopRule_default current plan q _ Hcur Hp), Hb.
      cbn [bump snd]. apply in_or_app. right. now left.
  - intros Hge.
    assert (Hb : JS.Qlt_bool q (999999 # 1) = false).
    { unfold JS.Qlt_bool. apply negb_false_iff. now apply Qle_bool_iff. }
    unfold verdict, scorePlan. cbn [Scored.score Scored.reasons].
    rewrite Hnone, (moopRule_default current plan q _ Hcur Hp), Hb.
    unfold premiumRule, pcpRule, specialistRule, snpRule.
    cbn [withMoop Plan.monthlyPremium Plan.primaryCareCopay
         Plan.specialistCopay Plan.isCSnp Plan.isDSnp]. reflexivity.
Qed.

(** ** The statements at sample inputs *)

Lemma noKeyword_spec (text : string) :
  noKeyword text <->
  forall type keywords keyword,
    In (type, keywords) docTypePatterns -> In keyword keywords ->
    JS.includes (JS.toUpperCase text) keyword = false.
Proof.
  unfold noKeyword. split.
  - intros H type keywords keyword Hin Hk.
    apply not_true_is_false. intros E.
    assert (X : existsb (fun entry =>
                  existsb (JS.includes (JS.toUpperCase text)) (snd entry))
                  docTypePatterns = true).
    { apply existsb_exists. exists (type, keywords). split; [exact Hin|].
      apply existsb_exists. exists keyword. auto. }
    congruence.
  - intros H. apply not_true_is_false. intros E.
    apply existsb_exists in E as ([type keywords] & Hin & E).
    apply existsb_exists in E as (keyword & Hk & E).
    rewrite (H type keywords keyword Hin Hk) in E. discriminate.
Qed.


Lemma C2_witness :
  compare sampleClient [sampleCurrent; sampleB; sampleA]
  = Comparison sampleCurrent
      [scorePlan sampleCurrent sampleA; scorePlan sampleCurrent sampleB] 2
  /\ (forall s,
        In s [scorePlan sampleCurrent sampleA; scorePlan sampleCurrent sampleB] ->
        Some (Plan.id (Scored.plan s)) <> Client.currentPlanId sampleClient).
Proof.
  assert (H : compare sampleClient [sampleCurrent; sampleB; sampleA]
              = Comparison sampleCurrent
                  [scorePlan sampleCurrent sampleA;
                   scorePlan sampleCurrent sampleB] 2)
    by (vm_compute; reflexivity).
  split; [exact H|].
  exact (proj1 (proj2 (C2_self_exclusion _ _ _ _ _ H))).
Defined.

Lemma C3_witness :
  noKeyword handbookText
  /\ Extracted.documentType (parsePlanDocumentText handbookText [aetna] [goldPlan])
     = "UNKNOWN".
Proof.
  assert (H : noKeyword handbookText) by (vm_compute; reflexivity).
  split; [exact H|].
  refine (proj1 (C3_unknown_type_amended handbookText [aetna] [goldPlan]
                   emptyWorld handbook 1700000000000 H _ _)).
  - reflexivity.
  - vm_compute. discriminate.
Defined.


Lemma C5_witness :
  Scored.score (scorePlan sampleCurrent sampleA) = 170%Z
  /\ Scored.score (scorePlan sampleCurrent sampleB) = 100%Z
  /\ rankPlans sampleCurrent [sampleA; sampleB]
     = [scorePlan sampleCurrent sampleA; scorePlan sampleCurrent sampleB]
  /\ rankPlans sampleCurrent [sampleB; sampleA]
     = [scorePlan sampleCurrent sampleA; scorePlan sampleCurrent sampleB].
Proof.
  apply (C5_sample_scenario_amended sampleCurrent sampleA sampleB);
    reflexivity.
Defined.

Lemma C6_witness :
  JS.toLowerCase (Upload.extname scannedPdf) = ".pdf"
  /\ extractTextFromDocument scannedPdf = Throws (ErrorWith scannedPdfMessage).
Proof.
  split; [reflexivity|].
  refine (proj1 (C6_scanned_pdf_raises scannedPdf (Some "  Page 1  ") _ _ _)).
  - reflexivity.
  - reflexivity.
  - vm_compute. lia.
Defined.

Lemma C7_witness :
  isPlanIdToken "H5216-321"
  /\ JS.includes flyerText "H5216-321" = true
  /\ JS.includes (Plan.name advantageGold) "H5216-321" = true
  /\ planScore (JS.toUpperCase flyerText) (foundPlanIdsOf flyerText) advantageGold
     = Q100.
Proof.
  assert (H1 : isPlanIdToken "H5216-321") by reflexivity.
  assert (H2 : JS.includes flyerText "H5216-321" = true) by reflexivity.
  assert (H3 : JS.includes (Plan.name advantageGold) "H5216-321" = true)
    by reflexivity.
  repeat (split; [assumption|]).
  exact (proj1 (C7_plan_id_short_circuit flyerText [aetna; humana]
                  [goldPlan; advantageGold] advantageGold "H5216-321" H1 H2 H3)).
Defined.

Lemma C8_witness :
  missing (Plan.maxOutOfPocket noMoopOnRecord)
  /\ In (LowerMoop (JS.sub (JS.parseFloat "999999") (JS.Fin (5000 # 1))))
       (Scored.reasons (scorePlan noMoopOnRecord sampleA)).
Proof.
  assert (H : missing (Plan.maxOutOfPocket noMoopOnRecord)) by reflexivity.
  split; [exact H|].
  refine (proj2 (proj1
            (proj2 (proj2 (proj2 (proj2 (proj2 (proj2 (proj2 (proj2 (proj2 (proj2
               (C8_missing_fields_amended noMoopOnRecord sampleA))))))))))
               "5000" (5000 # 1) H _ _ _) _)).
  - reflexivity.
  - discriminate.
  - reflexivity.
  - reflexivity.
Defined.

Lemma C9_witness :
  Extracted.carrier (parsePlanDocumentText strayText [aetna; humana] [goldPlan])
  = None
  /\ Extracted.confidence
       (parsePlanDocumentText strayText [aetna; humana] [goldPlan]) = 0%Z.
Proof.
  split; [reflexivity|].
  apply (proj2 (C9_confidence_bound strayText [aetna; humana] [goldPlan]));
    reflexivity.
Defined.

Lemma C10_witness :
  bestPlanMatch afterGoldPlan = Some goldPlan
  /\ bestPlanMatch
       (planStep (JS.toUpperCase flyerText) (foundPlanIdsOf flyerText)
          [aetna; humana] (Some aetna) afterGoldPlan advantageGold)
     = Some goldPlan
  /\ bestPlanScore
       (planStep (JS.toUpperCase flyerText) (foundPlanIdsOf flyerText)
          [aetna; humana] (Some aetna) afterGoldPlan advantageGold)
     = planScore (JS.toUpperCase flyerText) (foundPlanIdsOf flyerText)
         advantageGold.
Proof.
  split; [reflexivity|].
  apply (proj1 C10_confidence_from_foreign_plan).
  - reflexivity.
  - reflexivity.
  - vm_compute. discriminate.
  - vm_compute. reflexivity.
Defined.

(** * Further properties of the document pipeline *)

(** ** The matcher *)

Section MatcherInvariants.
Variables (upperText : string) (foundPlanIds : list string)
          (carriers : list Carrier.t) (best : option Carrier.t).

Lemma Qle_bool_false (x y : Q) : Qle_bool x y = false -> y < x.
Proof.
intros H. apply Qnot_le_lt. intros L. apply Qle_bool_iff in L. congruence.
Qed.

Lemma carrierStep_inv (seen : list Carrier.t) (st : CarrierLoop) (c : Carrier.t) :
  carrierInv upperText seen st ->
  carrierInv upperText (seen ++ [c]) (carrierStep upperText st c).
Proof.
intros (Ha & Hb & Hc). unfold carrierStep.
destruct (JS.Qlt_bool (bestCarrierScore st) (carrierScore upperText c)) eqn:E.
- apply Qlt_bool_true in E.
  unfold carrierInv. cbn [bestCarrierMatch bestCarrierScore].
  split; [|split].
  + intros c' Hin. apply in_app_or in Hin as [Hin|[<-|[]]].
    * apply Qlt_le_weak. eapply Qle_lt_trans; [apply Ha, Hin | exact E].
    * apply Qle_refl.
  + destruct (Qle_bool (50 # 1) (carrierScore upperText c)) eqn:E50;
      [discriminate|].
    intros _. now apply Qle_bool_false.
  + intros c'. destruct (Qle_bool (50 # 1) (carrierScore upperText c)) eqn:E50.
    * intros [= <-]. apply Qle_bool_iff in E50.
      split; [apply in_or_app; right; now left | auto].
    * intros Hm. destruct (Hc _ Hm) as (_ & Hs & H50).
      apply Qle_bool_false in E50. exfalso.
      rewrite Hs in E. apply (Qlt_irrefl (50 # 1)).
      eapply Qle_lt_trans; [exact H50|]. eapply Qlt_trans; eassumption.
- apply Qlt_bool_false in E.
  unfold carrierInv. cbn [bestCarrierMatch bestCarrierScore].
  split; [|split].
  + intros c' Hin. apply in_app_or in Hin as [Hin|[<-|[]]]; auto.
  + exact Hb.
  + intros c' Hm. destruct (Hc _ Hm) as (Hin & Hs & H50).
    split; [apply in_or_app; now left | auto].
Qed.

Lemma carrierFold_inv (cs seen : list Carrier.t) (st : CarrierLoop) :
  carrierInv upperText seen st ->
  carrierInv upperText (seen ++ cs) (fold_left (carrierStep upperText) cs st).
Proof.
revert seen st. induction cs as [|c cs IH]; intros seen st H; cbn [fold_left].
- now rewrite app_nil_r.
- replace (seen ++ c :: cs)%list with ((seen ++ [c]) ++ cs)%list
    by now rewrite <- app_assoc.
  apply IH, carrierStep_inv, H.
Qed.

Lemma planStep_inv (seen : list Plan.t) (st : PlanLoop) (p : Plan.t) :
  planInv upperText foundPlanIds seen st ->
  planInv upperText foundPlanIds (seen ++ [p]) (planStep upperText foundPlanIds carriers best st p).
Proof.
intros (Ha & Hb & Hc). unfold planStep.
set (score := planScore upperText foundPlanIds p).
destruct (JS.Qlt_bool (bestPlanScore st) score
          || Qeq_bool score (bestPlanScore st) && ofCarrier best p) eqn:E.
- assert (Hle : bestPlanScore st <= score).
  { apply orb_true_iff in E as [E|E].
    - apply Qlt_le_weak. now apply Qlt_bool_true.
    - apply andb_true_iff in E as [E _]. apply Qeq_bool_iff in E.
      rewrite E. apply Qle_refl. }
  unfold planInv. cbn [bestPlanMatch bestPlanScore].
  split; [|split].
  + intros q Hin. apply in_app_or in Hin as [Hin|[<-|[]]].
    * eapply Qle_trans; [apply Ha, Hin | exact Hle].
    * apply Qle_refl.
  + destruct (Qle_bool (40 # 1) score) eqn:E40.
    * destruct (negb (isSome best) || ofCarrier best p); [discriminate|].
      destruct (bestPlanMatch st) eqn:Em; cbn; [|discriminate].
      intros Hn. discriminate Hn.
    * intros _. now apply Qle_bool_false.
  + intros q. destruct (Qle_bool (40 # 1) score) eqn:E40.
    * apply Qle_bool_iff in E40.
      assert (Hnew : In p (seen ++ [p]) /\ 40 # 1 <= score)
        by (split; [apply in_or_app; right; now left | exact E40]).
      destruct (negb (isSome best) || ofCarrier best p);
        [intros [= <-]; exact Hnew|].
      destruct (bestPlanMatch st) as [m|] eqn:Em; cbn.
      -- intros [= <-]. destruct (Hc m eq_refl) as [Hin H40].
         split; [apply in_or_app; now left | exact H40].
      -- intros [= <-]. exact Hnew.
    * intros Hm. destruct (Hc _ Hm) as [Hin H40].
      split; [apply in_or_app; now left | exact H40].
- apply orb_false_iff in E as [E _]. apply Qlt_bool_false in E.
  unfold planInv. cbn [bestPlanMatch bestPlanScore].
  split; [|split].
  + intros q Hin. apply in_app_or in Hin as [Hin|[<-|[]]]; auto.
  + exact Hb.
  + intros q Hm. destruct (Hc _ Hm) as [Hin H40].
    split; [apply in_or_app; now left | exact H40].
Qed.

Lemma planFold_inv (ps seen : list Plan.t) (st : PlanLoop) :
  planInv upperText foundPlanIds seen st ->
  planInv upperText foundPlanIds (seen ++ ps)
    (fold_left (planStep upperText foundPlanIds carriers best) ps st).
Proof.
revert seen st. induction ps as [|p ps IH]; intros seen st H; cbn [fold_left].
- now rewrite app_nil_r.
- replace (seen ++ p :: ps)%list with ((seen ++ [p]) ++ ps)%list
    by now rewrite <- app_assoc.
  apply IH, planStep_inv, H.
Qed.

End MatcherInvariants.





Lemma carrierLoop_inv (upperText : string) (carriers : list Carrier.t) :
  carrierInv upperText carriers (carrierLoop upperText carriers).
Proof.
unfold carrierLoop.
apply (carrierFold_inv upperText carriers []).
unfold carrierInv. cbn. split; [tauto|]. split; [reflexivity | discriminate].
Qed.

Lemma planLoop_inv (upperText : string) (ids : list string)
    (carriers : list Carrier.t) (best : option Carrier.t) (plans : list Plan.t) :
  planInv upperText ids plans (planLoop upperText ids carriers best plans).
Proof.
unfold planLoop.
apply (planFold_inv upperText ids carriers best plans []).
unfold planInv. cbn. split; [tauto|]. split; [reflexivity | discriminate].
Qed.

(** X2.  The carrier of a result is a carrier of the catalogue whose score
    is at least 50 and is the highest score of the catalogue; no carrier is
    returned exactly when every carrier of the catalogue scores below 50. *)
Theorem X2_carrier_selection :
  forall (text : string) (carriers : list Carrier.t) (plans : list Plan.t),
    (forall c,
        Extracted.carrier (parsePlanDocumentText text carriers plans) = Some c ->
        In c carriers
        /\ 50 # 1 <= carrierScore (JS.toUpperCase text) c
        /\ forall c', In c' carriers ->
             carrierScore (JS.toUpperCase text) c'
             <= carrierScore (JS.toUpperCase text) c)
    /\ (Extracted.carrier (parsePlanDocumentText text carriers plans) = None
        <-> forall c, In c carriers ->
              carrierScore (JS.toUpperCase text) c < 50 # 1).
Proof.
intros text carriers plans. unfold parsePlanDocumentText.
cbn [Extracted.carrier].
destruct (carrierLoop_inv (JS.toUpperCase text) carriers) as (Ha & Hb & Hc).
split.
- intros c Hm. destruct (Hc c Hm) as (Hin & Hs & H50).
  split; [exact Hin|]. split; [exact H50|].
  intros c' Hin'. rewrite <- Hs. now apply Ha.
- split.
  + intros Hn c Hin. eapply Qle_lt_trans; [apply Ha, Hin | apply Hb, Hn].
  + intros Hall.
    destruct (bestCarrierMatch _) as [c|] eqn:Hm; [|reflexivity].
    destruct (Hc c eq_refl) as (Hin & _ & H50).
    exfalso. apply (Qlt_irrefl (50 # 1)).
    eapply Qle_lt_trans; [exact H50 | apply Hall, Hin].
Qed.

(** X3.  The plan of a result is a plan of the catalogue whose score is at
    least 40; no plan is returned exactly when every plan of the catalogue
    scores below 40, whether or not a carrier was matched. *)
Theorem X3_plan_selection :
  forall (text : string) (carriers : list Carrier.t) (plans : list Plan.t),
    (forall p,
        Extracted.plan (parsePlanDocumentText text carriers plans) = Some p ->
        In p plans
        /\ 40 # 1 <= planScore (JS.toUpperCase text) (foundPlanIdsOf text) p)
    /\ (Extracted.plan (parsePlanDocumentText text carriers plans) = None
        <-> forall p, In p plans ->
              planScore (JS.toUpperCase text) (foundPlanIdsOf text) p < 40 # 1).
Proof.
intros text carriers plans. unfold parsePlanDocumentText.
cbn [Extracted.plan].
destruct (planLoop_inv (JS.toUpperCase text) (foundPlanIdsOf text) carriers
            (bestCarrierMatch (carrierLoop (JS.toUpperCase text) carriers))
            plans) as (Ha & Hb & Hc).
split.
- intros p Hm. apply Hc, Hm.
- split.
  + intros Hn p Hin. eapply Qle_lt_trans; [apply Ha, Hin | apply Hb, Hn].
  + intros Hall.
    destruct (bestPlanMatch _) as [p|] eqn:Hm; [|reflexivity].
    destruct (Hc p eq_refl) as (Hin & H40).
    exfalso. apply (Qlt_irrefl (40 # 1)).
    eapply Qle_lt_trans; [exact H40 | apply Hall, Hin].
Qed.

(** Rounding is monotone and keeps integers. *)
Lemma round_le (x y : Q) : x <= y -> (JS.round x <= JS.round y)%Z.
Proof. intros H. unfold JS.round. apply Qfloor_resp_le. lra. Qed.

(** X4.  The confidence tells what was matched.  When carrier and plan are
    both matched and belong together the confidence is at least 45, so the
    batch handler accepts a result exactly when carrier and plan are
    matched and agree: its confidence test never turns such a result
    down.  When they disagree the confidence is at most 70, and when at
    most one of them is matched it is at most 60. *)
Theorem X4_confidence_levels :
  forall (text : string) (carriers : list Carrier.t) (plans : list Plan.t),
    (forall c p,
        Extracted.carrier (parsePlanDocumentText text carriers plans) = Some c ->
        Extracted.plan (parsePlanDocumentText text carriers plans) = Some p ->
        (Plan.carrierId p = Carrier.id c ->
         (45 <= Extracted.confidence (parsePlanDocumentText text carriers plans))%Z
         /\ acceptable (parsePlanDocumentText text carriers plans))
        /\ (Plan.carrierId p <> Carrier.id c ->
            (Extracted.confidence (parsePlanDocumentText text carriers plans)
             <= 70)%Z))
    /\ (Extracted.carrier (parsePlanDocumentText text carriers plans) = None
        \/ Extracted.plan (parsePlanDocumentText text carriers plans) = None ->
        (Extracted.confidence (parsePlanDocumentText text carriers plans)
         <= 60)%Z).
Proof.
intros text carriers plans.
pose proof (carrierLoop_inv (JS.toUpperCase text) carriers) as (Ca & Cb & Cc).
pose proof (planLoop_inv (JS.toUpperCase text) (foundPlanIdsOf text) carriers
              (bestCarrierMatch (carrierLoop (JS.toUpperCase text) carriers))
              plans) as (Pa & Pb & Pc).
pose proof (carrierFold_bounds (JS.toUpperCase text) carriers
              {| bestCarrierMatch := None; bestCarrierScore := 0;
                 carrierMatches := [] |}) as Cbd.
pose proof (planFold_bounds (JS.toUpperCase text) (foundPlanIdsOf text) carriers
              (bestCarrierMatch (carrierLoop (JS.toUpperCase text) carriers))
              plans
              {| bestPlanMatch := None; bestPlanScore := 0;
                 planMatches := [] |}) as Pbd.
fold (carrierLoop (JS.toUpperCase text) carriers) in Cbd.
fold (planLoop (JS.toUpperCase text) (foundPlanIdsOf text) carriers
        (bestCarrierMatch (carrierLoop (JS.toUpperCase text) carriers)) plans)
  in Pbd.
destruct Cbd as [C0 C100]; [cbn; unfold inUnit100, Q100; split; lra|].
destruct Pbd as [P0 P100]; [cbn; unfold inUnit100, Q100; split; lra|].
unfold Q100 in *.
unfold acceptable, parsePlanDocumentText.
cbn [Extracted.carrier Extracted.plan Extracted.confidence].
set (cl := carrierLoop (JS.toUpperCase text) carriers) in *.
set (pl := planLoop (JS.toUpperCase text) (foundPlanIdsOf text) carriers
             (bestCarrierMatch cl) plans) in *.
split.
- intros c p Hc Hp.
  destruct (Cc c Hc) as (_ & Hcs & H50). rewrite <- Hcs in H50.
  destruct (Pc p Hp) as (Hin & H40).
  pose proof (Pa p Hin) as Hple.
  rewrite Hc, Hp. cbn [rawConfidence]. split.
  + intros Hid. apply Z.eqb_eq in Hid. rewrite Hid.
    assert (H45 : (45 <= JS.round ((bestCarrierScore cl + bestPlanScore pl)
                                   / (2 # 1)))%Z).
    { change 45%Z with (JS.round (45 # 1)). apply round_le.
      unfold Qdiv. change (/ (2 # 1)) with (1 # 2). lra. }
    split; [exact H45|].
    exists c, p. apply Z.eqb_eq in Hid. repeat split; auto. lia.
  + intros Hid. apply Z.eqb_neq in Hid. rewrite Hid.
    change 70%Z with (JS.round (70 # 1)). apply round_le.
    unfold Qdiv. change (/ (2 # 1)) with (1 # 2). lra.
- assert (M : JS.Qmax (bestCarrierScore cl) (bestPlanScore pl) <= 100 # 1).
  { unfold JS.Qmax. destruct (Qle_bool _ _); assumption. }
  intros [Hn|Hn]; change 60%Z with (JS.round (60 # 1));
    apply round_le;
    destruct (bestCarrierMatch cl), (bestPlanMatch pl);
    try discriminate; cbn [rawConfidence]; lra.
Qed.

(** X5.  The plan IDs detected in a text are exactly the strings of the
    shape H or S, four digits, hyphen, three digits that occur in it. *)
Theorem X5_detected_plan_ids :
  forall (text : string) (carriers : list Carrier.t) (plans : list Plan.t)
         (tok : string),
    In tok (Extracted.detectedPlanIds (parsePlanDocumentText text carriers plans))
    <-> isPlanIdToken tok /\ JS.includes text tok = true.
Proof.
intros text carriers plans tok. unfold parsePlanDocumentText.
cbn [Extracted.detectedPlanIds]. split.
- apply matchPlanIds_sound.
- intros [Htok Hin]. now apply foundPlanIds_complete.
Qed.

Section Stability.
Context {A : Type} (score : A -> Q).

Lemma insertDesc_scoring (v : Q) (x : A) (l : list A) :
  scoring score v (insertDesc score x l) = scoring score v (x :: l).
Proof.
unfold scoring.
induction l as [|y l IH]; cbn [insertDesc]; [reflexivity|].
destruct (JS.Qlt_bool (score x) (score y)) eqn:E; [|reflexivity].
apply Qlt_bool_true in E.
cbn [filter] in *. rewrite IH.
destruct (Qeq_bool (score y) v) eqn:Ey, (Qeq_bool (score x) v) eqn:Ex;
  try reflexivity.
apply Qeq_bool_iff in Ey, Ex. rewrite Ey, Ex in E.
now apply Qlt_irrefl in E.
Qed.

Lemma sortDesc_scoring (v : Q) (l : list A) :
  scoring score v (sortDesc score l) = scoring score v l.
Proof.
induction l as [|x l IH]; [reflexivity|].
cbn [sortDesc fold_right]. fold (sortDesc score l).
rewrite insertDesc_scoring. unfold scoring in *. cbn [filter].
now rewrite IH.
Qed.

End Stability.

(** X6.  The two candidate lists of a result hold one entry for each row of
    the catalogue, with the row's name and score, ranked by decreasing
    score; candidates with equal scores stand in catalogue order. *)
Theorem X6_candidate_lists :
  forall (text : string) (carriers : list Carrier.t) (plans : list Plan.t),
    Permutation
      (Extracted.carrierMatches (parsePlanDocumentText text carriers plans))
      (map (carrierEntry (JS.toUpperCase text)) carriers)
    /\ Permutation
         (Extracted.planMatches (parsePlanDocumentText text carriers plans))
         (map (planEntry (JS.toUpperCase text) (foundPlanIdsOf text) carriers)
            plans)
    /\ (forall v,
          scoring cm_score v
            (Extracted.carrierMatches (parsePlanDocumentText text carriers plans))
          = scoring cm_score v
              (map (carrierEntry (JS.toUpperCase text)) carriers))
    /\ (forall v,
          scoring pm_score v
            (Extracted.planMatches (parsePlanDocumentText text carriers plans))
          = scoring pm_score v
              (map (planEntry (JS.toUpperCase text) (foundPlanIdsOf text)
                      carriers) plans)).
Proof.
intros text carriers plans.
rewrite result_carrierMatches, result_planMatches.
split; [apply sortDesc_perm|]. split; [apply sortDesc_perm|].
split; intros v; apply sortDesc_scoring.
Qed.

(** ** The batch handler as a whole *)




(** ** Text extraction *)

(** X8.  For a PDF, [extractTextFromDocument] returns the text layer
    untouched, and only when 50 characters or more of it remain after
    trimming; whatever else happens it raises an [Error], whose message is
    the scanned-PDF one, the generic PDF one, or a message of the PDF
    library that itself speaks of a scanned PDF; its own two messages both
    ask for a JPG or PNG.  For any other extension the answer of the OCR
    engine is passed on as it is. *)
Theorem X8_extraction_outcomes :
  forall (file : Upload.t),
    (JS.toLowerCase (Upload.extname file) = ".pdf" ->
     (forall t, extractTextFromDocument file = Returns t ->
                Upload.pdfText file = Returns (Some t)
                /\ (50 <= String.length (JS.trim t))%nat)
     /\ (forall e, extractTextFromDocument file = Throws e ->
           exists m, e = ErrorWith m
             /\ (m = scannedPdfMessage \/ m = pdfFailureMessage
                 \/ (Upload.pdfText file = Throws (ErrorWith m)
                     /\ JS.includes m "scanned PDF" = true))))
    /\ (JS.toLowerCase (Upload.extname file) <> ".pdf" ->
        extractTextFromDocument file = Upload.ocrText file)
    /\ JS.includes scannedPdfMessage "JPG or PNG" = true
    /\ JS.includes pdfFailureMessage "JPG or PNG" = true.
Proof.
intros file. split; [|split; [|split; vm_compute; reflexivity]].
- intros Hext. unfold extractTextFromDocument. rewrite Hext.
  change (String.eqb ".pdf" ".pdf") with true. cbv iota.
  unfold pdfTry.
  destruct (Upload.pdfText file) as [text|[m|]] eqn:Hpdf.
  + destruct (String.length (JS.trim (JS.orDefault text "")) <? 50)%nat eqn:L.
    * rewrite scanned_rethrown. split; [discriminate|].
      intros e [= <-]. eauto.
    * cbn [pdfCatch]. split; [|discriminate].
      intros t [= <-]. apply Nat.ltb_ge in L. split; [|exact L].
      destruct text as [[|c r]|]; cbn in L |- *; try lia. reflexivity.
  + cbn [pdfCatch]. split; [destruct (JS.includes m _); discriminate|].
    intros e. destruct (JS.includes m "scanned PDF") eqn:I; intros [= <-]; eauto 6.
  + cbn [pdfCatch]. split; [discriminate|]. intros e [= <-]. eauto.
- intros Hext. unfold extractTextFromDocument.
  apply String.eqb_neq in Hext. rewrite Hext. reflexivity.
Qed.

(** * Further properties of the comparison handler *)

Section ScoreBounds.
Variables (cur p : Plan.t).

Ltac rule_split :=
  repeat match goal with
         | |- context [if ?c then _ else _] => destruct c
         end;
  cbn [bump fst snd List.length app]; try lia.

Lemma premiumRule_points :
  (-20 <= points (premiumRule cur p) <= 40)%Z
  /\ (List.length (snd (premiumRule cur p (0%Z, []))) <= 1)%nat.
Proof. unfold points, premiumRule. split; rule_split. Qed.

Lemma moopRule_points :
  (0 <= points (moopRule cur p) <= 30)%Z.
Proof. unfold points, moopRule. rule_split. Qed.

Lemma pcpRule_points : (0 <= points (pcpRule cur p) <= 10)%Z.
Proof. unfold points, pcpRule. rule_split. Qed.

Lemma specialistRule_points : (0 <= points (specialistRule cur p) <= 10)%Z.
Proof. unfold points, specialistRule. rule_split. Qed.

Lemma snpRule_points : (0 <= points (snpRule p) <= 15)%Z.
Proof. unfold points, snpRule. rule_split. Qed.

Lemma premiumRule_reasons (t : Tally) :
  (List.length (snd (premiumRule cur p t)) <= S (List.length (snd t)))%nat.
Proof. unfold premiumRule. rule_split; rewrite length_app; cbn; lia. Qed.

Lemma moopRule_reasons (t : Tally) :
  (List.length (snd (moopRule cur p t)) <= S (List.length (snd t)))%nat.
Proof. unfold moopRule. rule_split; rewrite length_app; cbn; lia. Qed.

Lemma pcpRule_reasons (t : Tally) :
  (List.length (snd (pcpRule cur p t)) <= S (List.length (snd t)))%nat.
Proof. unfold pcpRule. rule_split; rewrite length_app; cbn; lia. Qed.

Lemma specialistRule_reasons (t : Tally) :
  (List.length (snd (specialistRule cur p t)) <= S (List.length (snd t)))%nat.
Proof. unfold specialistRule. rule_split; rewrite length_app; cbn; lia. Qed.

Lemma snpRule_reasons (t : Tally) :
  (List.length (snd (snpRule p t)) <= S (List.length (snd t)))%nat.
Proof. unfold snpRule. rule_split; rewrite length_app; cbn; lia. Qed.

End ScoreBounds.

(** X9.  The score of a candidate lies between 80 and 205 and comes with
    at most five reasons; a candidate without any reason has the base score
    100. *)
Theorem X9_score_bounds :
  forall (currentPlan plan : Plan.t),
    (80 <= Scored.score (scorePlan currentPlan plan) <= 205)%Z
    /\ (List.length (Scored.reasons (scorePlan currentPlan plan)) <= 5)%nat
    /\ (Scored.reasons (scorePlan currentPlan plan) = [] ->
        Scored.score (scorePlan currentPlan plan) = 100%Z).
Proof.
intros cur p. split; [|split].
- rewrite scorePlan_score.
  pose proof (premiumRule_points cur p) as [? _].
  pose proof (moopRule_points cur p). pose proof (pcpRule_points cur p).
  pose proof (specialistRule_points cur p). pose proof (snpRule_points p).
  lia.
- unfold scorePlan. cbn [Scored.reasons].
  set (t0 := (100%Z, []) : Tally).
  pose proof (premiumRule_reasons cur p t0) as H1.
  pose proof (moopRule_reasons cur p (premiumRule cur p t0)) as H2.
  pose proof (pcpRule_reasons cur p (moopRule cur p (premiumRule cur p t0))) as H3.
  pose proof (specialistRule_reasons cur p
                (pcpRule cur p (moopRule cur p (premiumRule cur p t0)))) as H4.
  pose proof (snpRule_reasons p
                (specialistRule cur p
                   (pcpRule cur p (moopRule cur p (premiumRule cur p t0))))) as H5.
  cbn [t0 snd List.length] in H1. lia.
- unfold scorePlan. cbn [Scored.reasons Scored.score].
  unfold snpRule, specialistRule, pcpRule, moopRule, premiumRule.
  repeat match goal with
         | |- context [if ?c then _ else _] => destruct c
         end;
    cbn [bump fst snd app]; intros H; try reflexivity;
    try (apply app_eq_nil in H as [_ H]; discriminate H);
    try discriminate H.
Qed.

Lemma compare_classified :
  forall (client : Client.t) (allPlans : list Plan.t),
    match compare client allPlans with
    | CompareError status _ =>
        (status = 400%Z
         /\ (JS.truthy (Client.county client) = false
             \/ Client.currentPlanId client = None
             \/ Client.currentPlanId client = Some 0%Z))
        \/ (status = 404%Z
            /\ JS.truthy (Client.county client) = true
            /\ exists id,
                 Client.currentPlanId client = Some id /\ id <> 0%Z
                 /\ forall p, In p allPlans -> Plan.id p <> id)
    | Comparison currentPlan recommended n =>
        JS.truthy (Client.county client) = true
        /\ Client.currentPlanId client = Some (Plan.id currentPlan)
        /\ Plan.id currentPlan <> 0%Z
        /\ In currentPlan allPlans
        /\ n = List.length
                 (availablePlans (Client.state client)
                    (JS.orDefault (Client.county client) "") currentPlan allPlans)
        /\ recommended
           = top3Of currentPlan
               (availablePlans (Client.state client)
                  (JS.orDefault (Client.county client) "") currentPlan allPlans)
    end.
Proof.
intros client allPlans. unfold compare.
destruct (JS.truthy (Client.county client)) eqn:Ht; cbn [negb]; [|auto].
destruct (Client.currentPlanId client) as [id|]; [|auto].
destruct (id =? 0)%Z eqn:E0.
- apply Z.eqb_eq in E0. subst. auto.
- apply Z.eqb_neq in E0.
  destruct (getPlan allPlans id) as [cur|] eqn:Eg.
  + apply getPlan_id in Eg as [Hin <-]. auto 10.
  + right. split; [reflexivity|]. split; [reflexivity|].
    exists id. split; [reflexivity|]. split; [exact E0|].
    intros p Hin Hid. unfold getPlan in Eg.
    pose proof (find_none _ _ Eg p Hin) as Hn. cbv beta in Hn.
    apply Z.eqb_neq in Hn. contradiction.
Qed.

(** X10.  The comparison handler answers 400 exactly when the client has
    no county or no current plan id (an id of 0 counts as none), 404
    exactly when both are there and no plan has that id, and otherwise a
    comparison whose current plan has the client's current plan id and
    whose count of plans considered is the number of candidates that
    passed the filter. *)
Theorem X10_compare_responses :
  forall (client : Client.t) (allPlans : list Plan.t),
    match compare client allPlans with
    | CompareError status _ =>
        (status = 400%Z
         /\ (JS.truthy (Client.county client) = false
             \/ Client.currentPlanId client = None
             \/ Client.currentPlanId client = Some 0%Z))
        \/ (status = 404%Z
            /\ JS.truthy (Client.county client) = true
            /\ exists id,
                 Client.currentPlanId client = Some id /\ id <> 0%Z
                 /\ forall p, In p allPlans -> Plan.id p <> id)
    | Comparison currentPlan recommended n =>
        JS.truthy (Client.county client) = true
        /\ Client.currentPlanId client = Some (Plan.id currentPlan)
        /\ Plan.id currentPlan <> 0%Z
        /\ In currentPlan allPlans
        /\ n = List.length
                 (availablePlans (Client.state client)
                    (JS.orDefault (Client.county client) "") currentPlan allPlans)
        /\ recommended
           = top3Of currentPlan
               (availablePlans (Client.state client)
                  (JS.orDefault (Client.county client) "") currentPlan allPlans)
    end.
Proof.
intros client allPlans. unfold compare.
destruct (JS.truthy (Client.county client)) eqn:Ht; cbn [negb]; [|auto].
destruct (Client.currentPlanId client) as [id|]; [|auto].
destruct (id =? 0)%Z eqn:E0.
- apply Z.eqb_eq in E0. subst. auto.
- apply Z.eqb_neq in E0.
  destruct (getPlan allPlans id) as [cur|] eqn:Eg.
  + apply getPlan_id in Eg as [Hin <-]. auto 10.
  + right. split; [reflexivity|]. split; [reflexivity|].
    exists id. split; [reflexivity|]. split; [exact E0|].
    intros p Hin Hid. unfold getPlan in Eg.
    pose proof (find_none _ _ Eg p Hin) as Hn. cbv beta in Hn.
    apply Z.eqb_neq in Hn. contradiction.
Qed.

Lemma descending_split {A : Type} (score : A -> Q) (l1 l2 : list A) :
  descending score (l1 ++ l2) ->
  descending score l1
  /\ forall x y, In x l1 -> In y l2 -> score y <= score x.
Proof.
unfold descending. induction l1 as [|a l1 IH]; cbn [app]; intros H.
- split; [constructor | intros x y []].
- inversion H as [|? ? Hs Ha]; subst.
  destruct (IH Hs) as [Hd Hc]. split.
  + constructor; [exact Hd|].
    apply Forall_forall. intros x Hx.
    rewrite Forall_forall in Ha. apply Ha, in_or_app. now left.
  + intros x y [<-|Hx] Hy.
    * rewrite Forall_forall in Ha. apply Ha, in_or_app. now right.
    * now apply Hc.
Qed.

(** X11.  The recommendations of a comparison are the best of the
    candidates: there are three of them, or as many as there are candidates
    if fewer; they stand by decreasing score; every candidate left out
    scores no higher than each of them; and each is a plan of the
    catalogue, of the client's state, that lists the client's county. *)
Theorem X11_recommendations_ranked :
  forall (client : Client.t) (allPlans : list Plan.t) (currentPlan : Plan.t)
         (recommended : list Scored.t) (n : nat),
    compare client allPlans = Comparison currentPlan recommended n ->
    List.length recommended = Nat.min 3 n
    /\ descending scoreOf recommended
    /\ (forall s p,
          In s recommended ->
          In p (availablePlans (Client.state client)
                  (JS.orDefault (Client.county client) "") currentPlan allPlans) ->
          ~ In (scorePlan currentPlan p) recommended ->
          (Scored.score (scorePlan currentPlan p) <= Scored.score s)%Z)
    /\ (forall s,
          In s recommended ->
          s = scorePlan currentPlan (Scored.plan s)
          /\ In (Scored.plan s) allPlans
          /\ sameString (Plan.stateCode (Scored.plan s)) (Client.state client)
             = true
          /\ listsCounty (Scored.plan s)
               (JS.orDefault (Client.county client) "") = true).
Proof.
intros client allPlans cur recommended n H.
pose proof (compare_classified client allPlans) as R. rewrite H in R.
destruct R as (_ & _ & _ & _ & -> & ->).
set (available := availablePlans _ _ cur allPlans).
unfold top3Of.
pose proof (sortDesc_sorted scoreOf (map (scorePlan cur) available)) as Hs.
fold (rankPlans cur available) in Hs.
rewrite <- (firstn_skipn 3 (rankPlans cur available)) in Hs.
apply descending_split in Hs as [Hd Hc].
split; [|split; [exact Hd|split]].
- rewrite length_firstn. unfold rankPlans.
  rewrite (Permutation_length (sortDesc_perm _ _)), length_map. reflexivity.
- intros s p Hin Hp Hout.
  assert (Hr : In (scorePlan cur p) (rankPlans cur available)).
  { apply rankPlans_In. eauto. }
  rewrite <- (firstn_skipn 3 (rankPlans cur available)) in Hr.
  apply in_app_or in Hr as [Hr|Hr]; [contradiction|].
  specialize (Hc s _ Hin Hr). unfold scoreOf in Hc.
  rewrite Zle_Qle. exact Hc.
- intros s Hin. apply firstn_In in Hin.
  apply rankPlans_In in Hin as (p & Hp & ->).
  apply availablePlans_spec in Hp as (Hin & Hst & Hcty & _).
  cbn [scorePlan Scored.plan]. auto.
Qed.

Ltac q_reflect :=
  repeat match goal with
         | H : Qle_bool _ _ = true |- _ => apply Qle_bool_iff in H
         | H : Qle_bool _ _ = false |- _ => apply Qle_bool_false in H
         end.

Ltac rule_monotone :=
  cbn [JS.sub JS.gt JS.lt JS.ofZ JS.abs negb andb Bool.eqb];
  unfold JS.Qlt_bool, JS.ofZ, inject_Z;
  repeat match goal with
         | |- context [Qle_bool ?a ?b] =>
             let E := fresh "E" in destruct (Qle_bool a b) eqn:E
         end;
  cbn [negb bump fst]; q_reflect; try lia; exfalso; lra.

Section Monotone.
Variables (cur p1 p2 : Plan.t).

Lemma premiumRule_monotone :
  finiteLe (numberOf (Plan.monthlyPremium p1) "0")
           (numberOf (Plan.monthlyPremium p2) "0") ->
  (points (premiumRule cur p2) <= points (premiumRule cur p1))%Z.
Proof.
unfold finiteLe, numberOf, points, premiumRule.
destruct (JS.parseFloat (JS.orDefault (Plan.monthlyPremium p1) "0"))
  as [|b1|a1]; try tauto.
destruct (JS.parseFloat (JS.orDefault (Plan.monthlyPremium p2) "0"))
  as [|b2|a2]; try tauto.
intros Hle.
destruct (JS.parseFloat (JS.orDefault (Plan.monthlyPremium cur) "0"))
  as [|[|]|c]; rule_monotone.
Qed.

Lemma moopRule_monotone :
  finiteLe (numberOf (Plan.maxOutOfPocket p1) "999999")
           (numberOf (Plan.maxOutOfPocket p2) "999999") ->
  (points (moopRule cur p2) <= points (moopRule cur p1))%Z.
Proof.
unfold finiteLe, numberOf, points, moopRule.
destruct (JS.parseFloat (JS.orDefault (Plan.maxOutOfPocket p1) "999999"))
  as [|b1|a1]; try tauto.
destruct (JS.parseFloat (JS.orDefault (Plan.maxOutOfPocket p2) "999999"))
  as [|b2|a2]; try tauto.
intros Hle.
destruct (JS.parseFloat (JS.orDefault (Plan.maxOutOfPocket cur) "999999"))
  as [|[|]|c]; rule_monotone.
Qed.

Lemma pcpRule_monotone :
  finiteLe (numberOf (Plan.primaryCareCopay p1) "0")
           (numberOf (Plan.primaryCareCopay p2) "0") ->
  (points (pcpRule cur p2) <= points (pcpRule cur p1))%Z.
Proof.
unfold finiteLe, numberOf, points, pcpRule.
destruct (JS.parseFloat (JS.orDefault (Plan.primaryCareCopay p1) "0"))
  as [|b1|a1]; try tauto.
destruct (JS.parseFloat (JS.orDefault (Plan.primaryCareCopay p2) "0"))
  as [|b2|a2]; try tauto.
intros Hle.
destruct (JS.parseFloat (JS.orDefault (Plan.primaryCareCopay cur) "0"))
  as [|[|]|c]; rule_monotone.
Qed.

Lemma specialistRule_monotone :
  finiteLe (numberOf (Plan.specialistCopay p1) "0")
           (numberOf (Plan.specialistCopay p2) "0") ->
  (points (specialistRule cur p2) <= points (specialistRule cur p1))%Z.
Proof.
unfold finiteLe, numberOf, points, specialistRule.
destruct (JS.parseFloat (JS.orDefault (Plan.specialistCopay p1) "0"))
  as [|b1|a1]; try tauto.
destruct (JS.parseFloat (JS.orDefault (Plan.specialistCopay p2) "0"))
  as [|b2|a2]; try tauto.
intros Hle.
destruct (JS.parseFloat (JS.orDefault (Plan.specialistCopay cur) "0"))
  as [|[|]|c]; rule_monotone.
Qed.

End Monotone.

(** X12.  Scoring is monotone in the costs: of two candidates with the
    same SNP flags, one whose premium, max-out-of-pocket and two co-pays
    are all numbers no higher than the other's scores at least as high,
    against any current plan. *)
Theorem X12_score_monotone :
  forall (currentPlan better worse : Plan.t),
    finiteLe (numberOf (Plan.monthlyPremium better) "0")
             (numberOf (Plan.monthlyPremium worse) "0") ->
    finiteLe (numberOf (Plan.maxOutOfPocket better) "999999")
             (numberOf (Plan.maxOutOfPocket worse) "999999") ->
    finiteLe (numberOf (Plan.primaryCareCopay better) "0")
             (numberOf (Plan.primaryCareCopay worse) "0") ->
    finiteLe (numberOf (Plan.specialistCopay better) "0")
             (numberOf (Plan.specialistCopay worse) "0") ->
    Plan.isCSnp better = Plan.isCSnp worse ->
    Plan.isDSnp better = Plan.isDSnp worse ->
    (Scored.score (scorePlan currentPlan worse)
     <= Scored.score (scorePlan currentPlan better))%Z.
Proof.
intros cur p1 p2 Hp Hm Hc Hs Ecs Eds.
rewrite !scorePlan_score.
pose proof (premiumRule_monotone cur p1 p2 Hp).
pose proof (moopRule_monotone cur p1 p2 Hm).
pose proof (pcpRule_monotone cur p1 p2 Hc).
pose proof (specialistRule_monotone cur p1 p2 Hs).
assert (points (snpRule p2) = points (snpRule p1)).
{ unfold points, snpRule. rewrite Ecs, Eds. reflexivity. }
lia.
Qed.

(** * Further handlers: properties *)

(** ** Readiness *)

Lemma readiness_ready (allPlans : list Plan.t) (w : World) (file : ClientFile.t) :
  Readiness.ready (readiness allPlans w file)
  = JS.truthy (Client.county (ClientFile.client file))
    && truthyId (Client.currentPlanId (ClientFile.client file)).
Proof.
unfold readiness, truthyId.
destruct (JS.truthy (Client.county (ClientFile.client file)));
  destruct (Client.currentPlanId (ClientFile.client file)) as [id|];
  try destruct (id =? 0)%Z; try reflexivity;
  destruct (getPlan allPlans id); reflexivity.
Qed.

(** X13.  A client is reported ready exactly when nothing is listed as
    missing, which is exactly when the comparison handler does not answer
    400 for that client; a ready client whose current plan is in the
    catalogue gets a comparison. *)
Theorem X13_ready_means_comparable :
  forall (allPlans : list Plan.t) (w : World) (file : ClientFile.t),
    (Readiness.ready (readiness allPlans w file) = true
     <-> Readiness.missing (readiness allPlans w file) = [])
    /\ (Readiness.ready (readiness allPlans w file) = true
        <-> forall error,
              compare (ClientFile.client file) allPlans
              <> CompareError 400 error)
    /\ (Readiness.ready (readiness allPlans w file) = true ->
        (exists p,
           In p allPlans
           /\ Some (Plan.id p) = Client.currentPlanId (ClientFile.client file)) ->
        exists currentPlan recommended n,
          compare (ClientFile.client file) allPlans
          = Comparison currentPlan recommended n).
Proof.
intros allPlans w file. split; [|split].
- unfold readiness.
  destruct (JS.truthy (Client.county (ClientFile.client file)));
    destruct (Client.currentPlanId (ClientFile.client file)) as [id|];
    try destruct (id =? 0)%Z; cbn; try (split; (discriminate || reflexivity));
    destruct (getPlan allPlans id); cbn; split; (discriminate || reflexivity).
- rewrite readiness_ready.
  pose proof (compare_classified (ClientFile.client file) allPlans) as R.
  unfold truthyId. split.
  + intros H error E. rewrite E in R.
    apply andb_true_iff in H as [H1 H2].
    destruct R as [(_ & [R|[R|R]]) | (R & _)]; try discriminate R;
      try congruence; rewrite R in H2; discriminate.
  + intros H. unfold compare in H.
    destruct (JS.truthy (Client.county (ClientFile.client file)));
      [|now elim (H _ eq_refl)].
    destruct (Client.currentPlanId (ClientFile.client file)) as [id|];
      [|now elim (H _ eq_refl)].
    destruct (id =? 0)%Z; [now elim (H _ eq_refl) | reflexivity].
- rewrite readiness_ready. intros H (p & Hin & Hid).
  apply andb_true_iff in H as [H1 H2]. unfold compare.
  rewrite H1, <- Hid. cbn [negb]. unfold truthyId in H2. rewrite <- Hid in H2.
  apply negb_true_iff in H2. rewrite H2.
  destruct (getPlan allPlans (Plan.id p)) as [cur|] eqn:Eg; [eauto|].
  unfold getPlan in Eg. pose proof (find_none _ _ Eg p Hin) as Hn.
  cbv beta in Hn. rewrite Z.eqb_refl in Hn. discriminate.
Qed.

(** ** Missing documents *)

Lemma getMissingDocuments_In (w : World) (planId : Z) (type : string) :
  In type (getMissingDocuments w planId)
  <-> In type REQUIRED_DOCUMENT_TYPES
      /\ forall doc, In doc (planDocuments w) ->
           PlanDocument.planId doc = planId ->
           PlanDocument.documentType doc <> type.
Proof.
unfold getMissingDocuments, getDocumentsByPlan. rewrite filter_In.
split; intros [Hreq H]; (split; [exact Hreq|]).
- intros doc Hin Hid Hty. apply negb_true_iff in H.
  assert (X : existsb (String.eqb type)
                (map PlanDocument.documentType
                   (filter (fun d => (PlanDocument.planId d =? planId)%Z)
                      (planDocuments w))) = true).
  { apply existsb_exists. exists type. split; [|apply String.eqb_refl].
    apply in_map_iff. exists doc. split; [exact Hty|].
    apply filter_In. split; [exact Hin | now apply Z.eqb_eq]. }
  congruence.
- apply negb_true_iff, not_true_is_false. intros X.
  apply existsb_exists in X as (t & Ht & Heq). apply String.eqb_eq in Heq.
  subst t. apply in_map_iff in Ht as (doc & Hty & Hd).
  apply filter_In in Hd as [Hin Hid]. apply Z.eqb_eq in Hid.
  exact (H doc Hin Hid Hty).
Qed.

Lemma filter_ext_In {A : Type} (f g : A -> bool) (l : list A) :
  (forall x, In x l -> f x = g x) -> filter f l = filter g l.
Proof.
induction l as [|x l IH]; intros H; cbn [filter]; [reflexivity|].
rewrite (H x (or_introl eq_refl)), IH; [reflexivity|].
intros y Hy. apply H. now right.
Qed.

Lemma filter_filter {A : Type} (f g : A -> bool) (l : list A) :
  filter f (filter g l) = filter (fun x => g x && f x) l.
Proof.
induction l as [|x l IH]; cbn [filter]; [reflexivity|].
destruct (g x); cbn [filter andb]; [destruct (f x)|]; now rewrite IH.
Qed.

(** The missing documents after one more row. *)
Lemma getMissingDocuments_created (w : World) (planId : Z)
    (type fileName : string) (filePath : StoredName) (fileSize : Z) (p : Z) :
  getMissingDocuments
    (snd (createPlanDocument w planId type fileName filePath fileSize)) p
  = if (p =? planId)%Z
    then filter (fun t => negb (String.eqb t type)) (getMissingDocuments w p)
    else getMissingDocuments w p.
Proof.
unfold getMissingDocuments, getDocumentsByPlan, createPlanDocument.
cbn [snd planDocuments]. rewrite filter_app, map_app. cbn [filter].
cbn [PlanDocument.planId].
rewrite (Z.eqb_sym planId p).
destruct (p =? planId)%Z.
- cbn [map app PlanDocument.documentType]. rewrite filter_filter.
  apply filter_ext_In. intros t _. rewrite existsb_app. cbn [existsb].
  rewrite orb_false_r, negb_orb. reflexivity.
- cbn [map]. now rewrite app_nil_r.
Qed.

(** X14.  A document type is reported missing for a plan exactly when it is
    one of the five required types and no document of the plan has it; the
    report lists each such type once, in the order SOB, EOC, ANOC,
    PROVIDER_LIST, DRUG_FORMULARY.  Storing one more document removes its
    type from the report of its plan and changes no other plan's report. *)
Theorem X14_missing_documents :
  forall (w : World) (planId : Z),
    (forall type,
        In type (getMissingDocuments w planId)
        <-> In type REQUIRED_DOCUMENT_TYPES
            /\ forall doc, In doc (planDocuments w) ->
                 PlanDocument.planId doc = planId ->
                 PlanDocument.documentType doc <> type)
    /\ NoDup (getMissingDocuments w planId)
    /\ (exists keep,
          getMissingDocuments w planId = filter keep REQUIRED_DOCUMENT_TYPES)
    /\ (forall type fileName filePath fileSize other,
          getMissingDocuments
            (snd (createPlanDocument w planId type fileName filePath fileSize))
            planId
          = filter (fun t => negb (String.eqb t type))
              (getMissingDocuments w planId)
          /\ (other <> planId ->
              getMissingDocuments
                (snd (createPlanDocument w planId type fileName filePath fileSize))
                other
              = getMissingDocuments w other)).
Proof.
intros w planId. split; [|split; [|split]].
- intros type. apply getMissingDocuments_In.
- unfold getMissingDocuments. apply NoDup_filter.
  unfold REQUIRED_DOCUMENT_TYPES.
  repeat (constructor; [cbn; intuition discriminate|]). constructor.
- unfold getMissingDocuments. eauto.
- intros type fileName filePath fileSize other. split.
  + rewrite getMissingDocuments_created, Z.eqb_refl. reflexivity.
  + intros Hne. rewrite getMissingDocuments_created.
    apply Z.eqb_neq in Hne. now rewrite Hne.
Qed.

(** ** Manual upload *)

Lemma required_types_kept (keep : string -> bool) (type : string) :
  ~ In type REQUIRED_DOCUMENT_TYPES ->
  filter (fun t => negb (String.eqb t type)) (filter keep REQUIRED_DOCUMENT_TYPES)
  = filter keep REQUIRED_DOCUMENT_TYPES.
Proof.
intros Hout. rewrite filter_filter. apply filter_ext_In.
intros t Hin. destruct (String.eqb t type) eqn:E.
- apply String.eqb_eq in E. subst. contradiction.
- now rewrite andb_true_r.
Qed.

(** X15.  The manual upload stores a document only under one of the five
    required types and only for a plan of the catalogue: it then adds one
    row, of that type and plan, and the type leaves the plan's missing
    documents.  A request without a type, or with any other type, is
    answered 400 and changes nothing; a request for a plan that does not
    exist is answered 500 and leaves the table as it was. *)
Theorem X15_manual_upload :
  forall (allPlans : list Plan.t) (w : World) (planId : Z)
         (documentType : option string) (file : Upload.t) (now : Z),
    match uploadPlanDocument allPlans w planId documentType file now with
    | (Created doc, w') =>
        documentType = Some (PlanDocument.documentType doc)
        /\ In (PlanDocument.documentType doc) REQUIRED_DOCUMENT_TYPES
        /\ PlanDocument.planId doc = planId
        /\ (exists p, In p allPlans /\ Plan.id p = planId)
        /\ planDocuments w' = (planDocuments w ++ [doc])%list
        /\ getMissingDocuments w' planId
           = filter (fun t => negb (String.eqb t (PlanDocument.documentType doc)))
               (getMissingDocuments w planId)
    | (UploadRefused status _, w') =>
        planDocuments w' = planDocuments w
        /\ (status = 400%Z
            /\ w' = w
            /\ (forall type, documentType = Some type ->
                             ~ In type REQUIRED_DOCUMENT_TYPES)
            \/ status = 500%Z
               /\ (forall p, In p allPlans -> Plan.id p <> planId))
    end.
Proof.
intros allPlans w planId documentType file now. unfold uploadPlanDocument.
destruct documentType as [type|]; [|split; [reflexivity|]; left;
                                    repeat split; discriminate].
destruct (existsb (String.eqb type) REQUIRED_DOCUMENT_TYPES) eqn:Ereq.
- assert (Hreq : In type REQUIRED_DOCUMENT_TYPES).
  { apply existsb_exists in Ereq as (t & Ht & E).
    apply String.eqb_eq in E. now subst. }
  assert (Htr : JS.truthy (Some type) = true).
  { destruct type; [|reflexivity]. cbn in Hreq. intuition discriminate. }
  rewrite Htr. cbn [negb orb].
  destruct (getPlan allPlans planId) as [p|] eqn:Eg.
  + apply getPlan_id in Eg as [Hin Hid].
    cbn [createPlanDocument copyFile planDocuments PlanDocument.documentType
         PlanDocument.planId].
    repeat split; eauto.
    pose proof (getMissingDocuments_created
                  (copyFile w {| safeDocType := type; forPlan := planId;
                                 timestamp := now;
                                 fileExtension := keepSafe (Upload.extname file) |})
                  planId type (Upload.originalname file)
                  {| safeDocType := type; forPlan := planId; timestamp := now;
                     fileExtension := keepSafe (Upload.extname file) |}
                  (Upload.size file) planId) as M.
    rewrite Z.eqb_refl in M. exact M.
  + cbn [unlinkDocument copyFile planDocuments]. split; [reflexivity|].
    right. split; [reflexivity|]. intros p Hin Hid.
    unfold getPlan in Eg. pose proof (find_none _ _ Eg p Hin) as Hn.
    cbv beta in Hn. apply Z.eqb_neq in Hn. contradiction.
- rewrite orb_true_r. split; [reflexivity|]. left.
  split; [reflexivity|]. split; [reflexivity|].
  intros t [= <-] Hin.
  assert (X : existsb (String.eqb type) REQUIRED_DOCUMENT_TYPES = true).
  { apply existsb_exists. exists type. split; [exact Hin | apply String.eqb_refl]. }
  congruence.
Qed.

(** ** The batch handler and the missing documents *)

Lemma processFile_missing :
  forall (carriers : list Carrier.t) (plans : list Plan.t) (w : World)
         (file : Upload.t) (now : Z) (p : Z),
    match processFile carriers plans w file now with
    | (Assigned _ _ _ planId documentType _ _ _, w') =>
        getMissingDocuments w' p
        = (if (p =? planId)%Z
           then filter (fun t => negb (String.eqb t documentType))
                  (getMissingDocuments w p)
           else getMissingDocuments w p)
        /\ (documentType = "UNKNOWN" ->
            getMissingDocuments w' p = getMissingDocuments w p)
    | (_, w') => getMissingDocuments w' p = getMissingDocuments w p
    end.
Proof.
intros carriers plans w file now p.
destruct (processFile_cases carriers plans w file now)
  as [[Hs Hw] | (text & c & pl & Hx & Hnz & Hc & Hp & Hrej)].
- destruct (processFile carriers plans w file now) as [r w'].
  cbn [fst snd] in Hs, Hw. subst w'.
  destruct r; try reflexivity. discriminate Hs.
- rewrite (processFile_accepted carriers plans w file now text c pl
             Hx Hnz Hc Hp Hrej).
  set (e := parsePlanDocumentText text carriers plans).
  set (name := PlanDocument.filePath (acceptedDocument w file now e pl)).
  pose proof (getMissingDocuments_created (copyFile w name) (Plan.id pl)
                (Extracted.documentType e) (Upload.originalname file) name
                (Upload.size file) p) as M.
  assert (G : forall q, getMissingDocuments (copyFile w name) q
                        = getMissingDocuments w q) by reflexivity.
  rewrite G in M.
  assert (E : getMissingDocuments
                {| planDocuments :=
                     (planDocuments w ++ [acceptedDocument w file now e pl])%list;
                   nextDocumentId := (nextDocumentId w + 1)%Z;
                   uploaded_documents := (uploaded_documents w ++ [name])%list |}
                p
              = if (p =? Plan.id pl)%Z
                then filter (fun t => negb (String.eqb t (Extracted.documentType e)))
                       (getMissingDocuments w p)
                else getMissingDocuments w p) by exact M.
  split; [exact E|].
  intros Hu. rewrite E, Hu. destruct (p =? Plan.id pl)%Z; [|reflexivity].
  unfold getMissingDocuments. apply required_types_kept.
  cbn. intuition discriminate.
Qed.

(** X16.  A file that the batch handler auto-assigns changes the missing
    documents of its plan by removing the assigned type, and of no other
    plan; a file that is not assigned changes none.  In particular a
    document assigned under the type UNKNOWN completes nothing: every
    plan's missing documents stay as they were. *)
Theorem X16_batch_and_missing_documents :
  forall (carriers : list Carrier.t) (plans : list Plan.t) (w : World)
         (file : Upload.t) (now : Z) (p : Z),
    match processFile carriers plans w file now with
    | (Assigned _ _ _ planId documentType _ _ _, w') =>
        getMissingDocuments w' p
        = (if (p =? planId)%Z
           then filter (fun t => negb (String.eqb t documentType))
                  (getMissingDocuments w p)
           else getMissingDocuments w p)
        /\ (documentType = "UNKNOWN" ->
            getMissingDocuments w' p = getMissingDocuments w p)
    | (_, w') => getMissingDocuments w' p = getMissingDocuments w p
    end.
Proof.
intros carriers plans w file now p.
destruct (processFile_cases carriers plans w file now)
  as [[Hs Hw] | (text & c & pl & Hx & Hnz & Hc & Hp & Hrej)].
- destruct (processFile carriers plans w file now) as [r w'].
  cbn [fst snd] in Hs, Hw. subst w'.
  destruct r; try reflexivity. discriminate Hs.
- rewrite (processFile_accepted carriers plans w file now text c pl
             Hx Hnz Hc Hp Hrej).
  set (e := parsePlanDocumentText text carriers plans).
  set (name := PlanDocument.filePath (acceptedDocument w file now e pl)).
  pose proof (getMissingDocuments_created (copyFile w name) (Plan.id pl)
                (Extracted.documentType e) (Upload.originalname file) name
                (Upload.size file) p) as M.
  assert (G : forall q, getMissingDocuments (copyFile w name) q
                        = getMissingDocuments w q) by reflexivity.
  rewrite G in M.
  assert (E : getMissingDocuments
                {| planDocuments :=
                     (planDocuments w ++ [acceptedDocument w file now e pl])%list;
                   nextDocumentId := (nextDocumentId w + 1)%Z;
                   uploaded_documents := (uploaded_documents w ++ [name])%list |}
                p
              = if (p =? Plan.id pl)%Z
                then filter (fun t => negb (String.eqb t (Extracted.documentType e)))
                       (getMissingDocuments w p)
                else getMissingDocuments w p) by exact M.
  split; [exact E|].
  intros Hu. rewrite E, Hu. destruct (p =? Plan.id pl)%Z; [|reflexivity].
  unfold getMissingDocuments. apply required_types_kept.
  cbn. intuition discriminate.
Qed.

(** ** Readiness and the documents of the current plan *)

Lemma hasSob_missing (w : World) (planId : Z) :
  existsb (fun doc => String.eqb (PlanDocument.documentType doc) "SOB")
    (getDocumentsByPlan w planId) = false
  <-> In "SOB" (getMissingDocuments w planId).
Proof.
rewrite getMissingDocuments_In. unfold getDocumentsByPlan. split.
- intros H. split; [now left|]. intros doc Hin Hid Hty.
  assert (X : existsb (fun d => String.eqb (PlanDocument.documentType d) "SOB")
                (filter (fun d => (PlanDocument.planId d =? planId)%Z)
                   (planDocuments w)) = true).
  { apply existsb_exists. exists doc. split.
    - apply filter_In. split; [exact Hin | now apply Z.eqb_eq].
    - rewrite Hty. reflexivity. }
  congruence.
- intros [_ H]. apply not_true_is_false. intros X.
  apply existsb_exists in X as (doc & Hd & Hty).
  apply filter_In in Hd as [Hin Hid]. apply Z.eqb_eq in Hid.
  apply String.eqb_eq in Hty. exact (H doc Hin Hid Hty).
Qed.

(** X17.  The readiness report warns that the current plan has no SOB
    document exactly when the client has a current plan id, the plan is in
    the catalogue, and SOB is among the plan's missing documents.  Hence the
    warning is gone once the batch handler has assigned an SOB document to
    that plan. *)
Theorem X17_sob_warning :
  forall (allPlans : list Plan.t) (w : World) (file : ClientFile.t),
    (In warnNoSob (Readiness.warnings (readiness allPlans w file))
     <-> exists planId currentPlan,
           Client.currentPlanId (ClientFile.client file) = Some planId
           /\ planId <> 0%Z
           /\ getPlan allPlans planId = Some currentPlan
           /\ In "SOB" (getMissingDocuments w planId))
    /\ (forall carriers plans upload now fileName carrier plan planId
               documentId confidence benefits w',
          processFile carriers plans w upload now
          = (Assigned fileName carrier plan planId "SOB" documentId confidence
               benefits, w') ->
          Client.currentPlanId (ClientFile.client file) = Some planId ->
          ~ In warnNoSob (Readiness.warnings (readiness allPlans w' file))).
Proof.
intros allPlans w file.
assert (Hchar : forall w0,
          In warnNoSob (Readiness.warnings (readiness allPlans w0 file))
          <-> exists planId currentPlan,
                Client.currentPlanId (ClientFile.client file) = Some planId
                /\ planId <> 0%Z
                /\ getPlan allPlans planId = Some currentPlan
                /\ In "SOB" (getMissingDocuments w0 planId)).
{ intros w0. unfold readiness.
  assert (Hother : forall l,
            In warnNoSob
              (l ++ (if (List.length (ClientFile.medications file) =? 0)%nat
                     then [warnNoMedications] else [])
                 ++ (if (List.length (ClientFile.doctors file) =? 0)%nat
                     then [warnNoDoctors] else []))%list
            <-> In warnNoSob l).
  { intros l. rewrite !in_app_iff.
    destruct (List.length (ClientFile.medications file) =? 0)%nat,
             (List.length (ClientFile.doctors file) =? 0)%nat; cbn;
      intuition discriminate. }
  destruct (Client.currentPlanId (ClientFile.client file)) as [id|];
    [|cbn [Readiness.warnings]; rewrite Hother; split;
      [intros [] | intros (? & ? & Hx & _); discriminate Hx]].
  destruct (id =? 0)%Z eqn:E0.
  { cbn [Readiness.warnings]. rewrite Hother. apply Z.eqb_eq in E0.
    split; [intros [] | intros (? & ? & [= <-] & Hn & _); contradiction]. }
  apply Z.eqb_neq in E0.
  destruct (getPlan allPlans id) as [cur|] eqn:Eg.
  - pose proof (getPlan_id _ _ _ Eg) as [_ Hid].
    cbn [Readiness.warnings]. rewrite Hother, Hid.
    pose proof (hasSob_missing w0 id) as Hs.
    destruct (existsb _ (getDocumentsByPlan w0 id)); cbn [negb].
    + split; [intros [] |].
      intros (? & ? & [= <-] & _ & _ & Hm). apply Hs in Hm. discriminate.
    + split; [|intros _; now left].
      intros _. exists id, cur. repeat split; auto. now apply Hs.
  - cbn [Readiness.warnings]. rewrite Hother.
    split; [intros [] | intros (? & ? & [= <-] & _ & Hx & _); congruence]. }
split; [apply Hchar|].
intros carriers plans upload now fileName carrier plan planId documentId
  confidence benefits w' Hp Hid Hwarn.
apply Hchar in Hwarn as (id & cur & Hid' & _ & _ & Hm).
rewrite Hid in Hid'. injection Hid' as <-.
pose proof (processFile_missing carriers plans w upload now planId)
  as M.
rewrite Hp in M. destruct M as [M _]. rewrite Z.eqb_refl in M.
rewrite M in Hm. apply filter_In in Hm as [_ Hm]. discriminate.
Qed.

(** ** Deleting a document *)

(** X18.  Deleting a document removes the rows of that id and keeps all
    others.  The file is looked for among the documents of plan 0 only: when
    no document of that id belongs to plan 0, the documents directory is
    left exactly as it was, so the file of a deleted document stays
    behind. *)
Theorem X18_delete_keeps_file :
  forall (w : World) (id : Z),
    (forall doc,
        In doc (planDocuments (deleteDocument w id))
        <-> In doc (planDocuments w) /\ PlanDocument.id doc <> id)
    /\ nextDocumentId (deleteDocument w id) = nextDocumentId w
    /\ ((forall doc, In doc (planDocuments w) -> PlanDocument.id doc = id ->
                     PlanDocument.planId doc <> 0%Z) ->
        uploaded_documents (deleteDocument w id) = uploaded_documents w)
    /\ (forall name,
          In name (uploaded_documents (deleteDocument w id)) ->
          In name (uploaded_documents w)).
Proof.
intros w id. unfold deleteDocument.
set (found := find (fun d => (PlanDocument.id d =? id)%Z) (getDocumentsByPlan w 0)).
assert (Hrows : planDocuments
                  (match found with
                   | Some doc => unlinkDocument w (PlanDocument.filePath doc)
                   | None => w
                   end) = planDocuments w)
  by (destruct found; reflexivity).
split; [|split; [|split]].
- intros doc. unfold deletePlanDocument. cbn [planDocuments].
  rewrite Hrows, filter_In, negb_true_iff, Z.eqb_neq. tauto.
- destruct found; reflexivity.
- intros Hnot. destruct found as [doc|] eqn:Ef; [|reflexivity].
  apply find_some in Ef as [Hin Hid]. apply Z.eqb_eq in Hid.
  unfold getDocumentsByPlan in Hin. apply filter_In in Hin as [Hin H0].
  apply Z.eqb_eq in H0. now elim (Hnot doc Hin Hid).
- intros name. destruct found as [doc|]; cbn; [|auto].
  intros H. now apply filter_In in H as [H _].
Qed.

(** ** Recommendations *)

Lemma recommendationCandidates_In (client : Client.t) (currentCarrierId : option Z)
    (carriers : list Carrier.t) (rows : list PlanRow.t) (r : PlanRow.t) :
  In r (recommendationCandidates client currentCarrierId carriers rows)
  <-> In r rows
      /\ sameString (Plan.stateCode (PlanRow.plan r)) (Client.state client) = true
      /\ passesRules client currentCarrierId r = true
      /\ skippedForMulticare client carriers r = false.
Proof.
unfold recommendationCandidates.
rewrite !filter_In, sortDesc_In, filter_In, negb_true_iff. tauto.
Qed.

Lemma getRecommendedPlans_In (client : Client.t) (currentCarrierId : option Z)
    (carriers : list Carrier.t) (rows : list PlanRow.t) (r : PlanRow.t) :
  In r (getRecommendedPlans client currentCarrierId carriers rows) ->
  JS.truthy (Client.state client) = true
  /\ In r (recommendationCandidates client currentCarrierId carriers rows).
Proof.
unfold getRecommendedPlans.
destruct (JS.truthy (Client.state client)); cbn [negb]; [|intros []].
intros H. split; [reflexivity|].
apply in_map_iff in H as ([r' c] & <- & H). apply firstn_In in H.
apply sortDesc_In, in_map_iff in H as (r'' & [= <- _] & H). exact H.
Qed.

(** X19.  Every recommended plan is a plan of the client's state, is not of
    the client's current carrier, lists the client's county up to case and
    surrounding blanks whenever the client has a county and the plan lists
    any, and is not of a carrier named Humana when the client uses
    Multicare.  At most three plans are recommended, none for a client
    without a state, and all candidates when no more than three pass these
    rules. *)
Theorem X19_recommendation_rules :
  forall (client : Client.t) (currentCarrierId : option Z)
         (carriers : list Carrier.t) (rows : list PlanRow.t),
    (forall r,
        In r (getRecommendedPlans client currentCarrierId carriers rows) ->
        In r rows
        /\ (exists state, Client.state client = Some state /\ state <> ""
              /\ Plan.stateCode (PlanRow.plan r) = Some state)
        /\ (forall id, currentCarrierId = Some id -> id <> 0%Z ->
                       Plan.carrierId (PlanRow.plan r) <> id)
        /\ (forall county c cs,
              Client.county client = Some county -> county <> "" ->
              Plan.counties (PlanRow.plan r) = Some (c :: cs) ->
              exists x, In x (c :: cs) /\ sameCountyLoose x county = true)
        /\ (Client.usesMulticare client = true ->
            forall carrier,
              find (fun c => (Carrier.id c =? Plan.carrierId (PlanRow.plan r))%Z)
                carriers = Some carrier ->
              JS.includes (JS.toLowerCase (Carrier.name carrier)) "humana"
              = false))
    /\ (List.length (getRecommendedPlans client currentCarrierId carriers rows)
        <= 3)%nat
    /\ (JS.truthy (Client.state client) = false ->
        getRecommendedPlans client currentCarrierId carriers rows = [])
    /\ (JS.truthy (Client.state client) = true ->
        (List.length
           (recommendationCandidates client currentCarrierId carriers rows)
         <= 3)%nat ->
        Permutation
          (getRecommendedPlans client currentCarrierId carriers rows)
          (recommendationCandidates client currentCarrierId carriers rows)).
Proof.
intros client ccid carriers rows. split; [|split; [|split]].
- intros r H. apply getRecommendedPlans_In in H as [Hst H].
  apply recommendationCandidates_In in H as (Hin & Hs & Hp & Hm).
  split; [exact Hin|]. split; [|split; [|split]].
  + destruct (Client.state client) as [[|a s]|]; try discriminate Hst.
    exists (String a s). split; [reflexivity|]. split; [discriminate|].
    unfold sameString in Hs.
    destruct (Plan.stateCode (PlanRow.plan r)) as [x|]; [|discriminate].
    apply String.eqb_eq in Hs. now subst.
  + intros id -> Hid Heq. unfold passesRules, truthyId, sameId in Hp.
    apply Z.eqb_neq in Hid. rewrite Hid, Heq, Z.eqb_refl in Hp.
    discriminate.
  + intros county c cs Hc Hne Hcs. unfold passesRules in Hp.
    rewrite Hc, Hcs in Hp.
    destruct (truthyId ccid && sameId _ ccid); [discriminate|].
    assert (Ht : JS.truthy (Some county) = true)
      by (destruct county; [now elim Hne | reflexivity]).
    rewrite Ht in Hp. apply existsb_exists in Hp. exact Hp.
  + intros Hu carrier Hf. unfold skippedForMulticare in Hm.
    rewrite Hu, Hf in Hm. exact Hm.
- unfold getRecommendedPlans.
  destruct (negb (JS.truthy (Client.state client))); [cbn; lia|].
  rewrite length_map, length_firstn. lia.
- intros H. unfold getRecommendedPlans. now rewrite H.
- intros Ht Hlen. unfold getRecommendedPlans. rewrite Ht. cbn [negb].
  rewrite firstn_all2.
  + rewrite (Permutation_map fst (sortDesc_perm _ _)), map_map.
    cbn [fst]. now rewrite map_id.
  + rewrite (Permutation_length (sortDesc_perm _ _)), length_map. exact Hlen.
Qed.

(** X20.  The recommended plans are the candidates with the most benefit
    columns filled in: they stand by decreasing completeness, which is
    between 0 and 50, and a candidate that is left out is no more complete
    than any recommended one. *)
Theorem X20_recommendation_ranking :
  forall (client : Client.t) (currentCarrierId : option Z)
         (carriers : list Carrier.t) (rows : list PlanRow.t),
    descending (fun r => inject_Z (completeness r))
      (getRecommendedPlans client currentCarrierId carriers rows)
    /\ (forall r, (0 <= completeness r <= 50)%Z)
    /\ (forall r r',
          In r (getRecommendedPlans client currentCarrierId carriers rows) ->
          JS.truthy (Client.state client) = true ->
          In r' (recommendationCandidates client currentCarrierId carriers rows) ->
          ~ In r' (getRecommendedPlans client currentCarrierId carriers rows) ->
          (completeness r' <= completeness r)%Z).
Proof.
intros client ccid carriers rows.
assert (Hsnd : forall l : list (PlanRow.t * Z),
           (forall sp, In sp l -> snd sp = completeness (fst sp)) ->
           descending (fun sp => inject_Z (snd sp)) l ->
           descending (fun r => inject_Z (completeness r)) (map fst l)).
{ unfold descending. induction l as [|sp l IH]; intros Hall Hd; cbn [map].
  - constructor.
  - inversion Hd as [|? ? Hs Hf]; subst. constructor.
    + apply IH; [intros x Hx; apply Hall; now right | exact Hs].
    + apply Forall_forall. intros r Hr.
      apply in_map_iff in Hr as (sp' & <- & Hin).
      rewrite Forall_forall in Hf. specialize (Hf sp' Hin). cbn beta in Hf.
      rewrite <- (Hall sp' (or_intror Hin)), <- (Hall sp (or_introl eq_refl)).
      exact Hf. }
set (scored := map (fun r => (r, completeness r))
                 (recommendationCandidates client ccid carriers rows)).
assert (Hscored : forall sp, In sp (sortDesc (fun sp => inject_Z (snd sp)) scored) ->
                             snd sp = completeness (fst sp)).
{ intros sp H. apply sortDesc_In, in_map_iff in H as (r & <- & _). reflexivity. }
pose proof (sortDesc_sorted (fun sp : PlanRow.t * Z => inject_Z (snd sp)) scored)
  as Hsorted.
rewrite <- (firstn_skipn 3 (sortDesc _ scored)) in Hsorted.
apply descending_split in Hsorted as [Hd Hc].
split; [|split].
- unfold getRecommendedPlans.
  destruct (negb (JS.truthy (Client.state client))); [constructor|].
  fold scored. apply Hsnd; [|exact Hd].
  intros sp H. apply Hscored. eapply firstn_In, H.
- intros r. unfold completeness.
  repeat match goal with
         | |- context [if ?c then _ else _] => destruct c
         end; lia.
- intros r r' Hr Ht Hr' Hout. unfold getRecommendedPlans in Hr, Hout.
  rewrite Ht in Hr, Hout. cbn [negb] in Hr, Hout. fold scored in Hr, Hout.
  apply in_map_iff in Hr as ([r0 c0] & Hfst & Hr). cbn in Hfst. subst r0.
  assert (Hin' : In (r', completeness r')
                   (sortDesc (fun sp => inject_Z (snd sp)) scored)).
  { apply sortDesc_In. unfold scored. apply in_map_iff. eauto. }
  rewrite <- (firstn_skipn 3 (sortDesc _ scored)) in Hin'.
  apply in_app_or in Hin' as [Hin'|Hin'].
  + elim Hout. apply in_map_iff. exists (r', completeness r'). auto.
  + pose proof (Hscored (r, c0) (firstn_In _ _ _ Hr)) as Hc0.
    cbn [fst snd] in Hc0. subst c0.
    specialize (Hc _ _ Hr Hin'). cbn [snd] in Hc.
    rewrite <- Zle_Qle in Hc. exact Hc.
Qed.

(** ** Completion status *)

(** X21.  The completion percentage is 25 for each of the four categories
    (personal information, medications, doctors, plans) that is complete:
    it is one of 0, 25, 50, 75 and 100, it is 100 exactly when all four are
    complete and 0 exactly when none is. *)
Theorem X21_completion_percentage :
  forall (client : Intake.t),
    let status := getClientCompletionStatus client in
    let count (b : bool) : Z := if b then 1%Z else 0%Z in
    Completion.completionPercentage status
    = (25 * (count (Completion.personalInfo status)
             + count (Completion.medications status)
             + count (Completion.doctors status)
             + count (Completion.plans status)))%Z
    /\ In (Completion.completionPercentage status) [0; 25; 50; 75; 100]%Z
    /\ (Completion.completionPercentage status = 100%Z
        <-> Completion.personalInfo status = true
            /\ Completion.medications status = true
            /\ Completion.doctors status = true
            /\ Completion.plans status = true)
    /\ (Completion.completionPercentage status = 0%Z
        <-> Completion.personalInfo status = false
            /\ Completion.medications status = false
            /\ Completion.doctors status = false
            /\ Completion.plans status = false).
Proof.
intros client. cbv zeta. unfold getClientCompletionStatus.
cbn [Completion.completionPercentage Completion.personalInfo
     Completion.medications Completion.doctors Completion.plans].
destruct (nonEmpty (Intake.fullName client) && nonEmpty (Intake.birthdate client)
          && nonEmpty (Intake.phoneNumber client)
          && nonEmpty (Intake.medicareNumber client));
  destruct (0 <? List.length (ClientFile.medications (Intake.file client)))%nat;
  destruct (0 <? List.length (ClientFile.doctors (Intake.file client)))%nat;
  destruct (truthyId (Client.currentPlanId (ClientFile.client (Intake.file client)))
            || truthyId (Intake.planId client));
  vm_compute; intuition (try discriminate; try reflexivity; auto).
Qed.

(** ** CSV import *)

Section CsvImport.
Variable rejects : ClientData.t -> option Thrown.
Variable headers : list string.

Lemma importLine_entry (t : ClientTable) (i : nat) (line : string) :
  rowOf (fst (importLine rejects headers t i line)) = (i + 1)%nat
  /\ (if isImported (fst (importLine rejects headers t i line))
      then exists data,
             hasRequired data = true /\ rejects data = None
             /\ clientRows (snd (importLine rejects headers t i line))
                = (clientRows t ++ [(nextClientId t, data)])%list
             /\ nextClientId (snd (importLine rejects headers t i line))
                = (nextClientId t + 1)%Z
      else snd (importLine rejects headers t i line) = t).
Proof.
unfold importLine.
set (data := clientDataOf _).
destruct (hasRequired data) eqn:Hr; cbn [negb]; [|split; reflexivity].
destruct (rejects data) as [[m|]|] eqn:Hj; cbn; try (split; reflexivity).
split; [reflexivity|]. exists data. auto.
Qed.

Lemma importLines_rows (lines : list string) (t : ClientTable) (i : nat) :
  map rowOf (fst (importLines rejects headers t i lines))
  = seq (i + 1) (List.length lines).
Proof.
revert t i. induction lines as [|line rest IH]; intros t i; [reflexivity|].
cbn [importLines].
pose proof (importLine_entry t i line) as [Hrow _].
destruct (importLine rejects headers t i line) as [e t1].
specialize (IH t1 (S i)).
destruct (importLines rejects headers t1 (S i) rest) as [es t2].
cbn [fst map List.length seq] in *. rewrite Hrow, IH. reflexivity.
Qed.

Lemma importLines_table (lines : list string) (t : ClientTable) (i : nat) :
  exists added,
    clientRows (snd (importLines rejects headers t i lines))
    = (clientRows t ++ added)%list
    /\ List.length added
       = List.length (filter isImported (fst (importLines rejects headers t i lines)))
    /\ Forall (fun r => hasRequired (snd r) = true /\ rejects (snd r) = None) added.
Proof.
revert t i. induction lines as [|line rest IH]; intros t i.
- exists []. cbn. rewrite app_nil_r. auto.
- cbn [importLines].
  pose proof (importLine_entry t i line) as [_ He].
  destruct (importLine rejects headers t i line) as [e t1].
  destruct (IH t1 (S i)) as (added & Hrows & Hlen & Hall).
  destruct (importLines rejects headers t1 (S i) rest) as [es t2].
  cbn [fst snd filter] in *.
  destruct (isImported e).
  + destruct He as (data & Hreq & Hrej & Ht1 & _).
    exists ((nextClientId t, data) :: added).
    rewrite Hrows, Ht1, <- app_assoc. cbn [app List.length].
    split; [reflexivity|]. split; [now rewrite Hlen|].
    constructor; [cbn; auto | exact Hall].
  + subst t1. exists added. auto.
Qed.

End CsvImport.

Lemma seq_sorted (n k : nat) : Sorted lt (seq k n).
Proof.
revert k. induction n as [|n IH]; intros k; cbn [seq]; [constructor|].
constructor; [apply IH|]. destruct n; constructor. lia.
Qed.

Lemma filter_partition_length {A : Type} (f : A -> bool) (l : list A) :
  (List.length (filter f l) + List.length (filter (fun x => negb (f x)) l)
   = List.length l)%nat.
Proof.
induction l as [|x l IH]; cbn [filter]; [reflexivity|].
destruct (f x); cbn [negb List.length]; lia.
Qed.

(** X22.  The import answers 400, and inserts nothing, when the file has
    fewer than two non-blank lines.  Otherwise every non-blank line after
    the header is accounted for once, as imported or as an error: the two
    counts add up to the number of those lines, the entries carry the line
    numbers 2, 3, ... in order, and the table grows by exactly the imported
    count. *)
Theorem X22_csv_accounting :
  forall (rejects : ClientData.t -> option Thrown) (t : ClientTable)
         (fileContent : string),
    let lines :=
      filter (fun line => negb (String.length (JS.trim line) =? 0)%nat)
        (split newline fileContent) in
    match importCsv rejects t fileContent with
    | (ImportRefused status _, t') =>
        status = 400%Z /\ t' = t /\ (List.length lines < 2)%nat
    | (ImportReport imported errors importedRows errorRows, t') =>
        (imported + errors + 1 = List.length lines)%nat
        /\ imported = List.length importedRows
        /\ errors = List.length errorRows
        /\ Permutation (map rowOf importedRows ++ map rowOf errorRows)
             (seq 2 (imported + errors))
        /\ Sorted lt (map rowOf importedRows)
        /\ Sorted lt (map rowOf errorRows)
        /\ List.length (clientRows t')
           = (List.length (clientRows t) + imported)%nat
    end.
Proof.
intros rejects t fileContent. cbv zeta. unfold importCsv.
set (lines := filter _ (split newline fileContent)).
destruct lines as [|header [|l1 rest]]; try (cbn; repeat split; lia).
set (headers := map _ (split comma header)).
pose proof (importLines_rows rejects headers (l1 :: rest) t 1) as Hrows.
destruct (importLines_table rejects headers (l1 :: rest) t 1)
  as (added & Htab & Hlen & _).
destruct (importLines rejects headers t 1 (l1 :: rest)) as [entries t'].
cbn [fst snd] in *.
pose proof (filter_partition_length isImported entries) as Hpart.
assert (Hn : List.length entries = List.length (l1 :: rest)).
{ rewrite <- (length_map rowOf entries), Hrows. apply length_seq. }
assert (Hsorted : forall f, Sorted lt (map rowOf (filter f entries))).
{ intros f. apply StronglySorted_Sorted.
  assert (Hs : StronglySorted lt (map rowOf entries)).
  { rewrite Hrows. apply Sorted_StronglySorted; [exact Nat.lt_trans|].
    apply seq_sorted. }
  clear - Hs. induction entries as [|e es IH]; cbn [filter map] in *;
    [constructor|].
  inversion Hs as [|? ? Hs' Hf]; subst.
  destruct (f e); cbn [map]; [|auto].
  constructor; [auto|].
  apply Forall_forall. intros r Hr. rewrite Forall_forall in Hf. apply Hf.
  apply in_map_iff in Hr as (x & <- & Hx). apply filter_In in Hx as [Hx _].
  apply in_map. exact Hx. }
split; [cbn [List.length] in *; lia|]. split; [reflexivity|].
split; [reflexivity|]. split; [|split; [apply Hsorted|split; [apply Hsorted|]]].
- rewrite Hpart, Hn, <- map_app.
  replace (seq 2 (List.length (l1 :: rest))) with (map rowOf entries)
    by exact Hrows.
  apply Permutation_map.
  clear. induction entries as [|e es IH]; cbn [filter]; [constructor|].
  destruct (isImported e); cbn [negb app].
  + now constructor.
  + symmetry. apply Permutation_cons_app. symmetry. exact IH.
- rewrite Htab, length_app, Hlen. reflexivity.
Qed.

(** X23.  Whatever the file holds, every row that the import adds to the
    table has a non-empty name, birthdate, phone number, Medicare number and
    social security number, and is a record that the database accepted;
    the existing rows are kept. *)
Theorem X23_csv_imports_complete_rows :
  forall (rejects : ClientData.t -> option Thrown) (t : ClientTable)
         (fileContent : string),
    exists added,
      clientRows (snd (importCsv rejects t fileContent))
      = (clientRows t ++ added)%list
      /\ Forall (fun r =>
                   ClientData.fullName (snd r) <> ""
                   /\ ClientData.birthdate (snd r) <> ""
                   /\ ClientData.phoneNumber (snd r) <> ""
                   /\ ClientData.medicareNumber (snd r) <> ""
                   /\ ClientData.socialSecurityNumber (snd r) <> ""
                   /\ rejects (snd r) = None) added.
Proof.
intros rejects t fileContent. unfold importCsv.
set (lines := filter _ (split newline fileContent)).
destruct lines as [|header [|l1 rest]];
  try solve [exists []; cbn; rewrite app_nil_r; auto].
set (headers := map _ (split comma header)).
destruct (importLines_table rejects headers (l1 :: rest) t 1)
  as (added & Htab & _ & Hall).
destruct (importLines rejects headers t 1 (l1 :: rest)) as [entries t'].
cbn [snd] in *. exists added. split; [exact Htab|].
eapply Forall_impl; [|exact Hall]. cbv beta.
intros [id d] [Hreq Hrej]. cbn [snd] in *. unfold hasRequired, nonEmpty in Hreq.
repeat (apply andb_true_iff in Hreq as [Hreq ?]).
repeat split; try exact Hrej;
  match goal with
  | H : JS.truthy (Some ?f) = true |- ?f <> _ =>
      let E := fresh "E" in intros E; rewrite E in H; discriminate H
  end.
Qed.

Lemma field_absent (headers values : list string) (key : string) :
  ~ In key headers -> field (buildRow headers values) key = None.
Proof.
revert values. induction headers as [|h hs IH]; intros values Hn;
  cbn [buildRow field]; [reflexivity|].
rewrite IH by (intros H; apply Hn; now right).
destruct (String.eqb h key) eqn:E; [|reflexivity].
apply String.eqb_eq in E. elim Hn. now left.
Qed.

(** X24.  A cell is found under its header: for the last column that
    carries a given header, looking the header up in the row gives the cell
    of that column, or the empty string when the line has no such cell; a
    header that the file does not have gives nothing. *)
Theorem X24_csv_cell_lookup :
  forall (headers values : list string) (i : nat) (header : string),
    (nth_error headers i = Some header ->
     (forall j, (i < j)%nat -> nth_error headers j <> Some header) ->
     field (buildRow headers values) header = Some (nth i values ""))
    /\ (~ In header headers -> field (buildRow headers values) header = None).
Proof.
intros headers values i header. split; [|apply field_absent].
revert values i.
induction headers as [|h hs IH]; intros values i Hi Hlast.
- destruct i; discriminate Hi.
- cbn [buildRow field]. destruct i as [|i].
  + cbn in Hi. injection Hi as ->.
    rewrite field_absent.
    * rewrite String.eqb_refl. now destruct values.
    * intros Hin. apply In_nth_error in Hin as [j Hj].
      apply (Hlast (S j)); [lia | exact Hj].
  + cbn in Hi. rewrite (IH _ i Hi).
    * destruct values; [destruct i|]; reflexivity.
    * intros j Hj. apply (Hlast (S j)). lia.
Qed.

(** ** Applying extracted benefits *)





(** ** The rewritings of [parseOCRText] *)

Section Rewritings.

Lemma digit_not_space (c : ascii) : JS.isDigit c = true -> JS.isSpace c = false.
Proof. destruct c as [[] [] [] [] [] [] [] []]; vm_compute; congruence. Qed.

Lemma separator_not_digit (c : ascii) :
  isPhoneSeparator c = true -> JS.isDigit c = false.
Proof. destruct c as [[] [] [] [] [] [] [] []]; vm_compute; congruence. Qed.

Lemma openParen_is (c : ascii) : isOpenParen c = true -> c = "("%char.
Proof. destruct c as [[] [] [] [] [] [] [] []]; vm_compute; congruence. Qed.

Lemma closeParen_is (c : ascii) : isCloseParen c = true -> c = ")"%char.
Proof. destruct c as [[] [] [] [] [] [] [] []]; vm_compute; congruence. Qed.

Lemma hyphen_is (c : ascii) : isHyphen c = true -> c = "-"%char.
Proof. destruct c as [[] [] [] [] [] [] [] []]; vm_compute; congruence. Qed.

Lemma allSpace_app_false (x y : string) :
  JS.allSpace y = false -> JS.allSpace (x ++ y) = false.
Proof.
intros H. induction x as [|c x IH]; [exact H|].
cbn [append JS.allSpace]. rewrite IH. apply andb_false_r.
Qed.

Lemma trimEnd_app (x y : string) :
  JS.allSpace y = false -> JS.trimEnd y = y -> JS.trimEnd (x ++ y) = x ++ y.
Proof.
intros Hs Ht. induction x as [|c x IH]; [exact Ht|].
change (String c x ++ y) with (String c (x ++ y)).
pose proof (allSpace_app_false (String c x) y Hs) as Hf.
change (String c x ++ y) with (String c (x ++ y)) in Hf.
unfold JS.trimEnd; fold JS.trimEnd. rewrite Hf, IH. reflexivity.
Qed.

Lemma digits_trimmed (s : string) :
  s <> "" -> allDigits s = true -> JS.allSpace s = false /\ JS.trimEnd s = s.
Proof.
induction s as [|c s IH]; [congruence|]. intros _ Hd.
cbn [allDigits] in Hd. apply andb_true_iff in Hd as [Hc Hd].
apply digit_not_space in Hc.
assert (Hf : JS.allSpace (String c s) = false) by (cbn [JS.allSpace]; now rewrite Hc).
split; [exact Hf|]. unfold JS.trimEnd; fold JS.trimEnd. rewrite Hf.
destruct s as [|d s]; [reflexivity|].
now rewrite (proj2 (IH ltac:(discriminate) Hd)).
Qed.

Lemma digitsOf_app (x y : string) : digitsOf (x ++ y) = digitsOf x ++ digitsOf y.
Proof.
induction x as [|c x IH]; [reflexivity|]. cbn [append digitsOf].
destruct (JS.isDigit c); cbn [append]; now rewrite IH.
Qed.

Lemma digitsOf_digits (s : string) : allDigits s = true -> digitsOf s = s.
Proof.
induction s as [|c s IH]; [reflexivity|]. cbn [allDigits digitsOf].
intros H. apply andb_true_iff in H as [-> H]. now rewrite IH.
Qed.

Lemma digitsOf_optional (allowed : ascii -> bool) (s : string) :
  (forall c, allowed c = true -> JS.isDigit c = false) ->
  optionalChar allowed s -> digitsOf s = "".
Proof.
intros Hn [->|[c [-> Hc]]]; [reflexivity|]. cbn [digitsOf].
now rewrite (Hn c Hc).
Qed.

End Rewritings.

Ltac digit_group H :=
  let Hl := fresh "Hl" in
  let Hd := fresh "Hd" in
  destruct H as [Hl Hd];
  repeat match type of Hl with
         | String.length ?s = _ =>
             is_var s; destruct s; cbn [String.length] in Hl;
             try discriminate Hl; try apply eq_add_S in Hl
         end;
  clear Hl; cbn [allDigits] in Hd;
  repeat match type of Hd with
         | _ && _ = true =>
             let Hc := fresh "Hc" in apply andb_true_iff in Hd as [Hc Hd]
         end;
  clear Hd.


Lemma trimStart_nonspace (c : ascii) (s : string) :
  JS.isSpace c = false -> JS.trimStart (String c s) = String c s.
Proof. intros H. cbn [JS.trimStart]. now rewrite H. Qed.

Lemma trim_capture (x c : string) :
  (forall y, exists ch rest, JS.isSpace ch = false /\ x ++ y = String ch rest) ->
  c <> "" -> allDigits c = true ->
  JS.trim (x ++ c) = x ++ c.
Proof.
intros Hx Hc Hd. unfold JS.trim. destruct (Hx c) as [ch [rest [Hs E]]].
rewrite E, (trimStart_nonspace _ _ Hs), <- E.
destruct (digits_trimmed c Hc Hd) as [Hf Ht]. now apply trimEnd_app.
Qed.

(** X26.  The telephone field.  A capture of the telephone pattern is an
    optional opening parenthesis, three digits, an optional closing
    parenthesis, an optional separator (white space, full stop or hyphen),
    three digits, an optional separator and four digits.  Whatever the
    optional parts are, the field stored is [(ddd) ddd-dddd] with the digits
    of the capture in their order; the stored form is itself such a capture
    and is stored unchanged. *)
Theorem X26_phone_field :
  forall op a cp s1 b s2 c : string,
    optionalChar isOpenParen op -> digitGroup 3 a ->
    optionalChar isCloseParen cp -> optionalChar isPhoneSeparator s1 ->
    digitGroup 3 b -> optionalChar isPhoneSeparator s2 -> digitGroup 4 c ->
    phoneField (op ++ a ++ cp ++ s1 ++ b ++ s2 ++ c)
    = "(" ++ a ++ ") " ++ b ++ "-" ++ c
    /\ phoneField ("(" ++ a ++ ") " ++ b ++ "-" ++ c)
       = "(" ++ a ++ ") " ++ b ++ "-" ++ c.
Proof.
assert (Main : forall op a cp s1 b s2 c : string,
    optionalChar isOpenParen op -> digitGroup 3 a ->
    optionalChar isCloseParen cp -> optionalChar isPhoneSeparator s1 ->
    digitGroup 3 b -> optionalChar isPhoneSeparator s2 -> digitGroup 4 c ->
    phoneField (op ++ a ++ cp ++ s1 ++ b ++ s2 ++ c)
    = "(" ++ a ++ ") " ++ b ++ "-" ++ c).
{ intros op a cp s1 b s2 c Hop Ha Hcp Hs1 Hb Hs2 Hc.
  unfold phoneField, formatPhone.
  assert (Et : JS.trim (op ++ a ++ cp ++ s1 ++ b ++ s2 ++ c)
               = op ++ a ++ cp ++ s1 ++ b ++ s2 ++ c).
  { rewrite <- !append_assoc. apply trim_capture.
    - intros y. rewrite !append_assoc. destruct Ha as [Hl Hd].
      destruct a as [|a1 a]; [discriminate Hl|]. cbn [allDigits] in Hd.
      apply andb_true_iff in Hd as [Hd _]. apply digit_not_space in Hd.
      destruct Hop as [->|[ch [-> Hch]]].
      + exists a1. eexists. split; [exact Hd | reflexivity].
      + apply openParen_is in Hch. subst ch. exists "("%char. eexists.
        split; reflexivity.
    - destruct Hc as [Hl _]. destruct c; [discriminate Hl | discriminate].
    - apply Hc. }
  rewrite Et, !digitsOf_app.
  rewrite (digitsOf_optional isOpenParen op), (digitsOf_optional isCloseParen cp),
    (digitsOf_optional isPhoneSeparator s1), (digitsOf_optional isPhoneSeparator s2),
    (digitsOf_digits a), (digitsOf_digits b), (digitsOf_digits c);
    try assumption; try apply separator_not_digit;
    try (now apply Ha); try (now apply Hb); try (now apply Hc);
    try (intros ch Hch; first [apply closeParen_is in Hch
                              | apply openParen_is in Hch]; now subst ch).
  digit_group Ha. digit_group Hb. digit_group Hc.
  cbn [append groupPhone phoneAt].
  repeat match goal with H : JS.isDigit _ = true |- _ => rewrite H; clear H end.
  reflexivity. }
intros op a cp s1 b s2 c Hop Ha Hcp Hs1 Hb Hs2 Hc.
split; [now apply Main|].
apply (Main "(" a ")" " " b "-" c); try assumption;
  right; eexists; (split; [reflexivity|]); reflexivity.
Qed.

(** X27.  The social-security field.  A capture of the pattern is three
    digits, an optional hyphen, two digits, an optional hyphen and four
    digits.  With both hyphens or with none the field stored is
    [ddd-dd-dddd]; with exactly one hyphen the capture is stored as it was
    read, since it holds no run of nine digits for the rewriting to match. *)
Theorem X27_ssn_field :
  forall a h1 b h2 c : string,
    digitGroup 3 a -> optionalChar isHyphen h1 -> digitGroup 2 b ->
    optionalChar isHyphen h2 -> digitGroup 4 c ->
    ssnField (a ++ h1 ++ b ++ h2 ++ c)
    = if (String.eqb h1 h2) then a ++ "-" ++ b ++ "-" ++ c
      else a ++ h1 ++ b ++ h2 ++ c.
Proof.
intros a h1 b h2 c Ha Hh1 Hb Hh2 Hc. unfold ssnField.
assert (Et : JS.trim (a ++ h1 ++ b ++ h2 ++ c) = a ++ h1 ++ b ++ h2 ++ c).
{ rewrite <- !append_assoc. apply trim_capture.
  - intros y. rewrite !append_assoc. destruct Ha as [Hl Hd].
    destruct a as [|a1 a]; [discriminate Hl|]. cbn [allDigits] in Hd.
    apply andb_true_iff in Hd as [Hd _]. apply digit_not_space in Hd.
    exists a1. eexists. split; [exact Hd | reflexivity].
  - destruct Hc as [Hl _]. destruct c; [discriminate Hl | discriminate].
  - apply Hc. }
rewrite Et. clear Et.
digit_group Ha. digit_group Hb. digit_group Hc.
destruct Hh1 as [->|[x [-> Hx]]]; [|apply hyphen_is in Hx; subst x];
  (destruct Hh2 as [->|[y [-> Hy]]]; [|apply hyphen_is in Hy; subst y]);
  cbn [String.eqb Ascii.eqb Bool.eqb append];
  repeat (cbn [formatSsn ssnAt];
          repeat match goal with
                 | H : JS.isDigit _ = true |- _ => rewrite !H
                 end;
          change (JS.isDigit "-") with false;
          cbn [andb]; rewrite ?andb_false_r);
  reflexivity.
Qed.

(** ** The properties at work on the sample data *)

Lemma X2_witness :
  Extracted.carrier
    (parsePlanDocumentText flyerText [aetna; humana] [goldPlan; advantageGold])
  = Some aetna
  /\ In aetna [aetna; humana]
  /\ 50 # 1 <= carrierScore (JS.toUpperCase flyerText) aetna.
Proof.
  assert (H : Extracted.carrier
                (parsePlanDocumentText flyerText [aetna; humana]
                   [goldPlan; advantageGold]) = Some aetna)
    by (vm_compute; reflexivity).
  split; [exact H|].
  destruct (proj1 (X2_carrier_selection flyerText [aetna; humana]
                     [goldPlan; advantageGold]) aetna H) as (Hin & Hs & _).
  split; [exact Hin | exact Hs].
Defined.

Lemma X3_witness :
  Extracted.plan
    (parsePlanDocumentText flyerText [aetna; humana] [goldPlan; advantageGold])
  = Some goldPlan
  /\ In goldPlan [goldPlan; advantageGold]
  /\ 40 # 1 <= planScore (JS.toUpperCase flyerText) (foundPlanIdsOf flyerText)
                 goldPlan.
Proof.
  assert (H : Extracted.plan
                (parsePlanDocumentText flyerText [aetna; humana]
                   [goldPlan; advantageGold]) = Some goldPlan)
    by (vm_compute; reflexivity).
  split; [exact H|].
  exact (proj1 (X3_plan_selection flyerText [aetna; humana]
                  [goldPlan; advantageGold]) goldPlan H).
Defined.

Lemma X4_witness :
  (45 <= Extracted.confidence
           (parsePlanDocumentText handbookText [aetna] [goldPlan]))%Z
  /\ acceptable (parsePlanDocumentText handbookText [aetna] [goldPlan]).
Proof.
  refine (proj1 (proj1 (X4_confidence_levels handbookText [aetna] [goldPlan])
                   aetna goldPlan _ _) _);
    vm_compute; reflexivity.
Defined.


Lemma X8_witness :
  extractTextFromDocument scannedPdf = Throws (ErrorWith scannedPdfMessage)
  /\ exists m,
       ErrorWith scannedPdfMessage = ErrorWith m
       /\ (m = scannedPdfMessage \/ m = pdfFailureMessage
           \/ (Upload.pdfText scannedPdf = Throws (ErrorWith m)
               /\ JS.includes m "scanned PDF" = true)).
Proof.
  split; [reflexivity|].
  exact (proj2 (proj1 (X8_extraction_outcomes scannedPdf) eq_refl)
           (ErrorWith scannedPdfMessage) eq_refl).
Defined.

Lemma X9_witness :
  Scored.reasons (scorePlan sampleCurrent sampleCurrent) = []
  /\ Scored.score (scorePlan sampleCurrent sampleCurrent) = 100%Z.
Proof.
  split; [reflexivity|].
  apply (proj2 (proj2 (X9_score_bounds sampleCurrent sampleCurrent))).
  reflexivity.
Defined.

Lemma X11_witness :
  compare sampleClient [sampleCurrent; sampleB; sampleA]
  = Comparison sampleCurrent
      [scorePlan sampleCurrent sampleA; scorePlan sampleCurrent sampleB] 2
  /\ List.length [scorePlan sampleCurrent sampleA; scorePlan sampleCurrent sampleB]
     = Nat.min 3 2
  /\ descending scoreOf
       [scorePlan sampleCurrent sampleA; scorePlan sampleCurrent sampleB].
Proof.
  assert (H : compare sampleClient [sampleCurrent; sampleB; sampleA]
              = Comparison sampleCurrent
                  [scorePlan sampleCurrent sampleA;
                   scorePlan sampleCurrent sampleB] 2)
    by (vm_compute; reflexivity).
  split; [exact H|].
  destruct (X11_recommendations_ranked _ _ _ _ _ H) as (Hl & Hd & _).
  split; [exact Hl | exact Hd].
Defined.

Lemma X12_witness :
  finiteLe (numberOf (Plan.monthlyPremium sampleA) "0")
           (numberOf (Plan.monthlyPremium sampleB) "0")
  /\ (Scored.score (scorePlan sampleCurrent sampleB)
      <= Scored.score (scorePlan sampleCurrent sampleA))%Z.
Proof.
  split; [vm_compute; discriminate|].
  apply X12_score_monotone; try reflexivity; vm_compute; discriminate.
Defined.

Lemma X13_witness :
  Readiness.ready
    (readiness [sampleCurrent; sampleB; sampleA] emptyWorld sampleFile) = true
  /\ exists currentPlan recommended n,
       compare sampleClient [sampleCurrent; sampleB; sampleA]
       = Comparison currentPlan recommended n.
Proof.
  split; [reflexivity|].
  apply (proj2 (proj2 (X13_ready_means_comparable
                         [sampleCurrent; sampleB; sampleA] emptyWorld sampleFile))).
  - reflexivity.
  - exists sampleCurrent. split; [now left | reflexivity].
Defined.

Lemma X24_witness :
  field (buildRow ["fullName"; "phoneNumber"; "fullName"]
           ["Ann Lee"; "2065550142"; "Ann B. Lee"]) "fullName"
  = Some "Ann B. Lee"
  /\ field (buildRow ["fullName"; "phoneNumber"] ["Ann Lee"]) "phoneNumber"
     = Some ""
  /\ field (buildRow ["fullName"] ["Ann Lee"]) "county" = None.
Proof.
  split; [|split].
  - apply (proj1 (X24_csv_cell_lookup ["fullName"; "phoneNumber"; "fullName"]
                    ["Ann Lee"; "2065550142"; "Ann B. Lee"] 2 "fullName"));
      [reflexivity|].
    intros [|[|[|[|j]]]] Hj; try lia; discriminate.
  - apply (proj1 (X24_csv_cell_lookup ["fullName"; "phoneNumber"] ["Ann Lee"]
                    1 "phoneNumber")); [reflexivity|].
    intros [|[|[|j]]] Hj; try lia; discriminate.
  - apply (proj2 (X24_csv_cell_lookup ["fullName"] ["Ann Lee"] 0 "county")).
    intros [H|[]]. discriminate H.
Defined.

Lemma X26_witness :
  phoneField "(206) 555.0142" = "(206) 555-0142"
  /\ phoneField "2065550142" = "(206) 555-0142".
Proof.
  split.
  - refine (proj1 (X26_phone_field "(" "206" ")" " " "555" "." "0142"
                     _ _ _ _ _ _ _));
      try (split; reflexivity);
      right; eexists; (split; [reflexivity|]); reflexivity.
  - refine (proj1 (X26_phone_field "" "206" "" "" "555" "" "0142"
                     _ _ _ _ _ _ _));
      try (split; reflexivity); now left.
Defined.

Lemma X27_witness :
  ssnField "123456789" = "123-45-6789"
  /\ ssnField "123-45-6789" = "123-45-6789"
  /\ ssnField "123-456789" = "123-456789".
Proof.
  split; [|split].
  - refine (X27_ssn_field "123" "" "45" "" "6789" _ _ _ _ _);
      try (split; reflexivity); now left.
  - refine (X27_ssn_field "123" "-" "45" "-" "6789" _ _ _ _ _);
      try (split; reflexivity);
      right; eexists; (split; [reflexivity|]); reflexivity.
  - refine (X27_ssn_field "123" "-" "45" "" "6789" _ _ _ _ _);
      try (split; reflexivity); try (now left);
      right; eexists; (split; [reflexivity|]); reflexivity.
Defined.

Lemma X17_witness :
  In "SOB" (getMissingDocuments emptyWorld 10)
  /\ In warnNoSob (Readiness.warnings (readiness [goldPlan] emptyWorld goldFile))
  /\ ~ In warnNoSob
         (Readiness.warnings
            (readiness [goldPlan]
               (snd (processFile [aetna] [goldPlan] emptyWorld sobUpload
                       1700000000000))
               goldFile)).
Proof.
  assert (Hm : In "SOB" (getMissingDocuments emptyWorld 10)) by now left.
  split; [exact Hm|]. split.
  - apply (proj1 (X17_sob_warning [goldPlan] emptyWorld goldFile)).
    exists 10%Z, goldPlan.
    split; [reflexivity|]. split; [discriminate|]. split; [reflexivity|exact Hm].
  - refine (proj2 (X17_sob_warning [goldPlan] emptyWorld goldFile)
              [aetna] [goldPlan] sobUpload 1700000000000%Z _ _ _ 10%Z _ _ _ _ _ _).
    + vm_compute. reflexivity.
    + reflexivity.
Defined.

Lemma X18_witness :
  planDocuments handbookFiled <> []
  /\ planDocuments (deleteDocument handbookFiled 1) = []
  /\ uploaded_documents (deleteDocument handbookFiled 1)
     = uploaded_documents handbookFiled
  /\ uploaded_documents handbookFiled <> [].
Proof.
  split; [vm_compute; discriminate|]. split; [reflexivity|].
  split; [|vm_compute; discriminate].
  apply (proj1 (proj2 (proj2 (X18_delete_keeps_file handbookFiled 1)))).
  intros doc [<-|[]] _. vm_compute. discriminate.
Defined.

Lemma X19_witness :
  getRecommendedPlans goldClient (Some 1%Z) [aetna; humana; regence]
    [aetnaRow; humanaRow; regenceRow]
  = [regenceRow]
  /\ Plan.carrierId (PlanRow.plan regenceRow) <> 1%Z
  /\ exists x, In x [" KING "; "Pierce"] /\ sameCountyLoose x "King" = true.
Proof.
  assert (H : getRecommendedPlans goldClient (Some 1%Z) [aetna; humana; regence]
                [aetnaRow; humanaRow; regenceRow] = [regenceRow])
    by (vm_compute; reflexivity).
  split; [exact H|].
  destruct (proj1 (X19_recommendation_rules goldClient (Some 1%Z)
                     [aetna; humana; regence] [aetnaRow; humanaRow; regenceRow])
              regenceRow) as (_ & _ & Hc & Hk & _).
  - rewrite H. now left.
  - split.
    + apply (Hc 1%Z); [reflexivity | discriminate].
    + apply (Hk "King" " KING " ["Pierce"]); [reflexivity | discriminate | reflexivity].
Defined.

Lemma X20_witness :
  getRecommendedPlans sampleClient None [aetna; humana; regence]
    [regenceRow; aetnaRow; humanaRow; mkRow sampleB None]
  = [aetnaRow; humanaRow; regenceRow]
  /\ (completeness (mkRow sampleB None) <= completeness regenceRow)%Z.
Proof.
  assert (H : getRecommendedPlans sampleClient None [aetna; humana; regence]
                [regenceRow; aetnaRow; humanaRow; mkRow sampleB None]
              = [aetnaRow; humanaRow; regenceRow])
    by (vm_compute; reflexivity).
  split; [exact H|].
  apply (proj2 (proj2 (X20_recommendation_ranking sampleClient None
                         [aetna; humana; regence]
                         [regenceRow; aetnaRow; humanaRow; mkRow sampleB None]))).
  - rewrite H. right. right. now left.
  - reflexivity.
  - vm_compute. right. right. right. now left.
  - rewrite H. intros [E|[E|[E|[]]]]; discriminate E.
Defined.
